(** * Solana agent kit: wallet, transfer, staking and swap orchestrators

    A shallow embedding of the JavaScript sources

      - src/wallet.js              (Wallet.getBalance, getTokenBalance,
                                    getAllTokenBalances)
      - src/transfer.js            (Transfer.sendSol, Transfer.sendToken)
      - src/stake.js               (Staking.resolveValidator, stake,
                                    getStakeAccounts, unstake, withdraw)
      - src/swap.js                (Swapper.resolveMint, getQuote, swap,
                                    getPrice)
      - src/integrations/agentdex  (AgentDEXClient: the constructor and
                                    every method)
      - src/server.js              (loadWallet, parseBody, json, error,
                                    handleRequest)
      - src/cli.js                 (loadWallet, main)

    JavaScript numbers are IEEE-754 doubles and are modelled by Rocq's
    primitive binary64 floats, BigInts by [Z], strings by [string], thrown
    values by a record carrying [name] and [message], and the remote
    collaborators (ledger RPC, SDK helpers, HTTP) by a record of oracles
    together with a trace of the calls made, in order. *)

From Stdlib Require Import ZArith Floats Lia Ascii String.
From stdpp Require Import base strings list pretty.

Local Open Scope string_scope.
Local Open Scope Z_scope.

(** A decimal literal such as [1e-10] stands for the nearest double, as it
    does in JavaScript. *)
#[local] Set Warnings "-inexact-float,-register-all".

(* ===================================================================== *)
(** * 1. The JavaScript runtime fragment the sources rely on              *)
(* ===================================================================== *)

Module JS.

(** ** Numbers *)

(** [Number(n)] for a BigInt or an integer literal: the double nearest to
    the integer, ties to even. *)
Definition Z2float (z : Z) : float :=
  SF2Prim (binary_normalize prec emax z 0 false).

(** The integer part, rounded towards minus infinity, of the real number a
    finite double denotes; [None] for NaN and the infinities. *)
Definition floorZ (x : float) : option Z :=
  match Prim2SF x with
  | S754_zero _ => Some 0
  | S754_finite s m e => Some (Z.shiftl (if s then Zneg m else Zpos m) e)
  | S754_infinity _ | S754_nan => None
  end.

(** [Math.floor]: NaN, the infinities, the zeros and every double that is
    already an integer (exponent >= 0) are returned as they are. *)
Definition Math_floor (x : float) : float :=
  match Prim2SF x with
  | S754_finite s m e =>
      if e <? 0 then Z2float (Z.shiftl (if s then Zneg m else Zpos m) e)
      else x
  | _ => x
  end.

(** [Math.pow(10, n)] for a small natural exponent: every intermediate
    product is an exactly representable integer. *)
Fixpoint Math_pow10 (n : nat) : float :=
  match n with
  | O => 1%float
  | S k => (10 * Math_pow10 k)%float
  end.

(** The integer a double denotes, when it denotes one. *)
Definition integerValue (x : float) : option Z :=
  match Prim2SF x with
  | S754_zero _ => Some 0
  | S754_finite s m e =>
      let sm := if s then Zneg m else Zpos m in
      if 0 <=? e then Some (Z.shiftl sm e)
      else if Z.shiftl (Z.shiftl sm e) (- e) =? sm
           then Some (Z.shiftl sm e) else None
  | _ => None
  end.

(** ** Strings *)

(** [String.prototype.toUpperCase] and [toLowerCase] on the ASCII range;
    the aliases and the base58 addresses of the sources are ASCII. *)
Definition ascii_toUpperCase (c : ascii) : ascii :=
  let n := N_of_ascii c in
  if ((97 <=? n) && (n <=? 122))%N then ascii_of_N (n - 32) else c.

Definition ascii_toLowerCase (c : ascii) : ascii :=
  let n := N_of_ascii c in
  if ((65 <=? n) && (n <=? 90))%N then ascii_of_N (n + 32) else c.

Fixpoint toUpperCase (s : string) : string :=
  match s with
  | EmptyString => EmptyString
  | String c r => String (ascii_toUpperCase c) (toUpperCase r)
  end.

Fixpoint toLowerCase (s : string) : string :=
  match s with
  | EmptyString => EmptyString
  | String c r => String (ascii_toLowerCase c) (toLowerCase r)
  end.

(** [haystack.includes(needle)] *)
Fixpoint prefixb (p s : string) : bool :=
  match p, s with
  | EmptyString, _ => true
  | String a p', String b s' => if Ascii.eqb a b then prefixb p' s' else false
  | String _ _, EmptyString => false
  end.

Fixpoint includes (needle hay : string) : bool :=
  prefixb needle hay ||
  match hay with
  | EmptyString => false
  | String _ r => includes needle r
  end.

(** ** Values *)

Inductive value :=
| VUndefined
| VNull
| VBool (b : bool)
| VNum (n : float)
| VBigInt (z : Z)
| VStr (s : string)
| VObj (props : list (string * value))
| VArr (items : list value)
| VBuiltin (name : string).

(** ToBoolean *)
Definition truthy (v : value) : bool :=
  match v with
  | VUndefined | VNull => false
  | VBool b => b
  | VNum n => negb (is_nan n || is_zero n)
  | VBigInt z => negb (z =? 0)
  | VStr s => negb (String.eqb s EmptyString)
  | VObj _ | VArr _ | VBuiltin _ => true
  end.

(** [v != null]: neither [null] nor [undefined]. *)
Definition nonNull (v : value) : bool :=
  match v with
  | VUndefined | VNull => false
  | _ => true
  end.

(** [a || b] *)
Definition or_else (a b : value) : value := if truthy a then a else b.

(** [v === s] for a string primitive [s] *)
Definition strict_eq_str (v : value) (s : string) : bool :=
  match v with
  | VStr t => String.eqb t s
  | _ => false
  end.

(** The properties every ordinary object inherits from [Object.prototype]. *)
Definition Object_prototype : list (string * value) :=
  [ ("constructor", VBuiltin "Object");
    ("__proto__", VBuiltin "Object.prototype");
    ("hasOwnProperty", VBuiltin "Object.prototype.hasOwnProperty");
    ("isPrototypeOf", VBuiltin "Object.prototype.isPrototypeOf");
    ("propertyIsEnumerable", VBuiltin "Object.prototype.propertyIsEnumerable");
    ("toLocaleString", VBuiltin "Object.prototype.toLocaleString");
    ("toString", VBuiltin "Object.prototype.toString");
    ("valueOf", VBuiltin "Object.prototype.valueOf");
    ("__defineGetter__", VBuiltin "Object.prototype.__defineGetter__");
    ("__defineSetter__", VBuiltin "Object.prototype.__defineSetter__");
    ("__lookupGetter__", VBuiltin "Object.prototype.__lookupGetter__");
    ("__lookupSetter__", VBuiltin "Object.prototype.__lookupSetter__") ].

Fixpoint assoc (k : string) (l : list (string * value)) : option value :=
  match l with
  | [] => None
  | (k', v) :: r => if String.eqb k k' then Some v else assoc k r
  end.

(** [obj[k]] on an object literal with own properties [own]: the own
    property, else the inherited one, else [undefined]. *)
Definition getProp (own : list (string * value)) (k : string) : value :=
  match assoc k own with
  | Some v => v
  | None =>
      match assoc k Object_prototype with
      | Some v => v
      | None => VUndefined
      end
  end.

(** [v.k] on an arbitrary value that is neither [null] nor [undefined];
    the primitives have none of the property names the sources read. *)
Definition member (v : value) (k : string) : value :=
  match v with
  | VObj props => getProp props k
  | _ => VUndefined
  end.

(** [v?.k] *)
Definition optMember (v : value) (k : string) : value :=
  match v with
  | VUndefined | VNull => VUndefined
  | _ => member v k
  end.

End JS.
Import JS.

(* ===================================================================== *)
(** * 2. Thrown values, results and the effect monad                      *)
(* ===================================================================== *)

(** A thrown value: the two properties of an [Error] the sources read. *)
Record JsError := mkError { name : string; message : string }.

(** [new Error(msg)] *)
Definition Error (msg : string) : JsError := mkError "Error" msg.

Definition TypeError (msg : string) : JsError := mkError "TypeError" msg.

Inductive Result (A : Type) :=
| Ok (a : A)
| Throw (e : JsError).
Arguments Ok {A} a.
Arguments Throw {A} e.

(** ** The SDK's data *)

Record PublicKey := mkPublicKey { toBase58 : string }.
Record Keypair := mkKeypair { publicKey : PublicKey }.

(** An instruction, as the SDK builder makes it of the parameters the
    sources hand to it: the keys as given, and the amount the instruction
    carries once the builder has encoded the one given. *)
Inductive Instruction :=
| SystemProgram_transfer (fromPubkey toPubkey : PublicKey) (lamports : float)
| createAssociatedTokenAccountInstruction (payer ata owner mint : PublicKey)
| createTransferInstruction (source destination owner : PublicKey) (amount : Z)
| StakeProgram_createAccount (fromPubkey stakePubkey staker withdrawer : PublicKey)
    (lockupCustodian : PublicKey) (lamports : float)
| StakeProgram_delegate (stakePubkey authorizedPubkey votePubkey : PublicKey)
| StakeProgram_deactivate (stakePubkey authorizedPubkey : PublicKey)
| StakeProgram_withdraw (stakePubkey authorizedPubkey toPubkey : PublicKey)
    (lamports : float).

(** [new Transaction().add(...)]: the instructions in the order added. *)
Definition Transaction := list Instruction.

(** The token account [getAccount] resolves to; [amount] is a BigInt. *)
Record TokenAccount := mkTokenAccount { amount : Z }.

(** One element of [getParsedProgramAccounts]: [pubkey], [account.lamports]
    and [account.data.parsed.info]. *)
Record ParsedAccount := mkParsedAccount {
  pubkey : PublicKey;
  account_lamports : float;
  parsed_info : value
}.

(** ** HTTP *)

Record Request := mkRequest {
  req_method : string;
  req_url : string;
  req_headers : list (string * string);
  req_body : option string
}.

(** A [Response]: its status, and what [text()] and [json()] settle to. *)
Record Response := mkResponse {
  status : Z;
  text : Result string;
  json : Result value
}.

(** [response.ok]: the status is in the range 200-299. *)
Definition ok (r : Response) : bool := (200 <=? status r) && (status r <=? 299).

(** ** Collaborators *)

(** The remote node, the SDK helpers and the parts of the runtime whose
    results the sources only pass along.  [deserializeAndSign] stands for
    [VersionedTransaction.deserialize(Buffer.from(b64, 'base64'))] followed
    by [transaction.sign([keypair])]; [confirmTransaction] settles to
    [confirmation.value.err].  The three fields named after a builder are
    what [SystemProgram.transfer], [StakeProgram.createAccount] and
    [createTransferInstruction] make of the amount they are given: each
    writes it into the instruction as a 64-bit integer, and either throws,
    on an amount it cannot encode, or yields the amount the instruction
    then carries. *)
Record Env := mkEnv {
  new_PublicKey : value -> Result PublicKey;
  Keypair_generate : Keypair;
  SystemProgram_transfer_lamports : float -> Result float;
  StakeProgram_createAccount_lamports : float -> Result float;
  createTransferInstruction_amount : Z -> Result Z;
  getAssociatedTokenAddress : PublicKey -> PublicKey -> Result PublicKey;
  getAccount : PublicKey -> Result TokenAccount;
  getBalance : PublicKey -> Result float;
  getMinimumBalanceForRentExemption : Z -> Result float;
  getParsedProgramAccounts : PublicKey -> Z -> string -> Result (list ParsedAccount);
  sendAndConfirmTransaction : Transaction -> list Keypair -> Result string;
  deserializeAndSign : value -> Keypair -> Result string;
  sendTransaction : string -> Result string;
  confirmTransaction : string -> Result value;
  fetch : Request -> Result Response;
  BigInt : value -> Result Z;
  StringToNumber : string -> float;
  ObjectToNumber : value -> Result float;
  FractionToString : float -> string;
  ObjectToString : value -> Result string;
  JSON_stringify : value -> string
}.

(** The remote calls an operation makes, in the order it makes them. *)
Inductive Event :=
| EvGetAccount (ata : PublicKey)
| EvGetBalance (account : PublicKey)
| EvGetMinimumBalanceForRentExemption (space : Z)
| EvGetParsedProgramAccounts (programId : PublicKey) (offset : Z) (bytes : string)
| EvSendAndConfirm (tx : Transaction) (signers : list Keypair)
| EvSendTransaction (tx : string) (maxRetries : Z) (skipPreflight : bool)
| EvConfirmTransaction (signature : string) (commitment : string)
| EvFetch (req : Request).

(** An asynchronous computation all of whose remote calls have settled: it
    extends the trace and settles to a value or to a thrown error.  A
    remote call that never settles has no counterpart among the oracles of
    [Env], each of which returns or throws: a statement about [M] tells
    what a computation settles to, and nothing on whether it does. *)
Definition M (A : Type) : Type := list Event -> Result A * list Event.

#[global] Instance M_ret : MRet M := fun A a t => (Ok a, t).

#[global] Instance M_bind : MBind M := fun A B f m t =>
  match m t with
  | (Ok a, t') => f a t'
  | (Throw e, t') => (Throw e, t')
  end.

(** A synchronous step that may throw. *)
Definition lift {A} (r : Result A) : M A := fun t => (r, t).

(** [throw e] *)
Definition throw {A} (e : JsError) : M A := lift (Throw e).

(** [await] on a remote call: the call is recorded, then it settles. *)
Definition await {A} (ev : Event) (r : Result A) : M A := fun t => (r, (t ++ [ev])%list).

(** [try { body } catch (e) { handler e }] *)
Definition try_catch {A} (body : M A) (handler : JsError -> M A) : M A := fun t =>
  match body t with
  | (Ok a, t') => (Ok a, t')
  | (Throw e, t') => handler e t'
  end.

(** Running an operation from an empty trace. *)
Definition run {A} (m : M A) : Result A * list Event := m [].

(* ===================================================================== *)
(** * 3. Number and string conversions that depend on the environment     *)
(* ===================================================================== *)

Section Conversions.
Context (env : Env).

(** ToNumber, as [Number(v)] applies it. *)
Definition Number (v : value) : Result float :=
  match v with
  | VUndefined => Ok nan
  | VNull => Ok 0%float
  | VBool b => Ok (if b then 1%float else 0%float)
  | VNum n => Ok n
  | VBigInt z => Ok (Z2float z)
  | VStr s => Ok (StringToNumber env s)
  | VObj _ | VArr _ | VBuiltin _ => ObjectToNumber env v
  end.

(** ToNumber, as the operator [*] applies it: a BigInt operand cannot be
    mixed with a Number. *)
Definition ToNumber (v : value) : Result float :=
  match v with
  | VBigInt _ =>
      Throw (TypeError "Cannot mix BigInt and other types, use explicit conversions")
  | _ => Number v
  end.

(** [Number.prototype.toString()] *)
Definition Number_toString (n : float) : string :=
  if is_nan n then "NaN"
  else if (n =? infinity)%float then "Infinity"
  else if (n =? neg_infinity)%float then "-Infinity"
  else match integerValue n with
       | Some z =>
           if Z.abs z <? 10 ^ 21 then pretty z else FractionToString env n
       | None => FractionToString env n
       end.

(** [v.toString()] *)
Definition toString (v : value) : Result string :=
  match v with
  | VUndefined =>
      Throw (TypeError "Cannot read properties of undefined (reading 'toString')")
  | VNull =>
      Throw (TypeError "Cannot read properties of null (reading 'toString')")
  | VBool b => Ok (if b then "true" else "false")
  | VNum n => Ok (Number_toString n)
  | VBigInt z => Ok (pretty z)
  | VStr s => Ok s
  | VObj _ | VArr _ | VBuiltin _ => ObjectToString env v
  end.

End Conversions.

#[global] Instance Result_ret : MRet Result := fun A a => Ok a.

#[global] Instance Result_bind : MBind Result := fun A B f r =>
  match r with
  | Ok a => f a
  | Throw e => Throw e
  end.

(** [v.k] where [v] may be [null] or [undefined]. *)
Definition readProp (v : value) (k : string) : Result value :=
  match v with
  | VUndefined =>
      Throw (TypeError ("Cannot read properties of undefined (reading '" +:+ k +:+ "')"))
  | VNull =>
      Throw (TypeError ("Cannot read properties of null (reading '" +:+ k +:+ "')"))
  | _ => Ok (member v k)
  end.

(** [const LAMPORTS_PER_SOL = 1000000000] of the SDK. *)
Definition LAMPORTS_PER_SOL : float := 1000000000%float.

Definition explorerUrl (signature : string) : string :=
  "https://solscan.io/tx/" +:+ signature.

Definition TokenAccountNotFoundError : string := "TokenAccountNotFoundError".

(* ===================================================================== *)
(** * 4. src/wallet.js                                                    *)
(* ===================================================================== *)

Module Wallet.

(** The wallet handle: its signing credential.  The connection is the
    environment. *)
Record t := mk { keypair : Keypair }.

(** [get address()] *)
Definition address (w : t) : string := toBase58 (publicKey (keypair w)).

Section WithEnv.
Context (env : Env).

(** [async getTokenBalance(mintAddress)] *)
Definition getTokenBalance (w : t) (mintAddress : string) : M float :=
  try_catch
    (mint ← lift (new_PublicKey env (VStr mintAddress));
     ata ← lift (getAssociatedTokenAddress env mint (publicKey (keypair w)));
     account ← await (EvGetAccount ata) (getAccount env ata);
     mret (Z2float (amount account)))
    (fun e =>
       if String.eqb (name e) TokenAccountNotFoundError then mret 0%float
       else throw e).

(** [async getBalance()] *)
Definition getBalance (w : t) : M float :=
  balance ← await (EvGetBalance (publicKey (keypair w)))
                  (getBalance env (publicKey (keypair w)));
  mret (balance / LAMPORTS_PER_SOL)%float.

(** One element of [getAllTokenBalances]. *)
Record TokenBalance := mkTokenBalance {
  tb_mint : value;
  tb_amount : value;
  tb_decimals : value;
  tb_symbol : value
}.

(** The callback of [tokenAccounts.value.map] in [getAllTokenBalances]. *)
Definition tokenEntry (a : ParsedAccount) : Result TokenBalance :=
  let info := parsed_info a in
  mint ← readProp info "mint";
  tokenAmount ← readProp info "tokenAmount";
  uiAmount ← readProp tokenAmount "uiAmount";
  tokenAmount ← readProp info "tokenAmount";
  decimals ← readProp tokenAmount "decimals";
  tokenAmount ← readProp info "tokenAmount";
  uiAmountString ← readProp tokenAmount "uiAmountString";
  mret (mkTokenBalance mint uiAmount decimals uiAmountString).

(** [v > 0] *)
Definition greaterThanZero (v : value) : Result bool :=
  match v with
  | VBigInt z => Ok (0 <? z)
  | _ => n ← Number env v; mret (0 <? n)%float
  end.

(** [Array.prototype.filter] with a callback that may throw. *)
Fixpoint filterResult {A} (f : A -> Result bool) (l : list A) : Result (list A) :=
  match l with
  | [] => Ok []
  | a :: r =>
      keep ← f a;
      rest ← filterResult f r;
      Ok (if keep : bool then a :: rest else rest)
  end.

(** The SPL token program, [TokenkegQfeZyiNwAJbNbGKPFXCWuBvf9Ss623VQ5DA]. *)
Definition TOKEN_PROGRAM : string := "TokenkegQfeZyiNwAJbNbGKPFXCWuBvf9Ss623VQ5DA".

(** [async getAllTokenBalances()], by its result: the one remote call,
    [connection.getParsedTokenAccountsByOwner(owner, { programId })], is
    the parameter, which settles to [tokenAccounts.value]. *)
Definition getAllTokenBalances
    (getParsedTokenAccountsByOwner : PublicKey -> PublicKey -> Result (list ParsedAccount))
    (w : t) : Result (list TokenBalance) :=
  programId ← new_PublicKey env (VStr TOKEN_PROGRAM);
  tokenAccounts ← getParsedTokenAccountsByOwner (publicKey (keypair w)) programId;
  entries ← mapM tokenEntry tokenAccounts;
  filterResult (fun t => greaterThanZero (tb_amount t)) entries.

End WithEnv.

End Wallet.

(* ===================================================================== *)
(** * 5. src/swap.js                                                      *)
(* ===================================================================== *)

Module Swapper.

Definition JUPITER_API : string := "https://quote-api.jup.ag/v6".

Definition SOL : string := "So11111111111111111111111111111111111111112".
Definition USDC : string := "EPjFWdd5AufqSSqeM2qN1xzybapC8G4wEGGkZwyTDt1v".
Definition USDT : string := "Es9vMFrzaCERmJfrF4H2FYD4KCoNkY11McCe8BenwNYB".
Definition BONK : string := "DezXAZ8z7PnrnRJjz3wXBoRgixCa6xjnB7YaB1pPB263".
Definition JUP : string := "JUPyiwrYJFskUPiHa7hkeR8VUtAeFoSYbKedZNsDvCN".
Definition WIF : string := "EKpQGSJtjMFqKZ9KQanSqYXRcF8fBopzLHYxdM65zcjm".
Definition PYTH : string := "HZ1JovNiVvGrGNiiYvEozEVgZ58xaU3RKwX8eACQBCt3".

(** [const TOKENS = { SOL: ..., ... }]: the own properties, in order. *)
Definition TOKENS : list (string * value) :=
  [ ("SOL", VStr SOL); ("USDC", VStr USDC); ("USDT", VStr USDT);
    ("BONK", VStr BONK); ("JUP", VStr JUP); ("WIF", VStr WIF);
    ("PYTH", VStr PYTH) ].

(** [resolveMint(tokenOrMint)] for a string argument. *)
Definition resolveMint (tokenOrMint : string) : value :=
  if truthy (getProp TOKENS (toUpperCase tokenOrMint))
  then getProp TOKENS (toUpperCase tokenOrMint)
  else VStr tokenOrMint.

(** [resolveMint] on an arbitrary argument: only a string has
    [toUpperCase]. *)
Definition resolveMint_any (tokenOrMint : value) : Result value :=
  match tokenOrMint with
  | VStr s => Ok (resolveMint s)
  | VUndefined =>
      Throw (TypeError "Cannot read properties of undefined (reading 'toUpperCase')")
  | VNull =>
      Throw (TypeError "Cannot read properties of null (reading 'toUpperCase')")
  | _ => Throw (TypeError "tokenOrMint.toUpperCase is not a function")
  end.

Record QuoteRecord := mkQuote {
  inputMint : value;
  outputMint : value;
  inAmount : value;
  outAmount : value;
  priceImpactPct : value;
  routePlan : value;
  raw : value
}.

Record SwapResult := mkSwapResult {
  swap_signature : string;
  swap_inputMint : value;
  swap_outputMint : value;
  swap_inAmount : value;
  swap_outAmount : value;
  swap_explorerUrl : string
}.

(** The [application/x-www-form-urlencoded] serialisation of one byte. *)
Definition hexDigit (n : N) : ascii :=
  if (n <? 10)%N then ascii_of_N (48 + n) else ascii_of_N (55 + n).

Definition urlencodeByte (c : ascii) : string :=
  let n := N_of_ascii c in
  if ((48 <=? n) && (n <=? 57) || (65 <=? n) && (n <=? 90) ||
      (97 <=? n) && (n <=? 122) ||
      (n =? 42) || (n =? 45) || (n =? 46) || (n =? 95))%N
  then String c EmptyString
  else if (n =? 32)%N then "+"
  else String "%" (String (hexDigit (n / 16)) (String (hexDigit (n mod 16)) EmptyString)).

Fixpoint urlencode (s : string) : string :=
  match s with
  | EmptyString => EmptyString
  | String c r => urlencodeByte c +:+ urlencode r
  end.

(** [new URLSearchParams({...}).toString()] *)
Fixpoint URLSearchParams (params : list (string * string)) : string :=
  match params with
  | [] => EmptyString
  | [(k, v)] => urlencode k +:+ "=" +:+ urlencode v
  | (k, v) :: r => urlencode k +:+ "=" +:+ urlencode v +:+ "&" +:+ URLSearchParams r
  end.

Section WithEnv.
Context (env : Env).

(** [String(v)], the conversion [URLSearchParams] applies to a value. *)
Definition String_ (v : value) : Result string :=
  match v with
  | VUndefined => Ok "undefined"
  | VNull => Ok "null"
  | _ => toString env v
  end.

(** A parameter default [p = d]: it applies when the argument is
    [undefined]. *)
Definition withDefault (arg d : value) : value :=
  match arg with
  | VUndefined => d
  | _ => arg
  end.

Definition defaultSlippageBps : value := VNum 50%float.

(** [fetch(`${JUPITER_API}/quote?${params}`)] *)
Definition quoteRequest (params : string) : Request :=
  mkRequest "GET" (JUPITER_API +:+ "/quote?" +:+ params) [] None.

(** [async getQuote(inputMint, outputMint, amount, slippageBps = 50)] *)
Definition getQuote (inputMint outputMint amount slippageBps : value)
  : M QuoteRecord :=
  let slippageBps := withDefault slippageBps defaultSlippageBps in
  inputMintAddr ← lift (resolveMint_any inputMint);
  outputMintAddr ← lift (resolveMint_any outputMint);
  amountStr ← lift (toString env amount);
  slippageStr ← lift (toString env slippageBps);
  inStr ← lift (String_ inputMintAddr);
  outStr ← lift (String_ outputMintAddr);
  let params := URLSearchParams
    [ ("inputMint", inStr); ("outputMint", outStr);
      ("amount", amountStr); ("slippageBps", slippageStr) ] in
  response ← await (EvFetch (quoteRequest params)) (fetch env (quoteRequest params));
  if negb (ok response) then
    error ← lift (text response);
    throw (Error ("Quote failed: " +:+ error))
  else
    quote ← lift (json response);
    inA ← lift (readProp quote "inAmount");
    outA ← lift (readProp quote "outAmount");
    impact ← lift (readProp quote "priceImpactPct");
    route ← lift (readProp quote "routePlan");
    mret (mkQuote inputMintAddr outputMintAddr inA outA impact route quote).

(** [async getPrice(tokenMint)] on an arbitrary argument.  The mint is
    resolved before the [try] is entered, so what [resolveMint] throws
    leaves the method as it is; only what the body of the [try] throws
    reaches the handler, whose template literal prints the argument. *)
Definition getPrice_any (tokenMint : value) : M float :=
  mint ← lift (resolveMint_any tokenMint);
  let decimals := if strict_eq_str mint SOL then 9%nat else 6%nat in
  let amount := Math_pow10 decimals in
  try_catch
    (quote ← getQuote mint (VStr "USDC") (VStr (Number_toString env amount))
               VUndefined;
     n ← lift (Number env (outAmount quote));
     mret (n / 1e6)%float)
    (fun e =>
       token ← lift (String_ tokenMint);
       throw (Error ("Could not get price for " +:+ token +:+ ": " +:+ message e))).

(** [getPrice(tokenMint)] for a string argument. *)
Definition getPrice (tokenMint : string) : M float :=
  getPrice_any (VStr tokenMint).

(** [fetch(`${JUPITER_API}/swap`, { method: 'POST', ... })] *)
Definition swapRequest (w : Wallet.t) (quote : QuoteRecord) : Request :=
  mkRequest "POST" (JUPITER_API +:+ "/swap")
    [ ("Content-Type", "application/json") ]
    (Some (JSON_stringify env
       (VObj [ ("quoteResponse", raw quote);
               ("userPublicKey", VStr (Wallet.address w));
               ("wrapAndUnwrapSol", VBool true) ]))).

(** [const { swapTransaction } = v] *)
Definition destructure_swapTransaction (v : value) : Result value :=
  match v with
  | VUndefined =>
      Throw (TypeError "Cannot destructure property 'swapTransaction' of '(intermediate value)' as it is undefined.")
  | VNull =>
      Throw (TypeError "Cannot destructure property 'swapTransaction' of '(intermediate value)' as it is null.")
  | _ => Ok (member v "swapTransaction")
  end.

(** [async swap(inputMint, outputMint, amount, slippageBps = 50)] *)
Definition swap (w : Wallet.t) (inputMintArg outputMintArg amount slippageBps : value)
  : M SwapResult :=
  let slippageBps := withDefault slippageBps defaultSlippageBps in
  quote ← getQuote inputMintArg outputMintArg amount slippageBps;
  swapResponse ← await (EvFetch (swapRequest w quote)) (fetch env (swapRequest w quote));
  if negb (ok swapResponse) then
    error ← lift (text swapResponse);
    throw (Error ("Swap transaction failed: " +:+ error))
  else
    payload ← lift (json swapResponse);
    swapTransaction ← lift (destructure_swapTransaction payload);
    transaction ← lift (deserializeAndSign env swapTransaction (Wallet.keypair w));
    signature ← await (EvSendTransaction transaction 3 false)
                      (sendTransaction env transaction);
    err ← await (EvConfirmTransaction signature "confirmed")
                (confirmTransaction env signature);
    if truthy err then
      throw (Error ("Transaction failed: " +:+ JSON_stringify env err))
    else
      mret (mkSwapResult signature (inputMint quote) (outputMint quote)
              (inAmount quote) (outAmount quote) (explorerUrl signature)).

End WithEnv.

End Swapper.

(* ===================================================================== *)
(** * 6. src/integrations/agentdex                                        *)
(* ===================================================================== *)

Module AgentDEXClient.

Record Client := mkClient {
  baseUrl : string;
  apiKey : string;
  agentId : option string
}.

Section WithEnv.
Context (env : Env).

(** [private headers()] *)
Definition headers (c : Client) : list (string * string) :=
  [ ("Authorization", "Bearer " +:+ apiKey c);
    ("Content-Type", "application/json") ].

(** The [RequestInit] built by [request]; [body] is [None] when the
    argument is [undefined]. *)
Definition requestInit (c : Client) (method path : string) (body : option value)
  : Request :=
  mkRequest method (baseUrl c +:+ path) (headers c)
    (match body with
     | Some b => Some (JSON_stringify env b)
     | None => None
     end).

(** [res.text().catch(() => '')] *)
Definition textOrEmpty (res : Response) : string :=
  match text res with
  | Ok s => s
  | Throw _ => EmptyString
  end.

(** [private async request<T>(method, path, body?)] *)
Definition request (c : Client) (method path : string) (body : option value)
  : M value :=
  res ← await (EvFetch (requestInit c method path body))
              (fetch env (requestInit c method path body));
  if negb (ok res) then
    throw (Error ("AgentDEX API " +:+ method +:+ " " +:+ path +:+ " failed ("
                  +:+ pretty (status res) +:+ "): " +:+ textOrEmpty res))
  else lift (json res).

(** [async getPortfolio(wallet)] *)
Definition getPortfolio (c : Client) (wallet : string) : M value :=
  request c "GET" ("/api/v1/portfolio/" +:+ wallet) None.

(** [async getQuote(inputMint, outputMint, amount, slippageBps = 50)];
    [slippageBps] is [None] when the argument is left out. *)
Definition getQuote (c : Client) (inputMint outputMint : string) (amount : value)
    (slippageBps : option float) : M value :=
  let slippageBps := default 50%float slippageBps in
  amountStr ← lift (Swapper.String_ env amount);
  let params := Swapper.URLSearchParams
    [ ("inputMint", inputMint); ("outputMint", outputMint);
      ("amount", amountStr); ("slippageBps", Number_toString env slippageBps) ] in
  request c "GET" ("/api/v1/quote?" +:+ params) None.

(** [this.agentId] as a property value. *)
Definition agentIdValue (c : Client) : value :=
  match agentId c with
  | Some a => VStr a
  | None => VUndefined
  end.

(** [async swap(inputMint, outputMint, amount, slippageBps = 50)] *)
Definition swap (c : Client) (inputMint outputMint : string) (amount : value)
    (slippageBps : option float) : M value :=
  let slippageBps := default 50%float slippageBps in
  amountStr ← lift (Swapper.String_ env amount);
  request c "POST" "/api/v1/swap"
    (Some (VObj [ ("inputMint", VStr inputMint);
                  ("outputMint", VStr outputMint);
                  ("amount", VStr amountStr);
                  ("slippageBps", VNum slippageBps);
                  ("agentId", agentIdValue c) ])).

(** [async getPrices(mints?)]; [mints] is [None] when the argument is left
    out. *)
Definition getPrices (c : Client) (mints : option (list string)) : M value :=
  match mints with
  | Some [mint] =>
      price ← request c "GET" ("/api/v1/prices/" +:+ mint) None;
      mret (VArr [price])
  | _ => request c "GET" "/api/v1/prices" None
  end.







End WithEnv.

(** [AgentDEXConfig] *)
Record Config := mkConfig {
  cfg_apiKey : string;
  cfg_baseUrl : option string;
  cfg_agentId : option string
}.

(** [s.replace(/\/$/, '')]: a slash that ends the string is removed. *)
Fixpoint stripTrailingSlash (s : string) : string :=
  match s with
  | EmptyString => EmptyString
  | String c EmptyString => if Ascii.eqb c "/"%char then EmptyString else s
  | String c r => String c (stripTrailingSlash r)
  end.

Definition DEFAULT_BASE_URL : string := "https://api.agentdex.com".

(** The message of the constructor's error, which quotes an example key. *)
Definition apiKeyRequired : string :=
  "AgentDEX: apiKey is required (e.g. " +:+ String (ascii_of_N 34) "adx_xxx"
  +:+ String (ascii_of_N 34) ")".

(** [constructor(config)] *)
Definition new_Client (config : Config) : Result Client :=
  if String.eqb (cfg_apiKey config) EmptyString then Throw (Error apiKeyRequired)
  else Ok (mkClient
             (stripTrailingSlash (default DEFAULT_BASE_URL (cfg_baseUrl config)))
             (cfg_apiKey config)
             (cfg_agentId config)).

End AgentDEXClient.

(* ===================================================================== *)
(** * 7. src/transfer.js                                                  *)
(* ===================================================================== *)

Module Transfer.

Record SolResult := mkSolResult {
  sol_signature : string;
  sol_from : string;
  sol_to : string;
  sol_amount : value;
  sol_unit : string;
  sol_explorerUrl : string
}.

Record TokenResult := mkTokenResult {
  tok_signature : string;
  tok_from : string;
  tok_to : string;
  tok_amount : string;
  tok_mint : string;
  tok_explorerUrl : string
}.

Section WithEnv.
Context (env : Env).

(** [Math.floor(amountSol * LAMPORTS_PER_SOL)] *)
Definition toLamports (amountSol : float) : float :=
  Math_floor (amountSol * LAMPORTS_PER_SOL)%float.

(** [async sendSol(toAddress, amountSol)] *)
Definition sendSol (w : Wallet.t) (toAddress : string) (amountSol : value)
  : M SolResult :=
  toPubkey ← lift (new_PublicKey env (VStr toAddress));
  n ← lift (ToNumber env amountSol);
  let lamports := toLamports n in
  encoded ← lift (SystemProgram_transfer_lamports env lamports);
  let transaction :=
    [ SystemProgram_transfer (publicKey (Wallet.keypair w)) toPubkey encoded ] in
  signature ← await (EvSendAndConfirm transaction [Wallet.keypair w])
                    (sendAndConfirmTransaction env transaction [Wallet.keypair w]);
  mret (mkSolResult signature (Wallet.address w) toAddress amountSol "SOL"
          (explorerUrl signature)).

(** Lines 77-95 of [sendToken]: the new transaction after the existence
    check of the destination account. *)
Definition checkDestination (w : Wallet.t) (destAta toPubkey mintPubkey : PublicKey)
  : M Transaction :=
  try_catch
    (_ ← await (EvGetAccount destAta) (getAccount env destAta);
     mret [])
    (fun e =>
       if String.eqb (name e) TokenAccountNotFoundError then
         mret [ createAssociatedTokenAccountInstruction
                  (publicKey (Wallet.keypair w)) destAta toPubkey mintPubkey ]
       else throw e).

(** [async sendToken(toAddress, amount, mintAddress)] *)
Definition sendToken (w : Wallet.t) (toAddress : string) (amount : value)
    (mintAddress : string) : M TokenResult :=
  toPubkey ← lift (new_PublicKey env (VStr toAddress));
  mintPubkey ← lift (new_PublicKey env (VStr mintAddress));
  sourceAta ← lift (getAssociatedTokenAddress env mintPubkey (publicKey (Wallet.keypair w)));
  destAta ← lift (getAssociatedTokenAddress env mintPubkey toPubkey);
  transaction ← checkDestination w destAta toPubkey mintPubkey;
  units ← lift (BigInt env amount);
  encoded ← lift (createTransferInstruction_amount env units);
  let transaction :=
    (transaction ++
     [ createTransferInstruction sourceAta destAta (publicKey (Wallet.keypair w))
         encoded ])%list in
  signature ← await (EvSendAndConfirm transaction [Wallet.keypair w])
                    (sendAndConfirmTransaction env transaction [Wallet.keypair w]);
  amountStr ← lift (toString env amount);
  mret (mkTokenResult signature (Wallet.address w) toAddress amountStr mintAddress
          (explorerUrl signature)).

End WithEnv.

End Transfer.

(* ===================================================================== *)
(** * 8. src/stake.js                                                     *)
(* ===================================================================== *)

Module Staking.

(** [const VALIDATORS = { 'jito': ..., ... }]: the own properties. *)
Definition VALIDATORS : list (string * value) :=
  [ ("jito", VStr "J1to1yufRnoWn81KYg1XkTWzmKjnYSnmE2VY8DGUJ9Qv");
    ("marinade", VStr "mrgn28BhocwdAUEenen3Sw2MR9cPKDpLkDvzDdR7DBD");
    ("solflare", VStr "SoLFLaReRVNagJzYYGppSkqzkhmHZ5ZR8EUpzqLEAaL");
    ("everstake", VStr "EverSFw9uN5t1V8kS3ficHUcKffSjwpGzUSGd7mgmSks") ].

(** [resolveValidator(validatorOrAddress)] for a string argument. *)
Definition resolveValidator (validatorOrAddress : string) : value :=
  if truthy (getProp VALIDATORS (toLowerCase validatorOrAddress))
  then getProp VALIDATORS (toLowerCase validatorOrAddress)
  else VStr validatorOrAddress.

(** [StakeProgram.space] and [StakeProgram.programId] of the SDK. *)
Definition StakeProgram_space : Z := 200.
Definition StakeProgram_programId : PublicKey :=
  mkPublicKey "Stake11111111111111111111111111111111111111".

Record StakeResult := mkStakeResult {
  stake_signature : string;
  stake_stakeAccount : string;
  stake_validator : string;
  stake_amount : value;
  stake_explorerUrl : string
}.

Record StakeAccountSummary := mkSummary {
  sum_address : string;
  sum_lamports : float;
  sum_sol : float;
  sum_state : string;
  sum_validator : value;
  sum_activationEpoch : value
}.

Record WithdrawResult := mkWithdrawResult {
  wd_signature : string;
  wd_stakeAccount : string;
  wd_withdrawn : float;
  wd_explorerUrl : string
}.

(** [data.stake?.delegation] *)
Definition delegationOf (data : value) : Result value :=
  stake ← readProp data "stake";
  mret (optMember stake "delegation").

(** The callback of [stakeAccounts.map] in [getStakeAccounts]. *)
Definition summarize (a : ParsedAccount) : Result StakeAccountSummary :=
  let data := parsed_info a in
  delegation ← delegationOf data;
  mret (mkSummary
          (toBase58 (pubkey a))
          (account_lamports a)
          (account_lamports a / LAMPORTS_PER_SOL)%float
          (if truthy delegation then "delegated" else "inactive")
          (or_else (optMember delegation "voter") VNull)
          (or_else (optMember delegation "activationEpoch") VNull)).

(** A non-empty string of decimal digits, as the node prints a [u64]. *)
Fixpoint allDigits (s : string) : bool :=
  match s with
  | EmptyString => true
  | String c r =>
      let n := N_of_ascii c in
      ((48 <=? n) && (n <=? 57))%N && allDigits r
  end.

Definition isDecimalString (s : string) : bool :=
  negb (String.eqb s EmptyString) && allDigits s.

(** The shape of [account.data.parsed.info] in the node's [jsonParsed]
    encoding of a stake account: an object whose [stake] is [null] for an
    account that is initialized only, and otherwise an object whose
    [delegation] is an object that prints its epochs as decimal strings. *)
Definition rpcStakeInfo (info : value) : bool :=
  match info with
  | VObj props =>
      match getProp props "stake" with
      | VUndefined | VNull => true
      | VObj stakeProps =>
          match getProp stakeProps "delegation" with
          | VUndefined | VNull => true
          | VObj delegationProps =>
              match getProp delegationProps "activationEpoch" with
              | VStr s => isDecimalString s
              | _ => false
              end
          | _ => false
          end
      | _ => false
      end
  | _ => false
  end.

(** [Array.prototype.map] with a callback that may throw. *)
Fixpoint mapResult {A B} (f : A -> Result B) (l : list A) : Result (list B) :=
  match l with
  | [] => Ok []
  | a :: r =>
      b ← f a;
      bs ← mapResult f r;
      mret (b :: bs)
  end.

Record UnstakeResult := mkUnstakeResult {
  un_signature : string;
  un_stakeAccount : string;
  un_status : string;
  un_note : string;
  un_explorerUrl : string
}.

Section WithEnv.
Context (env : Env).

(** [async stake(validatorVoteAccount, amountSol)] *)
Definition stake (w : Wallet.t) (validatorVoteAccount : string) (amountSol : value)
  : M StakeResult :=
  voteAccount ← lift (new_PublicKey env (resolveValidator validatorVoteAccount));
  n ← lift (ToNumber env amountSol);
  let lamports := Math_floor (n * LAMPORTS_PER_SOL)%float in
  let stakeAccount := Keypair_generate env in
  rentExemption ← await (EvGetMinimumBalanceForRentExemption StakeProgram_space)
                        (getMinimumBalanceForRentExemption env StakeProgram_space);
  let totalLamports := (lamports + rentExemption)%float in
  funded ← lift (StakeProgram_createAccount_lamports env totalLamports);
  let createStakeAccountTx :=
    [ StakeProgram_createAccount (publicKey (Wallet.keypair w)) (publicKey stakeAccount)
        (publicKey (Wallet.keypair w)) (publicKey (Wallet.keypair w))
        (publicKey (Wallet.keypair w)) funded ] in
  let delegateTx :=
    [ StakeProgram_delegate (publicKey stakeAccount) (publicKey (Wallet.keypair w))
        voteAccount ] in
  let transaction := (createStakeAccountTx ++ delegateTx)%list in
  signature ← await (EvSendAndConfirm transaction [Wallet.keypair w; stakeAccount])
                    (sendAndConfirmTransaction env transaction
                       [Wallet.keypair w; stakeAccount]);
  mret (mkStakeResult signature (toBase58 (publicKey stakeAccount))
          (toBase58 voteAccount) amountSol (explorerUrl signature)).

(** [async getStakeAccounts()] *)
Definition getStakeAccounts (w : Wallet.t) : M (list StakeAccountSummary) :=
  stakeAccounts ←
    await (EvGetParsedProgramAccounts StakeProgram_programId 12 (Wallet.address w))
          (getParsedProgramAccounts env StakeProgram_programId 12 (Wallet.address w));
  lift (mapResult summarize stakeAccounts).

(** [async withdraw(stakeAccountAddress)] *)
Definition withdraw (w : Wallet.t) (stakeAccountAddress : string)
  : M WithdrawResult :=
  stakeAccount ← lift (new_PublicKey env (VStr stakeAccountAddress));
  stakeBalance ← await (EvGetBalance stakeAccount) (getBalance env stakeAccount);
  let transaction :=
    [ StakeProgram_withdraw stakeAccount (publicKey (Wallet.keypair w))
        (publicKey (Wallet.keypair w)) stakeBalance ] in
  signature ← await (EvSendAndConfirm transaction [Wallet.keypair w])
                    (sendAndConfirmTransaction env transaction [Wallet.keypair w]);
  mret (mkWithdrawResult signature stakeAccountAddress
          (stakeBalance / LAMPORTS_PER_SOL)%float (explorerUrl signature)).

(** [async unstake(stakeAccountAddress)] *)
Definition unstake (w : Wallet.t) (stakeAccountAddress : string)
  : M UnstakeResult :=
  stakeAccount ← lift (new_PublicKey env (VStr stakeAccountAddress));
  let transaction :=
    [ StakeProgram_deactivate stakeAccount (publicKey (Wallet.keypair w)) ] in
  signature ← await (EvSendAndConfirm transaction [Wallet.keypair w])
                    (sendAndConfirmTransaction env transaction [Wallet.keypair w]);
  mret (mkUnstakeResult signature stakeAccountAddress "deactivating"
          "Stake will be withdrawable after the current epoch ends"
          (explorerUrl signature)).

End WithEnv.

End Staking.

(* ===================================================================== *)
(** * 8a. The objects the methods return                                  *)
(* ===================================================================== *)

(** The object literal each method returns, as its own properties in the
    order written; the HTTP server and the command line spread or embed
    them in what they print. *)
Module Objects.

Definition quote (q : Swapper.QuoteRecord) : list (string * value) :=
  [ ("inputMint", Swapper.inputMint q);
    ("outputMint", Swapper.outputMint q);
    ("inAmount", Swapper.inAmount q);
    ("outAmount", Swapper.outAmount q);
    ("priceImpactPct", Swapper.priceImpactPct q);
    ("routePlan", Swapper.routePlan q);
    ("raw", Swapper.raw q) ].

Definition swapResult (r : Swapper.SwapResult) : list (string * value) :=
  [ ("signature", VStr (Swapper.swap_signature r));
    ("inputMint", Swapper.swap_inputMint r);
    ("outputMint", Swapper.swap_outputMint r);
    ("inAmount", Swapper.swap_inAmount r);
    ("outAmount", Swapper.swap_outAmount r);
    ("explorerUrl", VStr (Swapper.swap_explorerUrl r)) ].

Definition solResult (r : Transfer.SolResult) : list (string * value) :=
  [ ("signature", VStr (Transfer.sol_signature r));
    ("from", VStr (Transfer.sol_from r));
    ("to", VStr (Transfer.sol_to r));
    ("amount", Transfer.sol_amount r);
    ("unit", VStr (Transfer.sol_unit r));
    ("explorerUrl", VStr (Transfer.sol_explorerUrl r)) ].

Definition tokenResult (r : Transfer.TokenResult) : list (string * value) :=
  [ ("signature", VStr (Transfer.tok_signature r));
    ("from", VStr (Transfer.tok_from r));
    ("to", VStr (Transfer.tok_to r));
    ("amount", VStr (Transfer.tok_amount r));
    ("mint", VStr (Transfer.tok_mint r));
    ("explorerUrl", VStr (Transfer.tok_explorerUrl r)) ].

Definition stakeResult (r : Staking.StakeResult) : list (string * value) :=
  [ ("signature", VStr (Staking.stake_signature r));
    ("stakeAccount", VStr (Staking.stake_stakeAccount r));
    ("validator", VStr (Staking.stake_validator r));
    ("amount", Staking.stake_amount r);
    ("explorerUrl", VStr (Staking.stake_explorerUrl r)) ].

Definition unstakeResult (r : Staking.UnstakeResult) : list (string * value) :=
  [ ("signature", VStr (Staking.un_signature r));
    ("stakeAccount", VStr (Staking.un_stakeAccount r));
    ("status", VStr (Staking.un_status r));
    ("note", VStr (Staking.un_note r));
    ("explorerUrl", VStr (Staking.un_explorerUrl r)) ].

Definition withdrawResult (r : Staking.WithdrawResult) : list (string * value) :=
  [ ("signature", VStr (Staking.wd_signature r));
    ("stakeAccount", VStr (Staking.wd_stakeAccount r));
    ("withdrawn", VNum (Staking.wd_withdrawn r));
    ("explorerUrl", VStr (Staking.wd_explorerUrl r)) ].

Definition stakeAccount (s : Staking.StakeAccountSummary) : value :=
  VObj [ ("address", VStr (Staking.sum_address s));
         ("lamports", VNum (Staking.sum_lamports s));
         ("sol", VNum (Staking.sum_sol s));
         ("state", VStr (Staking.sum_state s));
         ("validator", Staking.sum_validator s);
         ("activationEpoch", Staking.sum_activationEpoch s) ].

Definition tokenBalance (b : Wallet.TokenBalance) : value :=
  VObj [ ("mint", Wallet.tb_mint b);
         ("amount", Wallet.tb_amount b);
         ("decimals", Wallet.tb_decimals b);
         ("symbol", Wallet.tb_symbol b) ].

(** [accounts.reduce((sum, a) => sum + a.sol, 0)] *)
Definition totalStaked (accounts : list Staking.StakeAccountSummary) : float :=
  fold_left (fun sum a => (sum + Staking.sum_sol a)%float) accounts 0%float.

(** [{ address: wallet.address, stakeAccounts: accounts, totalStaked: ... }] *)
Definition stakeList (address : string) (accounts : list Staking.StakeAccountSummary)
  : value :=
  VObj [ ("address", VStr address);
         ("stakeAccounts", VArr (map stakeAccount accounts));
         ("totalStaked", VNum (totalStaked accounts)) ].

End Objects.

(* ===================================================================== *)
(** * 8b. src/server.js                                                   *)
(* ===================================================================== *)

Module Server.

(** What [json(res, data, status)] writes: the status of the response and
    the data it serialises as the body. *)
Record Reply := mkReply { reply_status : Z; reply_data : value }.

(** [json(res, data, status = 200)]; the model passes the status at every
    call. *)
Definition json (data : value) (status : Z) : Reply := mkReply status data.

(** [error(res, message, status = 400)] *)
Definition error (message : string) (status : Z) : Reply :=
  json (VObj [ ("success", VBool false); ("error", VStr message) ]) status.

(** The parts of the incoming request [handleRequest] reads:
    [req.method], [url.pathname], [url.searchParams.get('token')], which
    is a string or [null], and the body, which is the concatenation of
    the chunks received or the error of the stream. *)
Record IncomingMessage := mkIncomingMessage {
  msg_method : string;
  msg_pathname : string;
  msg_token : option string;
  msg_body : Result string
}.

(** The module's [wallet], [swapper], [transfer] and [staking] once a
    wallet is loaded: the address of the wallet and the methods the
    handler calls.  An argument is any value, for the handler passes on
    what the body holds, [parseFloat] and the token of the query apart;
    a method settles to the object its class returns, as the model of the
    class records it. *)
Record Services := mkServices {
  wallet_address : string;
  wallet_getBalance : M float;
  wallet_getAllTokenBalances : M (list Wallet.TokenBalance);
  swapper_getQuote : value -> value -> value -> value -> M Swapper.QuoteRecord;
  swapper_swap : value -> value -> value -> value -> M Swapper.SwapResult;
  swapper_getPrice : string -> M float;
  transfer_sendSol : value -> float -> M Transfer.SolResult;
  transfer_sendToken : value -> value -> value -> M Transfer.TokenResult;
  staking_stake : value -> float -> M Staking.StakeResult;
  staking_getStakeAccounts : M (list Staking.StakeAccountSummary);
  staking_unstake : value -> M Staking.UnstakeResult;
  staking_withdraw : value -> M Staking.WithdrawResult
}.

(** [function loadWallet()] and the [try] around it in [startServer]: the
    module's state once the server has started.  [walletFile] is [None]
    when no file exists at the wallet path, and otherwise what
    [Wallet.fromFile] makes of the file; [connect] stands for the three
    constructors.  A failure is logged and the state stays [null]. *)
Definition loadWallet (DEFAULT_WALLET_PATH : string)
    (walletFile : option (Result Wallet.t)) : Result Wallet.t :=
  match walletFile with
  | None => Throw (Error ("Wallet not found at " +:+ DEFAULT_WALLET_PATH))
  | Some loaded => loaded
  end.




(** [!body.a || !body.b || ...], left to right. *)
Fixpoint anyMissing (body : value) (fields : list string) : Result bool :=
  match fields with
  | [] => Ok false
  | k :: rest =>
      v ← readProp body k;
      if truthy v then anyMissing body rest else Ok true
  end.

(** The pairs of a path and a method that [handleRequest] tests, in its
    order, and the fields it requires of the body on the routes that read
    one. *)
Definition routes : list (string * string) :=
  [ ("/health", "GET"); ("/wallet/address", "GET"); ("/wallet/balance", "GET");
    ("/wallet/tokens", "GET"); ("/swap/quote", "POST"); ("/swap/execute", "POST");
    ("/price", "GET"); ("/transfer/sol", "POST"); ("/transfer/token", "POST");
    ("/stake/delegate", "POST"); ("/stake/list", "GET"); ("/stake/unstake", "POST");
    ("/stake/withdraw", "POST"); ("/tokens", "GET"); ("/validators", "GET") ].

Definition required : list (string * list string) :=
  [ ("/swap/quote", ["from"; "to"; "amount"]);
    ("/swap/execute", ["from"; "to"; "amount"]);
    ("/transfer/sol", ["to"; "amount"]);
    ("/transfer/token", ["to"; "amount"; "mint"]);
    ("/stake/delegate", ["validator"; "amount"]);
    ("/stake/unstake", ["stakeAccount"]);
    ("/stake/withdraw", ["stakeAccount"]) ].

Section WithRuntime.
Context (JSON_parse : string -> Result value) (parseFloat : value -> float).

(** [function parseBody(req)] *)
Definition parseBody (req : IncomingMessage) : Result value :=
  match msg_body req with
  | Throw e => Throw e
  | Ok body =>
      if String.eqb body EmptyString then Ok (VObj [])
      else match JSON_parse body with
           | Ok v => Ok v
           | Throw _ => Throw (Error "Invalid JSON")
           end
  end.

(** [async function handleRequest(req, res)], with the module's state as
    [state]: [None] while [wallet] is [null].  The request comes with its
    URL parsed, which the source does before the [try]; the line the
    [catch] logs is left out. *)
Definition handleRequest (state : option Services) (req : IncomingMessage)
  : M Reply :=
  let route (p m : string) :=
    String.eqb (msg_pathname req) p && String.eqb (msg_method req) m in
  try_catch
    (if route "/health" "GET" then
       mret (json (VObj [ ("status", VStr "ok");
                          ("wallet",
                           or_else (match state with
                                    | Some s => VStr (wallet_address s)
                                    | None => VUndefined
                                    end) VNull);
                          ("version", VStr "1.0.0") ]) 200)
     else
       match state with
       | None => mret (error "Wallet not loaded" 500)
       | Some s =>
         if route "/wallet/address" "GET" then
           mret (json (VObj [ ("address", VStr (wallet_address s)) ]) 200)
         else if route "/wallet/balance" "GET" then
           balance ← wallet_getBalance s;
           mret (json (VObj [ ("address", VStr (wallet_address s));
                              ("balance", VNum balance);
                              ("unit", VStr "SOL") ]) 200)
         else if route "/wallet/tokens" "GET" then
           tokens ← wallet_getAllTokenBalances s;
           mret (json (VObj [ ("address", VStr (wallet_address s));
                              ("tokens", VArr (map Objects.tokenBalance tokens)) ]) 200)
         else if route "/swap/quote" "POST" then
           body ← lift (parseBody req);
           missing ← lift (anyMissing body ["from"; "to"; "amount"]);
           if missing : bool then
             mret (error "Missing required fields: from, to, amount" 400)
           else
             quote ← swapper_getQuote s (member body "from") (member body "to")
                       (member body "amount")
                       (or_else (member body "slippage") (VNum 50%float));
             mret (json (VObj [ ("success", VBool true);
                                ("quote", VObj (Objects.quote quote)) ]) 200)
         else if route "/swap/execute" "POST" then
           body ← lift (parseBody req);
           missing ← lift (anyMissing body ["from"; "to"; "amount"]);
           if missing : bool then
             mret (error "Missing required fields: from, to, amount" 400)
           else
             result ← swapper_swap s (member body "from") (member body "to")
                        (member body "amount")
                        (or_else (member body "slippage") (VNum 50%float));
             mret (json (VObj (("success", VBool true) :: Objects.swapResult result)) 200)
         else if route "/price" "GET" then
           match msg_token req with
           | None => mret (error "Missing token parameter" 400)
           | Some token =>
               if String.eqb token EmptyString then
                 mret (error "Missing token parameter" 400)
               else
                 price ← swapper_getPrice s token;
                 mret (json (VObj [ ("token", VStr token);
                                    ("price", VNum price);
                                    ("unit", VStr "USDC") ]) 200)
           end
         else if route "/transfer/sol" "POST" then
           body ← lift (parseBody req);
           missing ← lift (anyMissing body ["to"; "amount"]);
           if missing : bool then
             mret (error "Missing required fields: to, amount" 400)
           else
             result ← transfer_sendSol s (member body "to")
                        (parseFloat (member body "amount"));
             mret (json (VObj (("success", VBool true) :: Objects.solResult result)) 200)
         else if route "/transfer/token" "POST" then
           body ← lift (parseBody req);
           missing ← lift (anyMissing body ["to"; "amount"; "mint"]);
           if missing : bool then
             mret (error "Missing required fields: to, amount, mint" 400)
           else
             result ← transfer_sendToken s (member body "to") (member body "amount")
                        (member body "mint");
             mret (json (VObj (("success", VBool true) :: Objects.tokenResult result)) 200)
         else if route "/stake/delegate" "POST" then
           body ← lift (parseBody req);
           missing ← lift (anyMissing body ["validator"; "amount"]);
           if missing : bool then
             mret (error "Missing required fields: validator, amount" 400)
           else
             result ← staking_stake s (member body "validator")
                        (parseFloat (member body "amount"));
             mret (json (VObj (("success", VBool true) :: Objects.stakeResult result)) 200)
         else if route "/stake/list" "GET" then
           accounts ← staking_getStakeAccounts s;
           mret (json (Objects.stakeList (wallet_address s) accounts) 200)
         else if route "/stake/unstake" "POST" then
           body ← lift (parseBody req);
           missing ← lift (anyMissing body ["stakeAccount"]);
           if missing : bool then
             mret (error "Missing required field: stakeAccount" 400)
           else
             result ← staking_unstake s (member body "stakeAccount");
             mret (json (VObj (("success", VBool true) :: Objects.unstakeResult result)) 200)
         else if route "/stake/withdraw" "POST" then
           body ← lift (parseBody req);
           missing ← lift (anyMissing body ["stakeAccount"]);
           if missing : bool then
             mret (error "Missing required field: stakeAccount" 400)
           else
             result ← staking_withdraw s (member body "stakeAccount");
             mret (json (VObj (("success", VBool true) :: Objects.withdrawResult result)) 200)
         else if route "/tokens" "GET" then
           mret (json (VObj Swapper.TOKENS) 200)
         else if route "/validators" "GET" then
           mret (json (VObj Staking.VALIDATORS) 200)
         else
           mret (error "Not found" 404)
       end)
    (fun e => mret (error (message e) 500)).

End WithRuntime.

End Server.

(* ===================================================================== *)
(** * 8c. src/cli.js                                                      *)
(* ===================================================================== *)

Module Cli.

(** One write to the console: [console.log] goes to the standard output,
    [console.error] to the standard error.  What is printed through
    [JSON.stringify(data, null, 2)] is kept as the data. *)
Inductive Output :=
| Stdout (data : value)
| StdoutLine (line : string)
| Stderr (line : string)
| StderrJson (data : value).

(** How a part of [main] ends: normally, by a thrown error, or by
    [process.exit(code)], which ends the process there. *)
Inductive Completion (A : Type) :=
| Normal (a : A)
| Abrupt (e : JsError)
| Exit (code : Z).
Arguments Normal {A} a.
Arguments Abrupt {A} e.
Arguments Exit {A} code.

(** A step of the command line: it extends what the console shows and the
    trace of remote calls. *)
Definition P (A : Type) : Type :=
  list Output -> list Event -> Completion A * list Output * list Event.

#[global] Instance P_ret : MRet P := fun A a out t => (Normal a, out, t).

#[global] Instance P_bind : MBind P := fun A B f m out t =>
  match m out t with
  | (Normal a, out', t') => f a out' t'
  | (Abrupt e, out', t') => (Abrupt e, out', t')
  | (Exit code, out', t') => (Exit code, out', t')
  end.

(** [await m] on a method of the classes. *)
Definition call {A} (m : M A) : P A := fun out t =>
  match m t with
  | (Ok a, t') => (Normal a, out, t')
  | (Throw e, t') => (Abrupt e, out, t')
  end.

Definition print (o : Output) : P unit := fun out t => (Normal tt, (out ++ [o])%list, t).

(** [console.log(JSON.stringify(data, null, 2))] *)
Definition console_log (data : value) : P unit := print (Stdout data).

(** [console.error(line)] *)
Definition console_error (line : string) : P unit := print (Stderr line).

(** [process.exit(code)] *)
Definition process_exit {A} (code : Z) : P A := fun out t => (Exit code, out, t).

(** [try { body } catch (error) { handler error }] *)
Definition try_catch {A} (body : P A) (handler : JsError -> P A) : P A := fun out t =>
  match body out t with
  | (Abrupt e, out', t') => handler e out' t'
  | settled => settled
  end.

(** The exit code of the process: that of [process.exit], 1 for a
    rejection nothing handles, and 0 when [main] returns. *)
Definition exitCode {A} (c : Completion A) : Z :=
  match c with
  | Normal _ => 0
  | Abrupt _ => 1
  | Exit code => code
  end.

(** The number of writes to the standard output among [out]. *)
Definition isStdout (o : Output) : bool :=
  match o with
  | Stdout _ | StdoutLine _ => true
  | Stderr _ | StderrJson _ => false
  end.

Definition stdoutWrites (out : list Output) : nat :=
  length (List.filter isStdout out).

(** [m] writes nothing to the standard output, and ends the process, if it
    does, with code 1. *)
Definition quiet {A} (m : P A) : Prop :=
  forall out t,
    match m out t with
    | (Exit code, out', _) => code = 1 /\ stdoutWrites out' = stdoutWrites out
    | (_, out', _) => stdoutWrites out' = stdoutWrites out
    end.

(** [m] writes to the standard output once, as it completes normally, and
    not at all when it throws or ends the process, which it does with
    code 1. *)
Definition reports {A} (m : P A) : Prop :=
  forall out t,
    match m out t with
    | (Normal _, out', _) => stdoutWrites out' = S (stdoutWrites out)
    | (Abrupt _, out', _) => stdoutWrites out' = stdoutWrites out
    | (Exit code, out', _) => code = 1 /\ stdoutWrites out' = stdoutWrites out
    end.

(** [args[i]] as a value, and [args[i] === s]. *)
Definition arg (args : list string) (i : nat) : value :=
  match args !! i with
  | Some s => VStr s
  | None => VUndefined
  end.

Definition argIs (args : list string) (i : nat) (s : string) : bool :=
  strict_eq_str (arg args i) s.

(** [args.indexOf(s)], [None] standing for -1. *)
Fixpoint indexOf (args : list string) (s : string) : option nat :=
  match args with
  | [] => None
  | a :: rest =>
      if String.eqb a s then Some 0%nat
      else match indexOf rest s with
           | Some i => Some (S i)
           | None => None
           end
  end.

(** [quote.routePlan?.map(r => r.swapInfo?.label).filter(Boolean)] *)
Definition routeLabels (routePlan : value) : Result value :=
  match routePlan with
  | VUndefined | VNull => Ok VUndefined
  | VArr plan =>
      labels ← Staking.mapResult
                 (fun r => swapInfo ← readProp r "swapInfo";
                           mret (optMember swapInfo "label")) plan;
      mret (VArr (filter (fun l => truthy l = true) labels))
  | _ => Throw (TypeError "quote.routePlan?.map is not a function")
  end.

(** [Object.keys(VALIDATORS).join(', ')] *)
Fixpoint join (sep : string) (l : list string) : string :=
  match l with
  | [] => EmptyString
  | [a] => a
  | a :: rest => a +:+ sep +:+ join sep rest
  end.

Definition helpText : string :=
"
Solana Agent Kit - CLI for AI agents

Commands:
  wallet create              Create a new wallet
  wallet balance             Get SOL balance
  wallet tokens              Get all token balances
  wallet address             Print wallet address

  swap quote <from> <to> <amount>     Get swap quote
  swap execute <from> <to> <amount>   Execute swap

  price <token>              Get token price in USDC

  transfer <to> <amount>     Send SOL
  transfer <to> <amount> --token <mint>  Send token

  stake delegate <validator> <amount>  Stake SOL to validator
  stake list                           List your stake accounts
  stake unstake <stake_account>        Start unstaking
  stake withdraw <stake_account>       Withdraw unstaked SOL
  stake validators                     List known validators

  tokens                     List known token symbols

Environment:
  SOLANA_WALLET_PATH    Path to wallet file (default: ~/.config/solana/id.json)
  SOLANA_RPC_URL        RPC endpoint (default: mainnet-beta)

Examples:
  solana-agent wallet balance
  solana-agent swap quote SOL USDC 1000000000
  solana-agent price SOL
  solana-agent transfer 9abc...xyz 0.1
  solana-agent stake delegate jito 1.0
".

Section WithEnv.

(** The ledger and the SDK; the query of the token accounts of an owner;
    [parseFloat]; the wallet path; the file at that path, [None] when
    there is none and otherwise what [Wallet.fromFile] makes of it; and
    [wallet.save(path)], which writes the file. *)
Context (env : Env)
        (getParsedTokenAccountsByOwner :
           PublicKey -> PublicKey -> Result (list ParsedAccount))
        (parseFloat : string -> float)
        (DEFAULT_WALLET_PATH : string)
        (walletFile : option (Result Wallet.t))
        (save : Wallet.t -> string -> Result string).

(** [async function loadWallet()] *)
Definition loadWallet : P Wallet.t :=
  match walletFile with
  | None =>
      _ ← console_error ("Wallet not found at " +:+ DEFAULT_WALLET_PATH);
      _ ← console_error "Create one with: solana-agent wallet create";
      process_exit 1
  | Some loaded => call (lift loaded)
  end.

(** [case 'wallet'] *)
Definition walletCommand (args : list string) : P unit :=
  if argIs args 1 "create" then
    let wallet := Wallet.mk (Keypair_generate env) in
    let savePath :=
      match args !! 2%nat with
      | Some path => if String.eqb path EmptyString then DEFAULT_WALLET_PATH else path
      | None => DEFAULT_WALLET_PATH
      end in
    _ ← call (lift (save wallet savePath));
    console_log (VObj [ ("success", VBool true);
                        ("address", VStr (Wallet.address wallet));
                        ("path", VStr savePath);
                        ("warning",
                         VStr "Backup your wallet file! Loss means loss of funds.") ])
  else if argIs args 1 "balance" then
    wallet ← loadWallet;
    balance ← call (Wallet.getBalance env wallet);
    console_log (VObj [ ("address", VStr (Wallet.address wallet));
                        ("balance", VNum balance);
                        ("unit", VStr "SOL") ])
  else if argIs args 1 "tokens" then
    wallet ← loadWallet;
    tokens ← call (lift (Wallet.getAllTokenBalances env
                           getParsedTokenAccountsByOwner wallet));
    console_log (VObj [ ("address", VStr (Wallet.address wallet));
                        ("tokens", VArr (map Objects.tokenBalance tokens)) ])
  else if argIs args 1 "address" then
    wallet ← loadWallet;
    print (StdoutLine (Wallet.address wallet))
  else
    _ ← console_error "Unknown wallet command. Use: create, balance, tokens, address";
    process_exit 1.

(** [case 'swap'] *)
Definition swapCommand (args : list string) : P unit :=
  wallet ← loadWallet;
  if argIs args 1 "quote" then
    match args !! 2%nat, args !! 3%nat, args !! 4%nat with
    | Some from, Some to, Some amount =>
        if String.eqb from EmptyString || String.eqb to EmptyString
           || String.eqb amount EmptyString then
          _ ← console_error "Usage: solana-agent swap quote <from> <to> <amount>";
          process_exit 1
        else
          quote ← call (Swapper.getQuote env (VStr from) (VStr to) (VStr amount)
                          VUndefined);
          route ← call (lift (routeLabels (Swapper.routePlan quote)));
          console_log (VObj [ ("from", VStr from);
                              ("to", VStr to);
                              ("inputAmount", Swapper.inAmount quote);
                              ("outputAmount", Swapper.outAmount quote);
                              ("priceImpact", Swapper.priceImpactPct quote);
                              ("route", route) ])
    | _, _, _ =>
        _ ← console_error "Usage: solana-agent swap quote <from> <to> <amount>";
        process_exit 1
    end
  else if argIs args 1 "execute" then
    match args !! 2%nat, args !! 3%nat, args !! 4%nat with
    | Some from, Some to, Some amount =>
        if String.eqb from EmptyString || String.eqb to EmptyString
           || String.eqb amount EmptyString then
          _ ← console_error "Usage: solana-agent swap execute <from> <to> <amount>";
          process_exit 1
        else
          _ ← console_error ("Swapping " +:+ amount +:+ " " +:+ from +:+ " -> " +:+ to
                             +:+ "...");
          result ← call (Swapper.swap env wallet (VStr from) (VStr to) (VStr amount)
                           VUndefined);
          console_log (VObj [ ("success", VBool true);
                              ("signature", VStr (Swapper.swap_signature result));
                              ("inputAmount", Swapper.swap_inAmount result);
                              ("outputAmount", Swapper.swap_outAmount result);
                              ("explorer", VStr (Swapper.swap_explorerUrl result)) ])
    | _, _, _ =>
        _ ← console_error "Usage: solana-agent swap execute <from> <to> <amount>";
        process_exit 1
    end
  else
    _ ← console_error "Unknown swap command. Use: quote, execute";
    process_exit 1.

(** [case 'price'] *)
Definition priceCommand (args : list string) : P unit :=
  match args !! 1%nat with
  | Some token =>
      if String.eqb token EmptyString then
        _ ← console_error "Usage: solana-agent price <token>";
        process_exit 1
      else
        wallet ← loadWallet;
        price ← call (Swapper.getPrice env token);
        console_log (VObj [ ("token", VStr token);
                            ("price", VNum price);
                            ("unit", VStr "USDC") ])
  | None =>
      _ ← console_error "Usage: solana-agent price <token>";
      process_exit 1
  end.

(** [tokenIdx !== -1 ? args[tokenIdx + 1] : null], with [None] for a value
    that is [null], [undefined] or the empty string: the code branches on
    its truthiness only. *)
Definition tokenMintOf (args : list string) : option string :=
  match indexOf args "--token" with
  | Some tokenIdx =>
      match args !! (tokenIdx + 1)%nat with
      | Some mint => if String.eqb mint EmptyString then None else Some mint
      | None => None
      end
  | None => None
  end.

(** [case 'transfer'] *)
Definition transferCommand (args : list string) : P unit :=
  wallet ← loadWallet;
  let tokenMint := tokenMintOf args in
  match args !! 1%nat, args !! 2%nat with
  | Some to, Some amount =>
      if String.eqb to EmptyString || String.eqb amount EmptyString then
        _ ← console_error "Usage: solana-agent transfer <to> <amount> [--token <mint>]";
        process_exit 1
      else
        _ ← console_error ("Transferring " +:+ amount +:+ " "
                           +:+ default "SOL" tokenMint +:+ " to " +:+ to +:+ "...");
        '(signature, explorerUrl) ←
          match tokenMint with
          | Some mint =>
              result ← call (Transfer.sendToken env wallet to (VStr amount) mint);
              mret (Transfer.tok_signature result, Transfer.tok_explorerUrl result)
          | None =>
              result ← call (Transfer.sendSol env wallet to (VStr amount));
              mret (Transfer.sol_signature result, Transfer.sol_explorerUrl result)
          end;
        console_log (VObj [ ("success", VBool true);
                            ("signature", VStr signature);
                            ("to", VStr to);
                            ("amount", VStr amount);
                            ("token", VStr (default "SOL" tokenMint));
                            ("explorer", VStr explorerUrl) ])
  | _, _ =>
      _ ← console_error "Usage: solana-agent transfer <to> <amount> [--token <mint>]";
      process_exit 1
  end.

(** [case 'stake'] *)
Definition stakeCommand (args : list string) : P unit :=
  wallet ← loadWallet;
  if argIs args 1 "delegate" then
    match args !! 2%nat, args !! 3%nat with
    | Some validator, Some amount =>
        if String.eqb validator EmptyString || String.eqb amount EmptyString then
          _ ← console_error "Usage: solana-agent stake delegate <validator> <amount_sol>";
          _ ← console_error ("Validators: " +:+ join ", " (map fst Staking.VALIDATORS));
          process_exit 1
        else
          _ ← console_error ("Staking " +:+ amount +:+ " SOL to " +:+ validator +:+ "...");
          result ← call (Staking.stake env wallet validator (VNum (parseFloat amount)));
          console_log (VObj (("success", VBool true) :: Objects.stakeResult result))
    | _, _ =>
        _ ← console_error "Usage: solana-agent stake delegate <validator> <amount_sol>";
        _ ← console_error ("Validators: " +:+ join ", " (map fst Staking.VALIDATORS));
        process_exit 1
    end
  else if argIs args 1 "list" then
    accounts ← call (Staking.getStakeAccounts env wallet);
    console_log (Objects.stakeList (Wallet.address wallet) accounts)
  else if argIs args 1 "unstake" then
    match args !! 2%nat with
    | Some stakeAddr =>
        if String.eqb stakeAddr EmptyString then
          _ ← console_error "Usage: solana-agent stake unstake <stake_account_address>";
          process_exit 1
        else
          _ ← console_error ("Deactivating stake account " +:+ stakeAddr +:+ "...");
          result ← call (Staking.unstake env wallet stakeAddr);
          console_log (VObj (("success", VBool true) :: Objects.unstakeResult result))
    | None =>
        _ ← console_error "Usage: solana-agent stake unstake <stake_account_address>";
        process_exit 1
    end
  else if argIs args 1 "withdraw" then
    match args !! 2%nat with
    | Some stakeAddr =>
        if String.eqb stakeAddr EmptyString then
          _ ← console_error "Usage: solana-agent stake withdraw <stake_account_address>";
          process_exit 1
        else
          _ ← console_error ("Withdrawing from " +:+ stakeAddr +:+ "...");
          result ← call (Staking.withdraw env wallet stakeAddr);
          console_log (VObj (("success", VBool true) :: Objects.withdrawResult result))
    | None =>
        _ ← console_error "Usage: solana-agent stake withdraw <stake_account_address>";
        process_exit 1
    end
  else if argIs args 1 "validators" then
    console_log (VObj Staking.VALIDATORS)
  else
    _ ← console_error
          "Unknown stake command. Use: delegate, list, unstake, withdraw, validators";
    process_exit 1.

(** [async function main()], on [args = process.argv.slice(2)]. *)
Definition main (args : list string) : P unit :=
  try_catch
    (if argIs args 0 "wallet" then walletCommand args
     else if argIs args 0 "swap" then swapCommand args
     else if argIs args 0 "price" then priceCommand args
     else if argIs args 0 "transfer" then transferCommand args
     else if argIs args 0 "tokens" then console_log (VObj Swapper.TOKENS)
     else if argIs args 0 "stake" then stakeCommand args
     else print (StdoutLine helpText))
    (fun error =>
       _ ← print (StderrJson (VObj [ ("success", VBool false);
                                     ("error", VStr (message error)) ]));
       process_exit 1).

End WithEnv.

End Cli.

(* ===================================================================== *)
(** * 9. A concrete environment                                           *)
(* ===================================================================== *)

Module Demo.

(** Decimal digits to an integer; [None] on any other character. *)
Fixpoint parseDigits (acc : Z) (s : string) : option Z :=
  match s with
  | EmptyString => Some acc
  | String c r =>
      let n := N_of_ascii c in
      if ((48 <=? n) && (n <=? 57))%N
      then parseDigits (10 * acc + Z.of_N (n - 48)) r
      else None
  end.

Definition me : Wallet.t :=
  Wallet.mk (mkKeypair (mkPublicKey "9xQeWvG816bUx9EPjHmaT23yvVM2ZWbrrpZb9PusVFin")).

Definition fresh : Keypair :=
  mkKeypair (mkPublicKey "5ZWj7a1f8tWkjBESHKgrLmXshuXxqeY9SYcfbshpAqPG").

Definition stakeInfoDelegated : value :=
  VObj [ ("meta", VObj []);
         ("stake", VObj [ ("creditsObserved", VNum 1%float);
                          ("delegation",
                           VObj [ ("activationEpoch", VStr "512");
                                  ("deactivationEpoch", VStr "18446744073709551615");
                                  ("stake", VStr "1000000000");
                                  ("voter", VStr "J1to1yufRnoWn81KYg1XkTWzmKjnYSnmE2VY8DGUJ9Qv") ]) ]) ].

Definition stakeInfoInitialized : value :=
  VObj [ ("meta", VObj []); ("stake", VNull) ].

Definition stakeAccounts : list ParsedAccount :=
  [ mkParsedAccount (mkPublicKey "StakeAcct1") 1002282880%float stakeInfoDelegated;
    mkParsedAccount (mkPublicKey "StakeAcct2") 2282880%float stakeInfoInitialized ].

Definition quotePayload : value :=
  VObj [ ("inAmount", VStr "1000000000");
         ("outAmount", VStr "154320000");
         ("priceImpactPct", VStr "0.0001");
         ("routePlan", VArr []) ].

(** The builders of the sample environment.  Each encodes an amount within
    the range of its 64-bit integer as it is.  That of
    [SystemProgram.transfer] writes an unsigned integer and throws on a
    number that is no integer of that range; that of
    [StakeProgram.createAccount] writes a signed one; that of
    [createTransferInstruction] writes the sixteen leading hexadecimal
    digits of a BigInt that has more, and throws on a negative one. *)
Definition rangeError : JsError :=
  mkError "RangeError" "The value is out of range".

Definition u64_lamports (lamports : float) : Result float :=
  match integerValue lamports with
  | Some z => if (0 <=? z) && (z <? 2 ^ 64) then Ok lamports else Throw rangeError
  | None => Throw rangeError
  end.

Definition i64_lamports (lamports : float) : Result float :=
  match integerValue lamports with
  | Some z =>
      if (- 2 ^ 63 <=? z) && (z <? 2 ^ 63) then Ok lamports else Throw rangeError
  | None => Throw rangeError
  end.

Definition u64_amount (amount : Z) : Result Z :=
  if amount <? 0 then Throw (TypeError "Blob.encode requires (length 8) Uint8Array as src")
  else if amount <? 2 ^ 64 then Ok amount
  else Ok (amount / 16 ^ (Z.log2 amount / 4 + 1 - 16)).

(** An environment in which the existence check settles to [acct] and
    every HTTP call to [resp]. *)
Definition env (acct : Result TokenAccount) (resp : Result Response) : Env :=
  {| new_PublicKey := fun v =>
       match v with
       | VStr s => Ok (mkPublicKey s)
       | _ => Throw (Error "Invalid public key input")
       end;
     Keypair_generate := fresh;
     SystemProgram_transfer_lamports := u64_lamports;
     StakeProgram_createAccount_lamports := i64_lamports;
     createTransferInstruction_amount := u64_amount;
     getAssociatedTokenAddress := fun mint owner =>
       Ok (mkPublicKey (toBase58 owner +:+ "/" +:+ toBase58 mint));
     getAccount := fun _ => acct;
     getBalance := fun _ => Ok 5000000000%float;
     getMinimumBalanceForRentExemption := fun _ => Ok 2282880%float;
     getParsedProgramAccounts := fun _ _ _ => Ok stakeAccounts;
     sendAndConfirmTransaction := fun _ _ => Ok "5sig";
     deserializeAndSign := fun _ _ => Ok "signedTx";
     sendTransaction := fun _ => Ok "5sig";
     confirmTransaction := fun _ => Ok VNull;
     fetch := fun _ => resp;
     BigInt := fun v =>
       match v with
       | VBigInt z => Ok z
       | VStr s =>
           match parseDigits 0 s with
           | Some z => Ok z
           | None => Throw (mkError "SyntaxError" "Cannot convert to a BigInt")
           end
       | VNum n =>
           match integerValue n with
           | Some z => Ok z
           | None => Throw (mkError "RangeError" "Cannot convert to a BigInt")
           end
       | _ => Throw (TypeError "Cannot convert to a BigInt")
       end;
     StringToNumber := fun s =>
       match parseDigits 0 s with
       | Some z => Z2float z
       | None => nan
       end;
     ObjectToNumber := fun _ => Ok nan;
     FractionToString := fun _ => "0.5";
     ObjectToString := fun _ => Ok "[object Object]";
     JSON_stringify := fun _ => "{}" |}.

(** [e], with the stake accounts the node returns replaced. *)
Definition withStakeAccounts (e : Env) (accounts : list ParsedAccount) : Env :=
  {| new_PublicKey := new_PublicKey e;
     Keypair_generate := Keypair_generate e;
     SystemProgram_transfer_lamports := SystemProgram_transfer_lamports e;
     StakeProgram_createAccount_lamports := StakeProgram_createAccount_lamports e;
     createTransferInstruction_amount := createTransferInstruction_amount e;
     getAssociatedTokenAddress := getAssociatedTokenAddress e;
     getAccount := getAccount e;
     getBalance := getBalance e;
     getMinimumBalanceForRentExemption := getMinimumBalanceForRentExemption e;
     getParsedProgramAccounts := fun _ _ _ => Ok accounts;
     sendAndConfirmTransaction := sendAndConfirmTransaction e;
     deserializeAndSign := deserializeAndSign e;
     sendTransaction := sendTransaction e;
     confirmTransaction := confirmTransaction e;
     fetch := fetch e;
     BigInt := BigInt e;
     StringToNumber := StringToNumber e;
     ObjectToNumber := ObjectToNumber e;
     FractionToString := FractionToString e;
     ObjectToString := ObjectToString e;
     JSON_stringify := JSON_stringify e |}.

(** [e], with the outcome of confirming a transaction replaced. *)
Definition withConfirmation (e : Env) (outcome : Result value) : Env :=
  {| new_PublicKey := new_PublicKey e;
     Keypair_generate := Keypair_generate e;
     SystemProgram_transfer_lamports := SystemProgram_transfer_lamports e;
     StakeProgram_createAccount_lamports := StakeProgram_createAccount_lamports e;
     createTransferInstruction_amount := createTransferInstruction_amount e;
     getAssociatedTokenAddress := getAssociatedTokenAddress e;
     getAccount := getAccount e;
     getBalance := getBalance e;
     getMinimumBalanceForRentExemption := getMinimumBalanceForRentExemption e;
     getParsedProgramAccounts := getParsedProgramAccounts e;
     sendAndConfirmTransaction := sendAndConfirmTransaction e;
     deserializeAndSign := deserializeAndSign e;
     sendTransaction := sendTransaction e;
     confirmTransaction := fun _ => outcome;
     fetch := fetch e;
     BigInt := BigInt e;
     StringToNumber := StringToNumber e;
     ObjectToNumber := ObjectToNumber e;
     FractionToString := FractionToString e;
     ObjectToString := ObjectToString e;
     JSON_stringify := JSON_stringify e |}.

(** The module state of the server over [e] with the wallet [w]: the
    methods of the classes, on the strings a well-formed body holds. *)
Definition services (e : Env) (w : Wallet.t) : Server.Services :=
  let invalid {A} : M A := throw (Error "Invalid public key input") in
  {| Server.wallet_address := Wallet.address w;
     Server.wallet_getBalance := Wallet.getBalance e w;
     Server.wallet_getAllTokenBalances :=
       lift (Wallet.getAllTokenBalances e (fun _ _ => Ok []) w);
     Server.swapper_getQuote := Swapper.getQuote e;
     Server.swapper_swap := Swapper.swap e w;
     Server.swapper_getPrice := Swapper.getPrice e;
     Server.transfer_sendSol := fun to amount =>
       match to with
       | VStr to => Transfer.sendSol e w to (VNum amount)
       | _ => invalid
       end;
     Server.transfer_sendToken := fun to amount mint =>
       match to, mint with
       | VStr to, VStr mint => Transfer.sendToken e w to amount mint
       | _, _ => invalid
       end;
     Server.staking_stake := fun validator amount =>
       match validator with
       | VStr validator => Staking.stake e w validator (VNum amount)
       | _ => throw (TypeError "validatorOrAddress.toLowerCase is not a function")
       end;
     Server.staking_getStakeAccounts := Staking.getStakeAccounts e w;
     Server.staking_unstake := fun stakeAccount =>
       match stakeAccount with
       | VStr stakeAccount => Staking.unstake e w stakeAccount
       | _ => invalid
       end;
     Server.staking_withdraw := fun stakeAccount =>
       match stakeAccount with
       | VStr stakeAccount => Staking.withdraw e w stakeAccount
       | _ => invalid
       end |}.

(** [parseFloat] on the values of the examples. *)
Definition parseFloat (v : value) : float :=
  match v with
  | VNum n => n
  | VStr s =>
      match parseDigits 0 s with
      | Some z => Z2float z
      | None => nan
      end
  | _ => nan
  end.

Definition found : Result TokenAccount := Ok (mkTokenAccount 42).
Definition notFound : Result TokenAccount :=
  Throw (mkError "TokenAccountNotFoundError" EmptyString).
Definition rpcDown : Result TokenAccount :=
  Throw (Error "failed to get info about account: fetch failed").

Definition okResponse : Result Response :=
  Ok (mkResponse 200 (Ok "{...}") (Ok quotePayload)).
Definition failResponse (code : Z) (body : string) : Result Response :=
  Ok (mkResponse code (Ok body) (Throw (mkError "SyntaxError" "Unexpected token"))).

End Demo.

(* ===================================================================== *)
(** * 10. Running the effect monad                                        *)
(* ===================================================================== *)

Section MonadLemmas.
Context {A B : Type}.

Lemma lift_bind (r : Result A) (f : A -> M B) t :
  (lift r ≫= f) t =
  match r with
  | Ok a => f a t
  | Throw e => (Throw e, t)
  end.
Proof. destruct r; reflexivity. Qed.

Lemma await_bind ev (r : Result A) (f : A -> M B) t :
  (await ev r ≫= f) t =
  match r with
  | Ok a => f a (t ++ [ev])%list
  | Throw e => (Throw e, (t ++ [ev])%list)
  end.
Proof. destruct r; reflexivity. Qed.

Lemma bind_bind {C} (m : M A) (f : A -> M B) (g : B -> M C) t :
  ((m ≫= f) ≫= g) t = (m ≫= (fun a => f a ≫= g)) t.
Proof.
  unfold mbind, M_bind. destruct (m t) as [[a|e] t']; reflexivity.
Qed.

Lemma try_catch_run (body : M A) (h : JsError -> M A) t :
  try_catch body h t =
  match body t with
  | (Ok a, t') => (Ok a, t')
  | (Throw e, t') => h e t'
  end.
Proof. reflexivity. Qed.

End MonadLemmas.

Lemma mret_run {A} (a : A) t : (mret a : M A) t = (Ok a, t).
Proof. reflexivity. Qed.

Lemma throw_run {A} (e : JsError) t : (throw e : M A) t = (Throw e, t).
Proof. reflexivity. Qed.

Lemma bind_run {A B} (m : M A) (f : A -> M B) t :
  (m ≫= f) t =
  match m t with
  | (Ok a, t') => f a t'
  | (Throw e, t') => (Throw e, t')
  end.
Proof. reflexivity. Qed.

Lemma Result_bind_Ok {A B} (a : A) (f : A -> Result B) : (Ok a ≫= f) = f a.
Proof. reflexivity. Qed.

Lemma Result_bind_Throw {A B} (e : JsError) (f : A -> Result B) :
  (Throw e ≫= f) = Throw e.
Proof. reflexivity. Qed.

(** Stepping through synchronous steps that may throw. *)
Ltac rstep := repeat first [ rewrite Result_bind_Ok | rewrite Result_bind_Throw ].

(** Stepping through a sequence of [await]s and synchronous steps. *)
Ltac step :=
  repeat first
    [ rewrite lift_bind | rewrite await_bind | rewrite mret_run
    | rewrite throw_run | rewrite try_catch_run ].

(* ===================================================================== *)
(** * 11. Transfer: the existence check of the destination account        *)
(* ===================================================================== *)

Section TransferFacts.
Context (env : Env) (w : Wallet.t).

Lemma checkDestination_run destAta toPubkey mintPubkey t :
  Transfer.checkDestination env w destAta toPubkey mintPubkey t =
  match getAccount env destAta with
  | Ok _ => (Ok [], (t ++ [EvGetAccount destAta])%list)
  | Throw e =>
      if String.eqb (name e) TokenAccountNotFoundError
      then (Ok [ createAssociatedTokenAccountInstruction
                   (publicKey (Wallet.keypair w)) destAta toPubkey mintPubkey ],
            (t ++ [EvGetAccount destAta])%list)
      else (Throw e, (t ++ [EvGetAccount destAta])%list)
  end.
Proof.
  unfold Transfer.checkDestination. step.
  destruct (getAccount env destAta) as [acc|e]; [reflexivity|].
  destruct (String.eqb (name e) TokenAccountNotFoundError); reflexivity.
Qed.

End TransferFacts.

(** What a trace that holds one or two calls says of a submission in it. *)
Lemma submitted_in_one tx signers (ev : Event) :
  (forall tx' s', ev <> EvSendAndConfirm tx' s') ->
  EvSendAndConfirm tx signers ∈ [ev] -> False.
Proof.
  intros Hne Hin. apply list_elem_of_singleton in Hin. symmetry in Hin.
  exact (Hne _ _ Hin).
Qed.

Lemma submitted_in_two tx signers (ev : Event) tx0 s0 :
  (forall tx' s', ev <> EvSendAndConfirm tx' s') ->
  EvSendAndConfirm tx signers ∈ [ev; EvSendAndConfirm tx0 s0] ->
  tx = tx0 /\ signers = s0.
Proof.
  intros Hne Hin. apply elem_of_cons in Hin as [Hin|Hin].
  - symmetry in Hin. destruct (Hne _ _ Hin).
  - apply list_elem_of_singleton in Hin. injection Hin as -> ->. auto.
Qed.

(** C1. [sendToken] adds the instruction creating the destination's
    associated token account exactly when the existence check
    [getAccount(connection, destAta)] fails with an error named
    [TokenAccountNotFoundError].  When it so fails, the transaction as it
    stands after the check is that instruction alone, and, the amount
    converting and encoding, the call submits that instruction followed by
    the transfer; when the check finds the account, the transaction after
    the check is empty and the call submits the transfer alone.  So the
    instruction is in the transaction after the check, and in every
    transaction submitted, if and only if the check reported not found.
    Any other error of the check is re-raised as it is, the existence
    check being the only remote call made: nothing is built after it and
    nothing is submitted. *)
Theorem sendToken_creates_account_iff_not_found
    (env : Env) (w : Wallet.t) (toAddress mintAddress : string) (amt : value)
    (toPubkey mintPubkey sourceAta destAta : PublicKey)
    (Hto : new_PublicKey env (VStr toAddress) = Ok toPubkey)
    (Hmint : new_PublicKey env (VStr mintAddress) = Ok mintPubkey)
    (Hsrc : getAssociatedTokenAddress env mintPubkey (publicKey (Wallet.keypair w)) = Ok sourceAta)
    (Hdst : getAssociatedTokenAddress env mintPubkey toPubkey = Ok destAta) :
  let create :=
    createAssociatedTokenAccountInstruction
      (publicKey (Wallet.keypair w)) destAta toPubkey mintPubkey in
  let notFound :=
    exists e, getAccount env destAta = Throw e /\ name e = TokenAccountNotFoundError in
  (forall tx t,
      run (Transfer.checkDestination env w destAta toPubkey mintPubkey) = (Ok tx, t) ->
      (create ∈ tx <-> notFound)) /\
  (forall tx signers,
      EvSendAndConfirm tx signers
        ∈ snd (run (Transfer.sendToken env w toAddress amt mintAddress)) ->
      (create ∈ tx <-> notFound)) /\
  (forall e,
      getAccount env destAta = Throw e ->
      name e <> TokenAccountNotFoundError ->
      run (Transfer.sendToken env w toAddress amt mintAddress)
      = (Throw e, [EvGetAccount destAta])) /\
  (notFound ->
   run (Transfer.checkDestination env w destAta toPubkey mintPubkey)
   = (Ok [create], [EvGetAccount destAta])) /\
  (forall account,
      getAccount env destAta = Ok account ->
      run (Transfer.checkDestination env w destAta toPubkey mintPubkey)
      = (Ok [], [EvGetAccount destAta])) /\
  (forall units encoded,
      BigInt env amt = Ok units ->
      createTransferInstruction_amount env units = Ok encoded ->
      let transfer :=
        createTransferInstruction sourceAta destAta (publicKey (Wallet.keypair w))
          encoded in
      (notFound ->
       snd (run (Transfer.sendToken env w toAddress amt mintAddress))
       = [ EvGetAccount destAta;
           EvSendAndConfirm [create; transfer] [Wallet.keypair w] ]) /\
      (forall account,
          getAccount env destAta = Ok account ->
          snd (run (Transfer.sendToken env w toAddress amt mintAddress))
          = [ EvGetAccount destAta;
              EvSendAndConfirm [transfer] [Wallet.keypair w] ])).
Proof.
  intros create notFound. subst create notFound. unfold run.
  split; [|split; [|split; [|split; [|split]]]].
  - intros tx t. rewrite checkDestination_run.
    destruct (getAccount env destAta) as [acc|e] eqn:Hacc.
    + intros [= <- <-]. split.
      * intros Hin. inversion Hin.
      * intros (e & He & _). discriminate.
    + destruct (String.eqb (name e) TokenAccountNotFoundError) eqn:Hname.
      * intros [= <- <-]. apply String.eqb_eq in Hname. split.
        -- intros _. eauto.
        -- intros _. apply list_elem_of_singleton. reflexivity.
      * intros [=].
  - intros tx signers. unfold Transfer.sendToken. step.
    rewrite Hto. step. rewrite Hmint. step. rewrite Hsrc. step. rewrite Hdst.
    unfold mbind at 1, M_bind at 1. rewrite checkDestination_run.
    destruct (getAccount env destAta) as [acc|e] eqn:Hacc.
    + step. destruct (BigInt env amt) as [units|eb];
        [|simpl; intros Hin; apply submitted_in_one in Hin; [contradiction|discriminate]].
      step. destruct (createTransferInstruction_amount env units) as [encoded|eb];
        [|simpl; intros Hin; apply submitted_in_one in Hin; [contradiction|discriminate]].
      step.
      destruct (sendAndConfirmTransaction env _ _) as [sig|es];
        [step; destruct (toString env amt); step|];
        simpl; intros Hin;
        (apply submitted_in_two in Hin as [-> _]; [|discriminate]);
      (split;
       [ rewrite list_elem_of_singleton; intros [=]
       | intros (e0 & He0 & _); discriminate ]).
    + destruct (String.eqb (name e) TokenAccountNotFoundError) eqn:Hname;
        [|simpl; intros Hin; apply submitted_in_one in Hin; [contradiction|discriminate]].
      apply String.eqb_eq in Hname.
      step. destruct (BigInt env amt) as [units|eb];
        [|simpl; intros Hin; apply submitted_in_one in Hin; [contradiction|discriminate]].
      step. destruct (createTransferInstruction_amount env units) as [encoded|eb];
        [|simpl; intros Hin; apply submitted_in_one in Hin; [contradiction|discriminate]].
      step.
      destruct (sendAndConfirmTransaction env _ _) as [sig|es];
        [step; destruct (toString env amt); step|];
        simpl; intros Hin;
        (apply submitted_in_two in Hin as [-> _]; [|discriminate]);
      (split;
       [ intros _; eauto
       | intros _; apply elem_of_cons; left; reflexivity ]).
  - intros e He Hname. unfold Transfer.sendToken. step.
    rewrite Hto. step. rewrite Hmint. step. rewrite Hsrc. step. rewrite Hdst.
    unfold mbind at 1, M_bind at 1. rewrite checkDestination_run, He.
    destruct (String.eqb (name e) TokenAccountNotFoundError) eqn:Hn.
    + apply String.eqb_eq in Hn. contradiction.
    + reflexivity.
  - intros (e & He & Hname). rewrite checkDestination_run, He, Hname.
    rewrite String.eqb_refl. reflexivity.
  - intros account Hacc. rewrite checkDestination_run, Hacc. reflexivity.
  - intros units encoded Hunits Hencoded. cbv zeta. split.
    + intros (e & He & Hname).
      unfold Transfer.sendToken. step.
      rewrite Hto. step. rewrite Hmint. step. rewrite Hsrc. step. rewrite Hdst.
      unfold mbind at 1, M_bind at 1. rewrite checkDestination_run, He, Hname.
      rewrite String.eqb_refl. step. rewrite Hunits. step. rewrite Hencoded. step.
      destruct (sendAndConfirmTransaction env _ _) as [sig|es];
        [step; destruct (toString env amt); step|]; reflexivity.
    + intros account Hacc.
      unfold Transfer.sendToken. step.
      rewrite Hto. step. rewrite Hmint. step. rewrite Hsrc. step. rewrite Hdst.
      unfold mbind at 1, M_bind at 1. rewrite checkDestination_run, Hacc.
      step. rewrite Hunits. step. rewrite Hencoded. step.
      destruct (sendAndConfirmTransaction env _ _) as [sig|es];
        [step; destruct (toString env amt); step|]; reflexivity.
Qed.

Lemma sendToken_creates_account_iff_not_found_witness :
  let me := publicKey (Wallet.keypair Demo.me) in
  let create :=
    createAssociatedTokenAccountInstruction me (mkPublicKey "Dest/Mint")
      (mkPublicKey "Dest") (mkPublicKey "Mint") in
  let transfer :=
    createTransferInstruction (mkPublicKey (Wallet.address Demo.me +:+ "/Mint"))
      (mkPublicKey "Dest/Mint") me 5 in
  (let env := Demo.env Demo.notFound Demo.okResponse in
   getAccount env (mkPublicKey "Dest/Mint") = Demo.notFound /\
   run (Transfer.checkDestination env Demo.me (mkPublicKey "Dest/Mint")
          (mkPublicKey "Dest") (mkPublicKey "Mint"))
   = (Ok [create], [EvGetAccount (mkPublicKey "Dest/Mint")]) /\
   snd (run (Transfer.sendToken env Demo.me "Dest" (VStr "5") "Mint"))
   = [ EvGetAccount (mkPublicKey "Dest/Mint");
       EvSendAndConfirm [create; transfer] [Wallet.keypair Demo.me] ]) /\
  (let env := Demo.env Demo.found Demo.okResponse in
   getAccount env (mkPublicKey "Dest/Mint") = Demo.found /\
   snd (run (Transfer.sendToken env Demo.me "Dest" (VStr "5") "Mint"))
   = [ EvGetAccount (mkPublicKey "Dest/Mint");
       EvSendAndConfirm [transfer] [Wallet.keypair Demo.me] ]) /\
  (let env := Demo.env Demo.rpcDown Demo.okResponse in
   getAccount env (mkPublicKey "Dest/Mint") = Demo.rpcDown /\
   run (Transfer.sendToken env Demo.me "Dest" (VStr "5") "Mint")
   = (Throw (Error "failed to get info about account: fetch failed"),
      [EvGetAccount (mkPublicKey "Dest/Mint")])).
Proof.
  intros me create transfer. split; [|split].
  - intros env. split; [reflexivity|].
    destruct (sendToken_creates_account_iff_not_found env Demo.me "Dest" "Mint"
                (VStr "5") (mkPublicKey "Dest") (mkPublicKey "Mint")
                (mkPublicKey (Wallet.address Demo.me +:+ "/Mint"))
                (mkPublicKey "Dest/Mint")
                eq_refl eq_refl eq_refl eq_refl)
      as (_ & _ & _ & Hcheck & _ & Hsend).
    assert (HnotFound : exists e, getAccount env (mkPublicKey "Dest/Mint") = Throw e /\
                                  name e = TokenAccountNotFoundError).
    { exists (mkError "TokenAccountNotFoundError" EmptyString). split; reflexivity. }
    split; [exact (Hcheck HnotFound)|].
    destruct (Hsend 5 5 eq_refl eq_refl) as [Hcreated _].
    exact (Hcreated HnotFound).
  - intros env. split; [reflexivity|].
    destruct (sendToken_creates_account_iff_not_found env Demo.me "Dest" "Mint"
                (VStr "5") (mkPublicKey "Dest") (mkPublicKey "Mint")
                (mkPublicKey (Wallet.address Demo.me +:+ "/Mint"))
                (mkPublicKey "Dest/Mint")
                eq_refl eq_refl eq_refl eq_refl)
      as (_ & _ & _ & _ & _ & Hsend).
    destruct (Hsend 5 5 eq_refl eq_refl) as [_ Hfound].
    exact (Hfound (mkTokenAccount 42) eq_refl).
  - intros env. split; [reflexivity|].
    destruct (sendToken_creates_account_iff_not_found env Demo.me "Dest" "Mint"
                (VStr "5") (mkPublicKey "Dest") (mkPublicKey "Mint")
                (mkPublicKey (Wallet.address Demo.me +:+ "/Mint"))
                (mkPublicKey "Dest/Mint")
                eq_refl eq_refl eq_refl eq_refl) as (_ & _ & Hother & _).
    apply (Hother (Error "failed to get info about account: fetch failed") eq_refl).
    discriminate.
Defined.

(* ===================================================================== *)
(** * 12. Wallet: token balance                                           *)
(* ===================================================================== *)

(** C10, as stated, fails on the returned value: the account's amount is a
    64-bit BigInt and [Number(account.amount)] is the nearest double, so
    an amount of 2^53 + 1 base units is returned as 2^53. *)
Lemma getTokenBalance_rounds_large_amounts :
  let amount := 9007199254740993 in
  let env := Demo.env (Ok (mkTokenAccount amount)) Demo.okResponse in
  fst (run (Wallet.getTokenBalance env Demo.me "Mint"))
    = Ok 9007199254740992%float /\
  integerValue 9007199254740992%float = Some 9007199254740992 /\
  9007199254740992 <> amount.
Proof.
  intros amount env. split; [|split].
  - vm_compute. reflexivity.
  - vm_compute. reflexivity.
  - discriminate.
Qed.

(* ===================================================================== *)
(** * 13. Doubles that denote integers                                    *)
(* ===================================================================== *)

Section Doubles.

Lemma digits2_pos_lower p : 2 ^ (Zpos (digits2_pos p) - 1) <= Zpos p.
Proof.
  induction p as [p IH|p IH|]; cbn [digits2_pos].
  - rewrite Pos2Z.inj_succ. replace (Z.succ (Zpos (digits2_pos p)) - 1)
      with (Z.succ (Zpos (digits2_pos p) - 1)) by lia.
    rewrite Z.pow_succ_r by lia. lia.
  - rewrite Pos2Z.inj_succ. replace (Z.succ (Zpos (digits2_pos p)) - 1)
      with (Z.succ (Zpos (digits2_pos p) - 1)) by lia.
    rewrite Z.pow_succ_r by lia. lia.
  - reflexivity.
Qed.

Lemma digits2_pos_upper p : Zpos p < 2 ^ Zpos (digits2_pos p).
Proof.
  induction p as [p IH|p IH|]; cbn [digits2_pos];
    try (rewrite Pos2Z.inj_succ, Z.pow_succ_r by lia; lia).
  reflexivity.
Qed.

Lemma digits2_pos_iter_xO p k :
  digits2_pos (Pos.iter xO p k) = (digits2_pos p + k)%positive.
Proof.
  induction k as [|k IH] using Pos.peano_ind.
  - cbn. lia.
  - rewrite Pos.iter_succ. cbn [digits2_pos]. rewrite IH. lia.
Qed.

Lemma Zpos_iter_xO p k : Zpos (Pos.iter xO p k) = Zpos p * 2 ^ Zpos k.
Proof.
  induction k as [|k IH] using Pos.peano_ind.
  - cbn. lia.
  - rewrite Pos.iter_succ, Pos2Z.inj_succ, Z.pow_succ_r by lia.
    rewrite Pos2Z.inj_xO, IH. lia.
Qed.

(** Rounding a mantissa that already has 53 bits changes nothing. *)
Lemma binary_round_aux_canonical s m e :
  digits2_pos m = 53%positive -> -1074 <= e <= 971 ->
  binary_round_aux prec emax s (Zpos m) e loc_Exact = S754_finite s m e.
Proof.
  intros Hd He.
  assert (Hf : fexp prec emax (Zpos (digits2_pos m) + e) - e = 0).
  { rewrite Hd. unfold fexp, SpecFloat.emin, prec, emax. lia. }
  unfold binary_round_aux, shr_fexp, Zdigits2.
  rewrite Hf. cbn [shr shr_record_of_loc shr_m loc_of_shr_record round_nearest_even].
  unfold Zdigits2. rewrite Hf. cbn [shr shr_m].
  replace (e <=? emax - prec) with true; [reflexivity|].
  symmetry. apply Z.leb_le. unfold prec, emax. lia.
Qed.

Lemma binary_round_small s p :
  Zpos p < 2 ^ 53 ->
  exists m e,
    binary_round prec emax s p 0 = S754_finite s m e /\
    valid_binary (S754_finite s m e) = true /\
    -52 <= e <= 0 /\ Zpos m = Zpos p * 2 ^ (- e).
Proof.
  intros Hp.
  pose proof (digits2_pos_lower p) as Hlow.
  assert (Hd : Zpos (digits2_pos p) <= 53).
  { destruct (Z_le_gt_dec (Zpos (digits2_pos p)) 53) as [?|Hgt]; [assumption|].
    assert (2 ^ 53 <= 2 ^ (Zpos (digits2_pos p) - 1)) by (apply Z.pow_le_mono_r; lia).
    lia. }
  unfold binary_round.
  assert (Hfexp : fexp prec emax (Zpos (digits2_pos p) + 0) = Zpos (digits2_pos p) - 53).
  { unfold fexp, SpecFloat.emin, prec, emax. lia. }
  rewrite Hfexp. unfold shl_align.
  destruct (Zpos (digits2_pos p) - 53 - 0) as [|k|k] eqn:Hk; [| lia |].
  - exists p, 0. split; [|split; [|split]].
    + apply binary_round_aux_canonical; [lia|lia].
    + cbn [valid_binary]. unfold bounded, canonical_mantissa.
      replace (Zpos (digits2_pos p)) with 53 by lia. reflexivity.
    + lia.
    + cbn. lia.
  - exists (Pos.iter xO p k), (Zpos (digits2_pos p) - 53).
    assert (Hdk : digits2_pos (Pos.iter xO p k) = 53%positive).
    { rewrite digits2_pos_iter_xO. lia. }
    split; [|split; [|split]].
    + apply binary_round_aux_canonical; [assumption|lia].
    + cbn [valid_binary]. unfold bounded, canonical_mantissa.
      rewrite Hdk. unfold fexp, SpecFloat.emin, prec, emax.
      apply andb_true_intro. split; [apply Z.eqb_eq|apply Z.leb_le]; lia.
    + lia.
    + rewrite Zpos_iter_xO. f_equal. f_equal. lia.
Qed.

(** Below 2^53 in magnitude, [Number] of an integer denotes it. *)
Lemma integerValue_Z2float z :
  - 2 ^ 53 < z < 2 ^ 53 -> integerValue (Z2float z) = Some z.
Proof.
  intros [Hlo Hhi].
  assert (Hpos : forall s p, Zpos p < 2 ^ 53 ->
            integerValue (SF2Prim (binary_round prec emax s p 0))
            = Some (if s then Zneg p else Zpos p)).
  { intros s p Hp.
    destruct (binary_round_small s p Hp) as (m & e & Hn & Hv & He & Hm).
    unfold integerValue. rewrite Hn, Prim2SF_SF2Prim by exact Hv.
    assert (Hsm : (if s then Zneg m else Zpos m)
                  = (if s then Zneg p else Zpos p) * 2 ^ (- e)).
    { destruct s; [|exact Hm]. rewrite <- !Pos2Z.opp_pos, Hm. lia. }
    assert (Hsh : Z.shiftl (if s then Zneg m else Zpos m) e
                  = (if s then Zneg p else Zpos p)).
    { rewrite Hsm. replace e with (- (- e)) at 2 by lia.
      rewrite Z.shiftl_opp_r, Z.shiftr_div_pow2 by lia.
      apply Z.div_mul. apply Z.pow_nonzero; lia. }
    destruct (0 <=? e) eqn:Hle.
    - rewrite Hsh. reflexivity.
    - rewrite Hsh, Z.shiftl_mul_pow2 by lia. rewrite <- Hsm, Z.eqb_refl.
      reflexivity. }
  destruct z as [|p|p].
  - reflexivity.
  - apply (Hpos false p). lia.
  - apply (Hpos true p). rewrite <- Pos2Z.opp_neg. lia.
Qed.

(** [floorZ] is the floor of the number the double denotes:
    for [x = sm * 2^e] with [e < 0], [z <= sm / 2^(-e) < z + 1]. *)
Lemma floorZ_spec x s m e z :
  Prim2SF x = S754_finite s m e -> floorZ x = Some z ->
  let sm := if s then Zneg m else Zpos m in
  if 0 <=? e then z = sm * 2 ^ e
  else z * 2 ^ (- e) <= sm < (z + 1) * 2 ^ (- e).
Proof.
  intros Hx Hz sm. unfold floorZ in Hz. rewrite Hx in Hz.
  injection Hz as <-. fold sm.
  destruct (0 <=? e) eqn:He.
  - apply Z.leb_le in He. apply Z.shiftl_mul_pow2. exact He.
  - apply Z.leb_gt in He.
    replace e with (- (- e)) at 1 3 by lia.
    rewrite Z.shiftl_opp_r, Z.shiftr_div_pow2 by lia.
    assert (0 < 2 ^ (- e)) by (apply Z.pow_pos_nonneg; lia).
    pose proof (Z.mul_div_le sm (2 ^ (- e)) ltac:(lia)).
    pose proof (Z.mul_succ_div_gt sm (2 ^ (- e)) ltac:(lia)).
    lia.
Qed.

(** [Math.floor x] denotes the integer [floorZ x]. *)
Lemma integerValue_Math_floor x : integerValue (Math_floor x) = floorZ x.
Proof.
  unfold Math_floor, floorZ.
  destruct (Prim2SF x) as [sz| si| |s m e] eqn:Hx;
    try (unfold integerValue; rewrite Hx; reflexivity).
  destruct (e <? 0) eqn:He.
  - apply Z.ltb_lt in He.
    apply integerValue_Z2float.
    pose proof (Prim2SF_valid x) as Hv. rewrite Hx in Hv.
    cbn [valid_binary] in Hv. unfold bounded, canonical_mantissa in Hv.
    apply andb_prop in Hv as [Hc _]. apply Z.eqb_eq in Hc.
    unfold fexp, SpecFloat.emin, prec, emax in Hc.
    assert (Hd : Zpos (digits2_pos m) <= 53) by lia.
    pose proof (digits2_pos_upper m) as Hup.
    assert (Hm : Zpos m < 2 ^ 53).
    { eapply Z.lt_le_trans; [exact Hup|]. apply Z.pow_le_mono_r; lia. }
    replace e with (- (- e)) by lia.
    rewrite Z.shiftl_opp_r, Z.shiftr_div_pow2 by lia.
    assert (0 < 2 ^ (- e)) by (apply Z.pow_pos_nonneg; lia).
    destruct s.
    + split.
      * assert (- 2 ^ 53 < Zneg m) by (rewrite <- Pos2Z.opp_pos; lia).
        assert (- 2 ^ 53 + 1 <= Zneg m / 2 ^ (- e)); [|lia].
        apply Z.div_le_lower_bound; [lia|].
        assert (2 ^ (- e) * (- 2 ^ 53 + 1) <= - 2 ^ 53 + 1); [|lia].
        assert (1 <= 2 ^ (- e)) by lia. nia.
      * assert (Zneg m / 2 ^ (- e) < 0); [|lia].
        apply Z.div_lt_upper_bound; lia.
    + split.
      * assert (0 <= Zpos m / 2 ^ (- e)); [|lia].
        apply Z.div_pos; lia.
      * assert (Zpos m / 2 ^ (- e) <= Zpos m); [|lia].
        apply Z.div_le_upper_bound; [lia|]. nia.
  - apply Z.ltb_ge in He. unfold integerValue. rewrite Hx.
    replace (0 <=? e) with true by (symmetry; apply Z.leb_le; exact He).
    reflexivity.
Qed.

End Doubles.

Section DoubleSums.

Lemma pow2_xO n : 2 ^ Zpos n~0 = 2 ^ Zpos n * 2 ^ Zpos n.
Proof.
  rewrite (Pos2Z.inj_xO n). replace (2 * Zpos n) with (Zpos n + Zpos n) by lia.
  apply Z.pow_add_r; lia.
Qed.

Lemma pow2_xI n : 2 ^ Zpos n~1 = 2 ^ Zpos n * 2 ^ Zpos n * 2.
Proof.
  rewrite (Pos2Z.inj_xI n), Z.pow_add_r, <- (Pos2Z.inj_xO n), pow2_xO by lia.
  reflexivity.
Qed.

Lemma shr_1_double k :
  shr_1 (Build_shr_record (k * 2) false false) = Build_shr_record k false false.
Proof. rewrite Z.mul_comm. destruct k; reflexivity. Qed.

(** Shifting out [n] zero bits loses nothing. *)
Lemma iter_shr_1_exact n m :
  SpecFloat.iter_pos shr_1 n (Build_shr_record (m * 2 ^ Zpos n) false false)
  = Build_shr_record m false false.
Proof.
  revert m. induction n as [n IH|n IH|]; intros m; cbn [SpecFloat.iter_pos].
  - replace (m * 2 ^ Zpos n~1) with (((m * 2 ^ Zpos n) * 2 ^ Zpos n) * 2)
      by (rewrite pow2_xI; lia).
    rewrite shr_1_double, IH, IH. reflexivity.
  - replace (m * 2 ^ Zpos n~0) with ((m * 2 ^ Zpos n) * 2 ^ Zpos n)
      by (rewrite pow2_xO; lia).
    rewrite IH, IH. reflexivity.
  - change (2 ^ 1) with 2. apply shr_1_double.
Qed.

Lemma digits2_pos_mul_pow2 p q k :
  0 <= k -> Zpos q = Zpos p * 2 ^ k ->
  Zpos (digits2_pos q) = Zpos (digits2_pos p) + k.
Proof.
  intros Hk Hq. destruct k as [|k|k]; [| |lia].
  - rewrite Z.pow_0_r, Z.mul_1_r in Hq. injection Hq as ->. lia.
  - rewrite <- Zpos_iter_xO in Hq. injection Hq as ->.
    rewrite digits2_pos_iter_xO. lia.
Qed.

(** Rounding a number that a 53-bit mantissa represents returns it. *)
Lemma binary_round_representable s p e m' e' :
  digits2_pos m' = 53%positive -> -1074 <= e' <= 971 ->
  (e' <= e /\ Zpos m' = Zpos p * 2 ^ (e - e') \/
   e < e' /\ Zpos p = Zpos m' * 2 ^ (e' - e)) ->
  binary_round prec emax s p e = S754_finite s m' e'.
Proof.
  intros Hd He' [[Hle Hm]|[Hlt Hp]].
  - assert (Hdp : Zpos (digits2_pos p) + e = 53 + e').
    { pose proof (digits2_pos_mul_pow2 p m' (e - e') ltac:(lia) Hm). lia. }
    unfold binary_round. rewrite Hdp.
    replace (fexp prec emax (53 + e')) with e'
      by (unfold fexp, SpecFloat.emin, prec, emax; lia).
    unfold shl_align.
    destruct (e' - e) as [|k|k] eqn:Hk; [|lia|].
    + assert (e = e') as -> by lia. rewrite Z.sub_diag, Z.pow_0_r, Z.mul_1_r in Hm.
      injection Hm as ->. apply binary_round_aux_canonical; assumption.
    + replace (e - e') with (Zpos k) in Hm by lia.
      rewrite <- Zpos_iter_xO in Hm. injection Hm as ->.
      apply binary_round_aux_canonical; assumption.
  - assert (Hdp : Zpos (digits2_pos p) = 53 + (e' - e)).
    { pose proof (digits2_pos_mul_pow2 m' p (e' - e) ltac:(lia) Hp). lia. }
    unfold binary_round.
    replace (fexp prec emax (Zpos (digits2_pos p) + e)) with e'
      by (rewrite Hdp; unfold fexp, SpecFloat.emin, prec, emax; lia).
    unfold shl_align.
    destruct (e' - e) as [|k|k] eqn:Hk; [lia| |lia].
    unfold binary_round_aux, shr_fexp. unfold Zdigits2 at 1.
    replace (fexp prec emax (Zpos (digits2_pos p) + e) - e) with (Zpos k)
      by (rewrite Hdp; unfold fexp, SpecFloat.emin, prec, emax; lia).
    cbn [shr shr_record_of_loc]. rewrite Hp, iter_shr_1_exact.
    cbn [shr_m loc_of_shr_record round_nearest_even]. unfold Zdigits2.
    replace (e + Zpos k) with e' by lia.
    replace (fexp prec emax (Zpos (digits2_pos m') + e') - e') with 0
      by (rewrite Hd; unfold fexp, SpecFloat.emin, prec, emax; lia).
    cbn [shr shr_m].
    replace (e' <=? emax - prec) with true; [reflexivity|].
    symmetry. apply Z.leb_le. unfold prec, emax. lia.
Qed.

Lemma shl_align_fst mx ex ez :
  ez <= ex -> Zpos (fst (shl_align mx ex ez)) = Zpos mx * 2 ^ (ex - ez).
Proof.
  intros Hle. unfold shl_align.
  destruct (ez - ex) as [|k|k] eqn:Hk; [|lia|]; cbn [fst].
  - replace (ex - ez) with 0 by lia. lia.
  - rewrite Zpos_iter_xO. f_equal. f_equal. lia.
Qed.

(** The number a finite double denotes, when it is an integer [z]. *)
Lemma integerValue_finite_inv x s m e z :
  Prim2SF x = S754_finite s m e -> integerValue x = Some z ->
  let sm := if s then Zneg m else Zpos m in
  (0 <= e /\ z = sm * 2 ^ e) \/ (e < 0 /\ sm = z * 2 ^ (- e)).
Proof.
  intros Hx Hz sm. unfold integerValue in Hz. rewrite Hx in Hz. fold sm in Hz.
  destruct (0 <=? e) eqn:He.
  - apply Z.leb_le in He. injection Hz as <-. left.
    split; [exact He|]. apply Z.shiftl_mul_pow2. exact He.
  - apply Z.leb_gt in He. right. split; [exact He|].
    destruct (Z.shiftl (Z.shiftl sm e) (- e) =? sm) eqn:Hs; [|discriminate].
    injection Hz as <-. apply Z.eqb_eq in Hs.
    rewrite Z.shiftl_mul_pow2 in Hs by lia. symmetry. exact Hs.
Qed.

Lemma integer_of_finite (s : bool) (m : positive) (e : Z) (p : positive) :
  -52 <= e <= 0 -> Zpos m = Zpos p * 2 ^ (- e) ->
  (let sm := if s then Zneg m else Zpos m in
   if 0 <=? e then Some (Z.shiftl sm e)
   else if Z.shiftl (Z.shiftl sm e) (- e) =? sm
        then Some (Z.shiftl sm e) else None)
  = Some (if s then Zneg p else Zpos p).
Proof.
  intros He Hm. cbv zeta.
  assert (Hsm : (if s then Zneg m else Zpos m)
                = (if s then Zneg p else Zpos p) * 2 ^ (- e)).
  { destruct s; [|exact Hm]. rewrite <- !Pos2Z.opp_pos, Hm. lia. }
  assert (Hsh : Z.shiftl (if s then Zneg m else Zpos m) e
                = (if s then Zneg p else Zpos p)).
  { rewrite Hsm. replace e with (- (- e)) at 2 by lia.
    rewrite Z.shiftl_opp_r, Z.shiftr_div_pow2 by lia.
    apply Z.div_mul. apply Z.pow_nonzero; lia. }
  destruct (0 <=? e) eqn:Hle.
  - rewrite Hsh. reflexivity.
  - rewrite Hsh, Z.shiftl_mul_pow2 by lia. rewrite <- Hsm, Z.eqb_refl.
    reflexivity.
Qed.

Lemma pow2_split a b : 0 <= a -> 0 <= b -> 2 ^ (a + b) = 2 ^ a * 2 ^ b.
Proof. intros. apply Z.pow_add_r; assumption. Qed.

Lemma aligned_value sm e z ez :
  ez <= e ->
  (0 <= e /\ z = sm * 2 ^ e) \/ (e < 0 /\ sm = z * 2 ^ (- e)) ->
  (0 <= ez -> z = sm * 2 ^ (e - ez) * 2 ^ ez) /\
  (ez < 0 -> sm * 2 ^ (e - ez) = z * 2 ^ (- ez)).
Proof.
  intros Hle [[He ->]|[He ->]]; split; intros Hz.
  - replace e with ((e - ez) + ez) at 1 by lia.
    rewrite pow2_split by lia. lia.
  - replace (e - ez) with (e + (- ez)) by lia.
    rewrite pow2_split by lia. lia.
  - lia.
  - replace (- ez) with ((- e) + (e - ez)) by lia.
    rewrite pow2_split by lia. lia.
Qed.

(** Rounding [P * 2^ez], a nonzero integer below 2^53 in magnitude. *)
Lemma binary_round_integer s P ez zp :
  Zpos zp < 2 ^ 53 ->
  (0 <= ez /\ Zpos zp = Zpos P * 2 ^ ez) \/ (ez < 0 /\ Zpos P = Zpos zp * 2 ^ (- ez)) ->
  exists m e,
    binary_round prec emax s P ez = S754_finite s m e /\
    -52 <= e <= 0 /\ Zpos m = Zpos zp * 2 ^ (- e).
Proof.
  intros Hzp Hrel.
  destruct (binary_round_small s zp Hzp) as (m & e & _ & Hv & He & Hm).
  exists m, e. split; [|split; assumption].
  cbn [valid_binary] in Hv. unfold bounded, canonical_mantissa in Hv.
  apply andb_prop in Hv as [Hc _]. apply Z.eqb_eq in Hc.
  unfold fexp, SpecFloat.emin, prec, emax in Hc.
  apply binary_round_representable; [lia|lia|].
  destruct Hrel as [[Hez HP]|[Hez HP]].
  - left. split; [lia|]. rewrite Hm, HP.
    replace (ez - e) with (ez + (- e)) by lia.
    rewrite pow2_split by lia. lia.
  - destruct (Z_le_gt_dec e ez) as [Hle|Hgt].
    + left. split; [exact Hle|]. rewrite Hm, HP.
      replace (- e) with ((- ez) + (ez - e)) by lia.
      rewrite pow2_split by lia. lia.
    + right. split; [lia|]. rewrite Hm, HP.
      replace (- ez) with ((- e) + (e - ez)) by lia.
      rewrite pow2_split by lia. lia.
Qed.

(** Adding two doubles that denote integers gives the double that denotes
    their sum, as long as the sum is below 2^53 in magnitude. *)
Lemma integerValue_add a b za zb :
  integerValue a = Some za -> integerValue b = Some zb ->
  - 2 ^ 53 < za + zb < 2 ^ 53 ->
  integerValue (a + b)%float = Some (za + zb).
Proof.
  intros Ha Hb Hrange.
  assert (Hgoal : integerValue (a + b)%float
                  = match SFadd prec emax (Prim2SF a) (Prim2SF b) with
                    | S754_zero _ => Some 0
                    | S754_finite s m e =>
                        let sm := if s then Zneg m else Zpos m in
                        if 0 <=? e then Some (Z.shiftl sm e)
                        else if Z.shiftl (Z.shiftl sm e) (- e) =? sm
                             then Some (Z.shiftl sm e) else None
                    | _ => None
                    end).
  { unfold integerValue. rewrite add_spec. reflexivity. }
  rewrite Hgoal. clear Hgoal.
  destruct (Prim2SF a) as [sa|sa| |sx mx ex] eqn:Ea;
    try (unfold integerValue in Ha; rewrite Ea in Ha; discriminate);
  destruct (Prim2SF b) as [sb|sb| |sy my ey] eqn:Eb;
    try (unfold integerValue in Hb; rewrite Eb in Hb; discriminate).
  - unfold integerValue in Ha, Hb. rewrite Ea in Ha. rewrite Eb in Hb.
    injection Ha as <-. injection Hb as <-. destruct sa, sb; reflexivity.
  - unfold integerValue in Ha. rewrite Ea in Ha. injection Ha as <-.
    unfold integerValue in Hb. rewrite Eb in Hb. cbn [SFadd]. exact Hb.
  - unfold integerValue in Hb. rewrite Eb in Hb. injection Hb as <-.
    unfold integerValue in Ha. rewrite Ea in Ha. cbn [SFadd].
    rewrite Z.add_0_r. exact Ha.
  - pose proof (integerValue_finite_inv a sx mx ex za Ea Ha) as Hx.
    pose proof (integerValue_finite_inv b sy my ey zb Eb Hb) as Hy.
    cbv zeta in Hx, Hy. cbn [SFadd]. cbv zeta.
    set (ez := Z.min ex ey).
    assert (Hex : ez <= ex) by (subst ez; lia).
    assert (Hey : ez <= ey) by (subst ez; lia).
    rewrite (shl_align_fst mx ex ez Hex), (shl_align_fst my ey ez Hey).
    destruct (aligned_value _ ex za ez Hex Hx) as [Hx0 Hx1].
    destruct (aligned_value _ ey zb ez Hey Hy) as [Hy0 Hy1].
    assert (HA : cond_Zopp sx (Zpos mx * 2 ^ (ex - ez))
                 = (if sx then Zneg mx else Zpos mx) * 2 ^ (ex - ez)).
    { destruct sx; cbn [cond_Zopp]; [|reflexivity].
      rewrite <- (Pos2Z.opp_pos mx). lia. }
    assert (HB : cond_Zopp sy (Zpos my * 2 ^ (ey - ez))
                 = (if sy then Zneg my else Zpos my) * 2 ^ (ey - ez)).
    { destruct sy; cbn [cond_Zopp]; [|reflexivity].
      rewrite <- (Pos2Z.opp_pos my). lia. }
    rewrite HA, HB.
    set (A := (if sx then Zneg mx else Zpos mx) * 2 ^ (ex - ez)) in *.
    set (B := (if sy then Zneg my else Zpos my) * 2 ^ (ey - ez)) in *.
    assert (Hrel : (0 <= ez /\ za + zb = (A + B) * 2 ^ ez) \/
                   (ez < 0 /\ A + B = (za + zb) * 2 ^ (- ez))).
    { destruct (Z_le_gt_dec 0 ez) as [H0|H0].
      - left. split; [exact H0|]. rewrite (Hx0 H0), (Hy0 H0). lia.
      - right. split; [lia|]. rewrite (Hx1 ltac:(lia)), (Hy1 ltac:(lia)). lia. }
    assert (Hpow : forall k, 0 < 2 ^ k \/ 2 ^ k = 0).
    { intros k. destruct (Z_le_gt_dec 0 k).
      - left. apply Z.pow_pos_nonneg; lia.
      - right. apply Z.pow_neg_r. lia. }
    destruct (A + B) as [|P|P] eqn:HM; cbn [binary_normalize].
    + f_equal. destruct Hrel as [[_ Hr]|[Hz Hr]]; [lia|].
      symmetry in Hr. apply Z.mul_eq_0 in Hr as [Hr|Hr]; [lia|].
      assert (0 < 2 ^ (- ez)) by (apply Z.pow_pos_nonneg; lia). lia.
    + assert (Hpos : 0 < za + zb).
      { destruct Hrel as [[Hz Hr]|[Hz Hr]].
        - rewrite Hr. apply Z.mul_pos_pos; [lia|].
          apply Z.pow_pos_nonneg; lia.
        - apply (Z.mul_pos_cancel_r _ (2 ^ (- ez)));
            [apply Z.pow_pos_nonneg; lia|].
          rewrite <- Hr. lia. }
      destruct (za + zb) as [|zp|zp] eqn:HZ; [lia| |lia].
      destruct (binary_round_integer false P ez zp (proj2 Hrange) Hrel)
        as (m & e & Hr & He & Hm).
      rewrite Hr. exact (integer_of_finite false m e zp He Hm).
    + assert (Hneg : za + zb < 0).
      { destruct Hrel as [[Hz Hr]|[Hz Hr]].
        - rewrite Hr. apply Z.mul_neg_pos; [lia|].
          apply Z.pow_pos_nonneg; lia.
        - destruct (Z_lt_le_dec (za + zb) 0) as [?|Hge]; [assumption|].
          assert (0 <= (za + zb) * 2 ^ (- ez))
            by (apply Z.mul_nonneg_nonneg; [lia|apply Z.pow_nonneg; lia]).
          lia. }
      destruct (za + zb) as [|zp|zp] eqn:HZ; [lia|lia|].
      assert (Hzp : Zpos zp < 2 ^ 53).
      { destruct Hrange as [Hlo _]. rewrite <- (Pos2Z.opp_pos zp) in Hlo.
        apply Z.opp_lt_mono. exact Hlo. }
      assert (Hrel' : (0 <= ez /\ Zpos zp = Zpos P * 2 ^ ez) \/
                      (ez < 0 /\ Zpos P = Zpos zp * 2 ^ (- ez))).
      { destruct Hrel as [[Hz Hr]|[Hz Hr]]; [left|right]; (split; [lia|]).
        - rewrite <- (Pos2Z.opp_pos zp), <- (Pos2Z.opp_pos P) in Hr.
          rewrite Z.mul_opp_l in Hr. apply Z.opp_inj. exact Hr.
        - rewrite <- (Pos2Z.opp_pos zp), <- (Pos2Z.opp_pos P) in Hr.
          rewrite Z.mul_opp_l in Hr. apply Z.opp_inj. exact Hr. }
      destruct (binary_round_integer true P ez zp Hzp Hrel')
        as (m & e & Hr & He & Hm).
      rewrite Hr. exact (integer_of_finite true m e zp He Hm).
Qed.

End DoubleSums.


(** C10 (amended). With the mint and the associated token account
    resolved, [getTokenBalance] makes one lookup and: returns 0 when the
    lookup fails with an error named [TokenAccountNotFoundError];
    re-raises any other lookup error as it is; and, when the account
    exists, returns [Number(account.amount)], the double nearest to the
    raw amount in base units, which denotes that amount exactly whenever
    the amount is below 2^53. *)
Theorem getTokenBalance_outcomes
    (env : Env) (w : Wallet.t) (mintAddress : string) (mint ata : PublicKey)
    (Hmint : new_PublicKey env (VStr mintAddress) = Ok mint)
    (Hata : getAssociatedTokenAddress env mint (publicKey (Wallet.keypair w)) = Ok ata) :
  (forall account,
      getAccount env ata = Ok account ->
      run (Wallet.getTokenBalance env w mintAddress)
      = (Ok (Z2float (amount account)), [EvGetAccount ata]) /\
      (0 <= amount account < 2 ^ 53 ->
       integerValue (Z2float (amount account)) = Some (amount account))) /\
  (forall e,
      getAccount env ata = Throw e ->
      name e = TokenAccountNotFoundError ->
      run (Wallet.getTokenBalance env w mintAddress)
      = (Ok 0%float, [EvGetAccount ata])) /\
  (forall e,
      getAccount env ata = Throw e ->
      name e <> TokenAccountNotFoundError ->
      run (Wallet.getTokenBalance env w mintAddress)
      = (Throw e, [EvGetAccount ata])).
Proof.
  unfold run, Wallet.getTokenBalance.
  split; [|split].
  - intros account Hacc. split.
    + step. rewrite Hmint. step. rewrite Hata. step. rewrite Hacc. step.
      reflexivity.
    + intros Hrange. apply integerValue_Z2float. lia.
  - intros e Hacc Hname.
    step. rewrite Hmint. step. rewrite Hata. step. rewrite Hacc.
    rewrite Hname. reflexivity.
  - intros e Hacc Hname.
    step. rewrite Hmint. step. rewrite Hata. step. rewrite Hacc.
    destruct (String.eqb (name e) TokenAccountNotFoundError) eqn:Hn.
    + apply String.eqb_eq in Hn. contradiction.
    + reflexivity.
Qed.

Lemma getTokenBalance_outcomes_witness :
  let env := Demo.env Demo.found Demo.okResponse in
  new_PublicKey env (VStr "Mint") = Ok (mkPublicKey "Mint") /\
  run (Wallet.getTokenBalance env Demo.me "Mint")
  = (Ok 42%float, [EvGetAccount (mkPublicKey (Wallet.address Demo.me +:+ "/Mint"))]) /\
  integerValue 42%float = Some 42.
Proof.
  intros env. split; [reflexivity|].
  destruct (getTokenBalance_outcomes env Demo.me "Mint" (mkPublicKey "Mint")
              (mkPublicKey (Wallet.address Demo.me +:+ "/Mint")) eq_refl eq_refl)
    as (Hfound & _ & _).
  destruct (Hfound (mkTokenAccount 42) eq_refl) as [Hrun Hexact].
  split.
  - exact Hrun.
  - apply (Hexact ltac:(cbn; lia)).
Defined.

(* ===================================================================== *)
(** * 14. Native transfers and staking                                    *)
(* ===================================================================== *)

Section NativeAmounts.
Context (env : Env) (w : Wallet.t).

Lemma sendSol_run toAddress amountSol toPubkey n :
  new_PublicKey env (VStr toAddress) = Ok toPubkey ->
  ToNumber env amountSol = Ok n ->
  run (Transfer.sendSol env w toAddress amountSol) =
  match SystemProgram_transfer_lamports env (Math_floor (n * LAMPORTS_PER_SOL)%float) with
  | Throw e => (Throw e, [])
  | Ok encoded =>
      let tx :=
        [ SystemProgram_transfer (publicKey (Wallet.keypair w)) toPubkey encoded ] in
      match sendAndConfirmTransaction env tx [Wallet.keypair w] with
      | Ok signature =>
          (Ok (Transfer.mkSolResult signature (Wallet.address w) toAddress amountSol
                 "SOL" (explorerUrl signature)),
           [EvSendAndConfirm tx [Wallet.keypair w]])
      | Throw e => (Throw e, [EvSendAndConfirm tx [Wallet.keypair w]])
      end
  end.
Proof.
  intros Hto Hn.
  unfold run, Transfer.sendSol, Transfer.toLamports. step.
  rewrite Hto. step. rewrite Hn. step.
  destruct (SystemProgram_transfer_lamports env _) as [encoded|e]; [|reflexivity].
  step. cbn [app]. cbv zeta.
  destruct (sendAndConfirmTransaction env _ _); reflexivity.
Qed.

Lemma stake_run validator amountSol voteAccount n rentExemption :
  new_PublicKey env (Staking.resolveValidator validator) = Ok voteAccount ->
  ToNumber env amountSol = Ok n ->
  getMinimumBalanceForRentExemption env Staking.StakeProgram_space = Ok rentExemption ->
  let me := publicKey (Wallet.keypair w) in
  let stakePubkey := publicKey (Keypair_generate env) in
  let signers := [Wallet.keypair w; Keypair_generate env] in
  let rentQuery := EvGetMinimumBalanceForRentExemption Staking.StakeProgram_space in
  run (Staking.stake env w validator amountSol) =
  match StakeProgram_createAccount_lamports env
          (Math_floor (n * LAMPORTS_PER_SOL) + rentExemption)%float with
  | Throw e => (Throw e, [rentQuery])
  | Ok funded =>
      let tx :=
        [ StakeProgram_createAccount me stakePubkey me me me funded;
          StakeProgram_delegate stakePubkey me voteAccount ] in
      match sendAndConfirmTransaction env tx signers with
      | Ok signature =>
          (Ok (Staking.mkStakeResult signature
                 (toBase58 (publicKey (Keypair_generate env)))
                 (toBase58 voteAccount) amountSol (explorerUrl signature)),
           [rentQuery; EvSendAndConfirm tx signers])
      | Throw e => (Throw e, [rentQuery; EvSendAndConfirm tx signers])
      end
  end.
Proof.
  intros Hv Hn Hrent me stakePubkey signers rentQuery.
  subst me stakePubkey signers rentQuery.
  unfold run, Staking.stake. step.
  rewrite Hv. step. rewrite Hn. step. rewrite Hrent. step.
  destruct (StakeProgram_createAccount_lamports env _) as [funded|e]; [|reflexivity].
  step. cbn [app]. cbv zeta.
  destruct (sendAndConfirmTransaction env _ _); reflexivity.
Qed.


End NativeAmounts.

(** C2. Whenever [stake] gets as far as building (the validator resolves
    to a key, the amount to a number [n], and the rent query answers
    [rentExemption]), the amount it hands to the builder of the instruction
    that creates the stake account is
    [Math.floor(n * LAMPORTS_PER_SOL) + rentExemption], the sum being the
    addition of JavaScript numbers, and no other term enters.  When the
    builder encodes that amount, the call submits one transaction, which
    funds the new stake account with what the builder encoded, so with
    that very sum when it is encoded as it is, and holds the delegate
    instruction next; when the builder throws, on an amount it cannot
    encode, the call throws the same error and submits nothing.  The sum
    is exact: when the requested amount in base units and the rent
    exemption are integers whose sum is below 2^53 in magnitude, the
    amount handed over denotes their sum. *)
Theorem stake_funds_amount_plus_rent
    (env : Env) (w : Wallet.t) (validator : string) (amountSol : value)
    (voteAccount : PublicKey) (n rentExemption : float)
    (Hv : new_PublicKey env (Staking.resolveValidator validator) = Ok voteAccount)
    (Hn : ToNumber env amountSol = Ok n)
    (Hrent : getMinimumBalanceForRentExemption env Staking.StakeProgram_space
             = Ok rentExemption) :
  let me := publicKey (Wallet.keypair w) in
  let stakePubkey := publicKey (Keypair_generate env) in
  let lamports := Math_floor (n * LAMPORTS_PER_SOL)%float in
  let totalLamports := (lamports + rentExemption)%float in
  let rentQuery := EvGetMinimumBalanceForRentExemption Staking.StakeProgram_space in
  (forall funded,
      StakeProgram_createAccount_lamports env totalLamports = Ok funded ->
      snd (run (Staking.stake env w validator amountSol)) =
      [ rentQuery;
        EvSendAndConfirm
          [ StakeProgram_createAccount me stakePubkey me me me funded;
            StakeProgram_delegate stakePubkey me voteAccount ]
          [ Wallet.keypair w; Keypair_generate env ] ]) /\
  (forall e,
      StakeProgram_createAccount_lamports env totalLamports = Throw e ->
      run (Staking.stake env w validator amountSol) = (Throw e, [rentQuery])) /\
  (forall requested rent,
      floorZ (n * LAMPORTS_PER_SOL)%float = Some requested ->
      integerValue rentExemption = Some rent ->
      - 2 ^ 53 < requested + rent < 2 ^ 53 ->
      integerValue totalLamports = Some (requested + rent)).
Proof.
  intros me stakePubkey lamports totalLamports rentQuery.
  pose proof (stake_run env w validator amountSol voteAccount n rentExemption
                Hv Hn Hrent) as Hrun.
  cbv zeta in Hrun. split; [|split].
  - intros funded Hfunded. rewrite Hrun. subst totalLamports lamports.
    rewrite Hfunded.
    destruct (sendAndConfirmTransaction env _ _); reflexivity.
  - intros e He. rewrite Hrun. subst totalLamports lamports. rewrite He.
    reflexivity.
  - intros requested rent Hreq Hrentv Hrange. subst totalLamports lamports.
    apply integerValue_add; [|exact Hrentv|exact Hrange].
    rewrite integerValue_Math_floor. exact Hreq.
Qed.

Lemma stake_funds_amount_plus_rent_witness :
  let env := Demo.env Demo.found Demo.okResponse in
  let me := publicKey (Wallet.keypair Demo.me) in
  let stakePubkey := publicKey Demo.fresh in
  ToNumber env (VNum 1.5%float) = Ok 1.5%float /\
  getMinimumBalanceForRentExemption env 200 = Ok 2282880%float /\
  StakeProgram_createAccount_lamports env
    (Math_floor (1.5 * LAMPORTS_PER_SOL) + 2282880)%float = Ok 1502282880%float /\
  snd (run (Staking.stake env Demo.me "Jito" (VNum 1.5%float))) =
  [ EvGetMinimumBalanceForRentExemption 200;
    EvSendAndConfirm
      [ StakeProgram_createAccount me stakePubkey me me me 1502282880%float;
        StakeProgram_delegate stakePubkey me
          (mkPublicKey "J1to1yufRnoWn81KYg1XkTWzmKjnYSnmE2VY8DGUJ9Qv") ]
      [ Wallet.keypair Demo.me; Demo.fresh ] ] /\
  integerValue (Math_floor (1.5 * LAMPORTS_PER_SOL) + 2282880)%float
    = Some (1500000000 + 2282880) /\
  run (Staking.stake env Demo.me "Jito" (VNum 1e300%float))
  = (Throw Demo.rangeError, [EvGetMinimumBalanceForRentExemption 200]).
Proof.
  intros env me stakePubkey. split; [reflexivity|]. split; [reflexivity|].
  assert (Hfunded : StakeProgram_createAccount_lamports env
                      (Math_floor (1.5 * LAMPORTS_PER_SOL) + 2282880)%float
                    = Ok 1502282880%float) by (vm_compute; reflexivity).
  split; [exact Hfunded|].
  destruct (stake_funds_amount_plus_rent env Demo.me "Jito" (VNum 1.5%float)
              (mkPublicKey "J1to1yufRnoWn81KYg1XkTWzmKjnYSnmE2VY8DGUJ9Qv")
              1.5%float 2282880%float eq_refl eq_refl eq_refl)
    as (Htrace & _ & Hexact).
  split; [exact (Htrace _ Hfunded)|]. split.
  - apply (Hexact 1500000000 2282880); [reflexivity|reflexivity|].
    split; reflexivity.
  - destruct (stake_funds_amount_plus_rent env Demo.me "Jito" (VNum 1e300%float)
                (mkPublicKey "J1to1yufRnoWn81KYg1XkTWzmKjnYSnmE2VY8DGUJ9Qv")
                1e300%float 2282880%float eq_refl eq_refl eq_refl)
      as (_ & Hthrow & _).
    apply Hthrow. vm_compute. reflexivity.
Defined.



(** C6. In [sendSol] and in [stake] the lamport amount is
    [Math.floor(amount * LAMPORTS_PER_SOL)], a product and a floor of
    JavaScript numbers.  [sendSol] hands it to the builder of the transfer
    instruction: when the builder encodes it, the call submits one
    transfer carrying what was encoded, and when the builder throws, as
    it does on an amount that is no lamport count, the call throws with
    no remote call made.  [stake] hands it, plus the rent exemption, to
    the builder of the instruction creating the stake account, with the
    same two outcomes after the rent query.  [Math.floor] yields the
    double denoting the floor of its argument, never the nearest integer:
    in exact arithmetic [z <= x < z + 1] for the integer [z] it denotes.
    In particular [1.999999999 + 1e-10] SOL is 1999999999 lamports, and so
    is [1.9999999996] SOL, which rounding to nearest would turn into
    2000000000. *)
Theorem lamports_conversion_floors :
  (forall env w toAddress amountSol toPubkey n,
      new_PublicKey env (VStr toAddress) = Ok toPubkey ->
      ToNumber env amountSol = Ok n ->
      let lamports := Math_floor (n * LAMPORTS_PER_SOL)%float in
      (forall encoded,
          SystemProgram_transfer_lamports env lamports = Ok encoded ->
          snd (run (Transfer.sendSol env w toAddress amountSol)) =
          [ EvSendAndConfirm
              [ SystemProgram_transfer (publicKey (Wallet.keypair w)) toPubkey encoded ]
              [ Wallet.keypair w ] ]) /\
      (forall e,
          SystemProgram_transfer_lamports env lamports = Throw e ->
          run (Transfer.sendSol env w toAddress amountSol) = (Throw e, []))) /\
  (forall env w validator amountSol voteAccount n rentExemption,
      new_PublicKey env (Staking.resolveValidator validator) = Ok voteAccount ->
      ToNumber env amountSol = Ok n ->
      getMinimumBalanceForRentExemption env Staking.StakeProgram_space
        = Ok rentExemption ->
      let me := publicKey (Wallet.keypair w) in
      let stakePubkey := publicKey (Keypair_generate env) in
      let totalLamports := (Math_floor (n * LAMPORTS_PER_SOL) + rentExemption)%float in
      let rentQuery :=
        EvGetMinimumBalanceForRentExemption Staking.StakeProgram_space in
      (forall funded,
          StakeProgram_createAccount_lamports env totalLamports = Ok funded ->
          snd (run (Staking.stake env w validator amountSol)) =
          [ rentQuery;
            EvSendAndConfirm
              [ StakeProgram_createAccount me stakePubkey me me me funded;
                StakeProgram_delegate stakePubkey me voteAccount ]
              [ Wallet.keypair w; Keypair_generate env ] ]) /\
      (forall e,
          StakeProgram_createAccount_lamports env totalLamports = Throw e ->
          run (Staking.stake env w validator amountSol) = (Throw e, [rentQuery]))) /\
  (forall x, integerValue (Math_floor x) = floorZ x) /\
  (forall x s m e z,
      Prim2SF x = S754_finite s m e -> floorZ x = Some z ->
      let sm := if s then Zneg m else Zpos m in
      if 0 <=? e then z = sm * 2 ^ e
      else z * 2 ^ (- e) <= sm < (z + 1) * 2 ^ (- e)) /\
  Math_floor ((1.999999999 + 1e-10) * LAMPORTS_PER_SOL)%float = 1999999999%float /\
  integerValue (Math_floor ((1.999999999 + 1e-10) * LAMPORTS_PER_SOL)%float)
    = Some 1999999999 /\
  integerValue (Math_floor (1.9999999996 * LAMPORTS_PER_SOL)%float)
    = Some 1999999999.
Proof.
  split; [|split; [|split; [|split; [|split; [|split]]]]].
  - intros env w toAddress amountSol toPubkey n Hto Hn lamports. subst lamports.
    pose proof (sendSol_run env w toAddress amountSol toPubkey n Hto Hn) as Hrun.
    split.
    + intros encoded Hencoded. rewrite Hrun, Hencoded. cbv zeta.
      destruct (sendAndConfirmTransaction env _ _); reflexivity.
    + intros e He. rewrite Hrun, He. reflexivity.
  - intros env w validator amountSol voteAccount n rentExemption Hv Hn Hrent
           me stakePubkey totalLamports rentQuery.
    subst me stakePubkey totalLamports rentQuery.
    pose proof (stake_run env w validator amountSol voteAccount n rentExemption
                  Hv Hn Hrent) as Hrun.
    cbv zeta in Hrun. split.
    + intros funded Hfunded. rewrite Hrun, Hfunded.
      destruct (sendAndConfirmTransaction env _ _); reflexivity.
    + intros e He. rewrite Hrun, He. reflexivity.
  - exact integerValue_Math_floor.
  - exact floorZ_spec.
  - vm_compute. reflexivity.
  - vm_compute. reflexivity.
  - vm_compute. reflexivity.
Qed.

Lemma lamports_conversion_floors_witness :
  let env := Demo.env Demo.found Demo.okResponse in
  let me := publicKey (Wallet.keypair Demo.me) in
  (ToNumber env (VNum (1.999999999 + 1e-10)%float) = Ok (1.999999999 + 1e-10)%float /\
   SystemProgram_transfer_lamports env 1999999999%float = Ok 1999999999%float /\
   snd (run (Transfer.sendSol env Demo.me "Dest" (VNum (1.999999999 + 1e-10)%float))) =
   [ EvSendAndConfirm
       [ SystemProgram_transfer me (mkPublicKey "Dest") 1999999999%float ]
       [ Wallet.keypair Demo.me ] ]) /\
  (SystemProgram_transfer_lamports env (Math_floor (-1 * LAMPORTS_PER_SOL)%float)
   = Throw Demo.rangeError /\
   run (Transfer.sendSol env Demo.me "Dest" (VNum (-1)%float))
   = (Throw Demo.rangeError, [])) /\
  (StakeProgram_createAccount_lamports env
     (Math_floor (1.9999999996 * LAMPORTS_PER_SOL) + 2282880)%float
   = Ok 2002282879%float /\
   snd (run (Staking.stake env Demo.me "jito" (VNum 1.9999999996%float))) =
   [ EvGetMinimumBalanceForRentExemption 200;
     EvSendAndConfirm
       [ StakeProgram_createAccount me (publicKey Demo.fresh) me me me
           2002282879%float;
         StakeProgram_delegate (publicKey Demo.fresh) me
           (mkPublicKey "J1to1yufRnoWn81KYg1XkTWzmKjnYSnmE2VY8DGUJ9Qv") ]
       [ Wallet.keypair Demo.me; Demo.fresh ] ]).
Proof.
  intros env me.
  destruct lamports_conversion_floors as (Hsol & Hstake & _ & _ & Hex & _).
  split; [|split].
  - split; [reflexivity|].
    assert (Hencoded : SystemProgram_transfer_lamports env 1999999999%float
                       = Ok 1999999999%float) by (vm_compute; reflexivity).
    split; [exact Hencoded|].
    destruct (Hsol env Demo.me "Dest" (VNum (1.999999999 + 1e-10)%float)
                (mkPublicKey "Dest") (1.999999999 + 1e-10)%float eq_refl eq_refl)
      as [Hsubmit _].
    apply Hsubmit. rewrite Hex. exact Hencoded.
  - assert (Hthrow : SystemProgram_transfer_lamports env
                       (Math_floor (-1 * LAMPORTS_PER_SOL)%float)
                     = Throw Demo.rangeError) by (vm_compute; reflexivity).
    split; [exact Hthrow|].
    destruct (Hsol env Demo.me "Dest" (VNum (-1)%float)
                (mkPublicKey "Dest") (-1)%float eq_refl eq_refl) as [_ Hnone].
    exact (Hnone _ Hthrow).
  - assert (Hfunded : StakeProgram_createAccount_lamports env
                        (Math_floor (1.9999999996 * LAMPORTS_PER_SOL) + 2282880)%float
                      = Ok 2002282879%float) by (vm_compute; reflexivity).
    split; [exact Hfunded|].
    destruct (Hstake env Demo.me "jito" (VNum 1.9999999996%float)
                (mkPublicKey "J1to1yufRnoWn81KYg1XkTWzmKjnYSnmE2VY8DGUJ9Qv")
                1.9999999996%float 2282880%float eq_refl eq_refl eq_refl)
      as [Hsubmit _].
    exact (Hsubmit _ Hfunded).
Defined.

(* ===================================================================== *)
(** * 15. Alias resolution                                                *)
(* ===================================================================== *)

Section Lookup.

Lemma assoc_Some_elem k l v : assoc k l = Some v -> (k, v) ∈ l.
Proof.
  induction l as [|[k' v'] l IH]; cbn [assoc]; [discriminate|].
  destruct (String.eqb k k') eqn:Hk.
  - intros [= ->]. apply String.eqb_eq in Hk as ->. apply elem_of_cons. auto.
  - intros H. apply elem_of_cons. right. auto.
Qed.

Lemma assoc_cons_ne k k' v l :
  k <> k' -> assoc k ((k', v) :: l) = assoc k l.
Proof.
  intros Hne. cbn [assoc]. apply String.eqb_neq in Hne. rewrite Hne. reflexivity.
Qed.

(** A key that a case mapping reaches is a fixed point of that mapping. *)
Lemma assoc_folded_None (f : string -> string) k l :
  (forall s, f (f s) = f s) ->
  Forall (fun kv => f kv.1 <> kv.1) l ->
  assoc (f k) l = None.
Proof.
  intros Hidem. induction 1 as [|[k' v'] l Hne _ IH]; cbn [assoc]; [reflexivity|].
  destruct (String.eqb (f k) k') eqn:Hk; [|exact IH].
  apply String.eqb_eq in Hk. cbn in Hne. subst k'.
  rewrite Hidem in Hne. contradiction.
Qed.

Lemma ascii_toUpperCase_idem c :
  ascii_toUpperCase (ascii_toUpperCase c) = ascii_toUpperCase c.
Proof. destruct c as [[] [] [] [] [] [] [] []]; reflexivity. Qed.

Lemma ascii_toLowerCase_idem c :
  ascii_toLowerCase (ascii_toLowerCase c) = ascii_toLowerCase c.
Proof. destruct c as [[] [] [] [] [] [] [] []]; reflexivity. Qed.

Lemma toUpperCase_idem s : toUpperCase (toUpperCase s) = toUpperCase s.
Proof.
  induction s as [|c s IH]; cbn [toUpperCase]; [reflexivity|].
  rewrite ascii_toUpperCase_idem, IH. reflexivity.
Qed.

Lemma toLowerCase_idem s : toLowerCase (toLowerCase s) = toLowerCase s.
Proof.
  induction s as [|c s IH]; cbn [toLowerCase]; [reflexivity|].
  rewrite ascii_toLowerCase_idem, IH. reflexivity.
Qed.

(** No inherited property name is written in upper case, so an
    upper-cased key never reaches [Object.prototype]. *)
Lemma upper_key_not_inherited s : assoc (toUpperCase s) Object_prototype = None.
Proof.
  apply assoc_folded_None; [exact toUpperCase_idem|].
  unfold Object_prototype. repeat constructor; cbn; discriminate.
Qed.

Lemma getProp_upper own s :
  getProp own (toUpperCase s) =
  match assoc (toUpperCase s) own with
  | Some v => v
  | None => VUndefined
  end.
Proof. unfold getProp. rewrite upper_key_not_inherited. reflexivity. Qed.

End Lookup.

Section ResolveMint.

(** [resolveMint] either finds the upper-cased symbol among the own
    properties of [TOKENS] and returns the mapped address, or returns
    its argument. *)
Lemma resolveMint_cases x :
  (exists a, (toUpperCase x, VStr a) ∈ Swapper.TOKENS /\
             Swapper.resolveMint x = VStr a) \/
  (assoc (toUpperCase x) Swapper.TOKENS = None /\
   Swapper.resolveMint x = VStr x).
Proof.
  unfold Swapper.resolveMint. rewrite getProp_upper.
  destruct (assoc (toUpperCase x) Swapper.TOKENS) as [v|] eqn:Hx.
  - left. apply assoc_Some_elem in Hx.
    assert (Hv : exists a, v = VStr a /\ truthy v = true).
    { unfold Swapper.TOKENS in Hx.
      repeat (apply elem_of_cons in Hx as [Hx|Hx];
              [injection Hx as _ ->; eexists; split; reflexivity|]).
      apply elem_of_nil in Hx. contradiction. }
    destruct Hv as (a & -> & Ht). exists a. rewrite Ht. auto.
  - right. auto.
Qed.

Lemma resolveMint_string x : exists a, Swapper.resolveMint x = VStr a.
Proof.
  destruct (resolveMint_cases x) as [(a & _ & H)|[_ H]]; eauto.
Qed.

(** Resolving a resolved mint changes nothing. *)
Lemma resolveMint_idempotent x a :
  Swapper.resolveMint x = VStr a -> Swapper.resolveMint a = VStr a.
Proof.
  destruct (resolveMint_cases x) as [(b & Hin & Hb)|[Hnone Hx]].
  - rewrite Hb. intros [= <-]. unfold Swapper.TOKENS in Hin.
    repeat (apply elem_of_cons in Hin as [Hin|Hin];
            [injection Hin as _ ->; vm_compute; reflexivity|]).
    apply elem_of_nil in Hin. contradiction.
  - rewrite Hx. intros [= <-]. exact Hx.
Qed.

End ResolveMint.

Section ResolveValidator.

(** Away from the two inherited names written in lower case,
    [resolveValidator] finds the lower-cased name among the own
    properties of [VALIDATORS] or returns its argument. *)
Lemma resolveValidator_cases x :
  toLowerCase x <> "constructor" -> toLowerCase x <> "__proto__" ->
  (exists a, (toLowerCase x, VStr a) ∈ Staking.VALIDATORS /\
             Staking.resolveValidator x = VStr a) \/
  (assoc (toLowerCase x) Staking.VALIDATORS = None /\
   Staking.resolveValidator x = VStr x).
Proof.
  intros Hc Hp. unfold Staking.resolveValidator, getProp.
  destruct (assoc (toLowerCase x) Staking.VALIDATORS) as [v|] eqn:Hx.
  - left. apply assoc_Some_elem in Hx.
    assert (Hv : exists a, v = VStr a /\ truthy v = true).
    { unfold Staking.VALIDATORS in Hx.
      repeat (apply elem_of_cons in Hx as [Hx|Hx];
              [injection Hx as _ ->; eexists; split; reflexivity|]).
      apply elem_of_nil in Hx. contradiction. }
    destruct Hv as (a & -> & Ht). exists a. rewrite Ht. auto.
  - right. split; [reflexivity|].
    assert (Hproto : assoc (toLowerCase x) Object_prototype = None).
    { unfold Object_prototype.
      rewrite (assoc_cons_ne _ _ _ _ Hc), (assoc_cons_ne _ _ _ _ Hp).
      apply (assoc_folded_None toLowerCase x); [exact toLowerCase_idem|].
      repeat constructor; cbn; discriminate. }
    rewrite Hproto. reflexivity.
Qed.

(** Whenever [resolveValidator] returns a string, resolving that string
    again returns it. *)
Lemma resolveValidator_idempotent x a :
  Staking.resolveValidator x = VStr a -> Staking.resolveValidator a = VStr a.
Proof.
  intros Hx.
  destruct (String.eqb (toLowerCase x) "constructor") eqn:Hc.
  { apply String.eqb_eq in Hc. unfold Staking.resolveValidator in Hx.
    rewrite Hc in Hx. discriminate. }
  destruct (String.eqb (toLowerCase x) "__proto__") eqn:Hp.
  { apply String.eqb_eq in Hp. unfold Staking.resolveValidator in Hx.
    rewrite Hp in Hx. discriminate. }
  apply String.eqb_neq in Hc, Hp.
  destruct (resolveValidator_cases x Hc Hp) as [(b & Hin & Hb)|[Hnone Hx']].
  - rewrite Hb in Hx. injection Hx as <-. unfold Staking.VALIDATORS in Hin.
    repeat (apply elem_of_cons in Hin as [Hin|Hin];
            [injection Hin as _ ->; vm_compute; reflexivity|]).
    apply elem_of_nil in Hin. contradiction.
  - rewrite Hx' in Hx. injection Hx as <-. exact Hx'.
Qed.

End ResolveValidator.

(** C3. The validator-name resolver does not return every non-table string
    unchanged: ["constructor"] is no own property of [VALIDATORS], yet
    [VALIDATORS["constructor"]] is the inherited, truthy [Object]
    constructor, and [resolveValidator("constructor")] returns that
    function instead of the string. *)
Theorem resolveValidator_inherited_name :
  assoc (toLowerCase "constructor") Staking.VALIDATORS = None /\
  Staking.resolveValidator "constructor" = VBuiltin "Object" /\
  Staking.resolveValidator "constructor" <> VStr "constructor" /\
  Staking.resolveValidator "Constructor" = VBuiltin "Object" /\
  Staking.resolveValidator "__proto__" = VBuiltin "Object.prototype".
Proof.
  split; [reflexivity|]. split; [reflexivity|]. split; [discriminate|].
  split; reflexivity.
Qed.

(* ===================================================================== *)
(** * 16. Quotes and prices                                               *)
(* ===================================================================== *)

Section QuoteFacts.
Context (env : Env).

(** The run of [getQuote] on two strings, once the parameters print. *)
Lemma getQuote_run i o amt slip a b amountStr slippageStr :
  Swapper.resolveMint i = VStr a ->
  Swapper.resolveMint o = VStr b ->
  toString env amt = Ok amountStr ->
  toString env (Swapper.withDefault slip Swapper.defaultSlippageBps) = Ok slippageStr ->
  let req :=
    Swapper.quoteRequest
      (Swapper.URLSearchParams
         [ ("inputMint", a); ("outputMint", b);
           ("amount", amountStr); ("slippageBps", slippageStr) ]) in
  run (Swapper.getQuote env (VStr i) (VStr o) amt slip) =
  (match fetch env req with
   | Throw e => Throw e
   | Ok response =>
       if ok response then
         quote ← json response;
         inA ← readProp quote "inAmount";
         outA ← readProp quote "outAmount";
         impact ← readProp quote "priceImpactPct";
         route ← readProp quote "routePlan";
         mret (Swapper.mkQuote (VStr a) (VStr b) inA outA impact route quote)
       else
         match text response with
         | Ok body => Throw (Error ("Quote failed: " +:+ body))
         | Throw e => Throw e
         end
   end,
   [EvFetch req]).
Proof.
  intros Ha Hb Hamt Hslip req. subst req.
  unfold run, Swapper.getQuote. cbv zeta. cbn [Swapper.resolveMint_any].
  step. rewrite Ha, Hb. step. rewrite Hamt. step. rewrite Hslip. step.
  cbn [Swapper.String_ toString]. step. cbn [app].
  destruct (fetch env _) as [response|e]; [|reflexivity].
  destruct (ok response); cbn [negb].
  - step. destruct (json response) as [quote|e]; rstep; [|reflexivity].
    step. destruct (readProp quote "inAmount"); rstep; [|reflexivity].
    step. destruct (readProp quote "outAmount"); rstep; [|reflexivity].
    step. destruct (readProp quote "priceImpactPct"); rstep; [|reflexivity].
    step. destruct (readProp quote "routePlan"); reflexivity.
  - step. destruct (text response); reflexivity.
Qed.

(** A successful [getQuote] was given two strings and carries their
    resolutions. *)
Lemma getQuote_Ok_inv inM outM amt slip q t :
  run (Swapper.getQuote env inM outM amt slip) = (Ok q, t) ->
  exists i o, inM = VStr i /\ outM = VStr o /\
    Swapper.inputMint q = Swapper.resolveMint i /\
    Swapper.outputMint q = Swapper.resolveMint o.
Proof.
  unfold run, Swapper.getQuote. cbv zeta. step.
  destruct inM as [| | | | |i| | |]; cbn [Swapper.resolveMint_any]; try discriminate.
  step.
  destruct outM as [| | | | |o| | |]; cbn [Swapper.resolveMint_any]; try discriminate.
  step. destruct (toString env amt); [|discriminate].
  step. destruct (toString env _); [|discriminate].
  step. destruct (Swapper.String_ env (Swapper.resolveMint i)); [|discriminate].
  step. destruct (Swapper.String_ env (Swapper.resolveMint o)); [|discriminate].
  step. destruct (fetch env _) as [response|e]; [|discriminate].
  destruct (negb (ok response)).
  - step. destruct (text response); discriminate.
  - step. destruct (json response) as [quote|e]; [|discriminate].
    step. destruct (readProp quote "inAmount"); [|discriminate].
    step. destruct (readProp quote "outAmount"); [|discriminate].
    step. destruct (readProp quote "priceImpactPct"); [|discriminate].
    step. destruct (readProp quote "routePlan"); [|discriminate].
    intros [= <- _]. exists i, o. auto.
Qed.

End QuoteFacts.

(** C8. Every successful [getQuote] returns a record whose [inputMint] and
    [outputMint] are the resolutions of its two arguments; these are
    canonical addresses, in that resolving them again returns them, so a
    symbol and the address it stands for give the same fields: ["SOL"] and
    ["USDC"] in any letter case resolve to the very addresses that resolve
    to themselves. *)
Theorem getQuote_mints_are_resolved
    (env : Env) (inM outM : string) (amt slip : value)
    (q : Swapper.QuoteRecord) (t : list Event)
    (Hrun : run (Swapper.getQuote env (VStr inM) (VStr outM) amt slip) = (Ok q, t)) :
  Swapper.inputMint q = Swapper.resolveMint inM /\
  Swapper.outputMint q = Swapper.resolveMint outM /\
  (exists a b,
      Swapper.inputMint q = VStr a /\ Swapper.outputMint q = VStr b /\
      Swapper.resolveMint a = VStr a /\ Swapper.resolveMint b = VStr b) /\
  Swapper.resolveMint "SOL" = VStr Swapper.SOL /\
  Swapper.resolveMint "sol" = VStr Swapper.SOL /\
  Swapper.resolveMint Swapper.SOL = VStr Swapper.SOL /\
  Swapper.resolveMint "USDC" = VStr Swapper.USDC /\
  Swapper.resolveMint "usdc" = VStr Swapper.USDC /\
  Swapper.resolveMint Swapper.USDC = VStr Swapper.USDC.
Proof.
  apply getQuote_Ok_inv in Hrun as (i & o & [= <-] & [= <-] & Hi & Ho).
  split; [exact Hi|]. split; [exact Ho|]. split.
  - destruct (resolveMint_string inM) as [a Ha].
    destruct (resolveMint_string outM) as [b Hb].
    exists a, b. rewrite Hi, Ho.
    repeat split; eauto using resolveMint_idempotent.
  - repeat split; vm_compute; reflexivity.
Qed.

Lemma getQuote_mints_are_resolved_witness :
  let env := Demo.env Demo.found Demo.okResponse in
  exists q t,
    run (Swapper.getQuote env (VStr "sol") (VStr "USDC")
           (VNum 1000000000%float) VUndefined) = (Ok q, t) /\
    Swapper.inputMint q = VStr Swapper.SOL /\
    Swapper.outputMint q = VStr Swapper.USDC.
Proof.
  intros env.
  destruct (run (Swapper.getQuote env (VStr "sol") (VStr "USDC")
                   (VNum 1000000000%float) VUndefined)) as [[q|e] t] eqn:Hrun.
  - exists q, t. split; [reflexivity|].
    destruct (getQuote_mints_are_resolved env "sol" "USDC" (VNum 1000000000%float)
                VUndefined q t Hrun) as (Hi & Ho & _).
    split; [exact Hi|exact Ho].
  - vm_compute in Hrun. discriminate.
Defined.


Section PriceFacts.
Context (env : Env).

Lemma Number_toString_pow10_9 : Number_toString env (Math_pow10 9) = "1000000000".
Proof. vm_compute. reflexivity. Qed.

Lemma Number_toString_pow10_6 : Number_toString env (Math_pow10 6) = "1000000".
Proof. vm_compute. reflexivity. Qed.

Lemma toString_default_slippage :
  toString env (Swapper.withDefault VUndefined Swapper.defaultSlippageBps) = Ok "50".
Proof. vm_compute. reflexivity. Qed.

(** The run of [getPrice]: one quote request, then the rescaling. *)
Lemma getPrice_run tokenMint mint :
  Swapper.resolveMint tokenMint = VStr mint ->
  let amountStr := if String.eqb mint Swapper.SOL then "1000000000" else "1000000" in
  let req :=
    Swapper.quoteRequest
      (Swapper.URLSearchParams
         [ ("inputMint", mint); ("outputMint", Swapper.USDC);
           ("amount", amountStr); ("slippageBps", "50") ]) in
  let quoted : Result Swapper.QuoteRecord :=
    match fetch env req with
    | Throw e => Throw e
    | Ok response =>
        if ok response then
          quote ← json response;
          inA ← readProp quote "inAmount";
          outA ← readProp quote "outAmount";
          impact ← readProp quote "priceImpactPct";
          route ← readProp quote "routePlan";
          mret (Swapper.mkQuote (VStr mint) (VStr Swapper.USDC)
                  inA outA impact route quote)
        else
          match text response with
          | Ok body => Throw (Error ("Quote failed: " +:+ body))
          | Throw e => Throw e
          end
    end in
  run (Swapper.getPrice env tokenMint) =
  (match (q ← quoted; n ← Number env (Swapper.outAmount q); mret (n / 1e6)%float) with
   | Ok price => Ok price
   | Throw e =>
       Throw (Error ("Could not get price for " +:+ tokenMint +:+ ": " +:+ message e))
   end,
   [EvFetch req]).
Proof.
  intros Hmint amountStr req quoted.
  assert (Hquote :
    run (Swapper.getQuote env (VStr mint) (VStr "USDC") (VStr amountStr) VUndefined)
    = (quoted, [EvFetch req])).
  { apply (getQuote_run env mint "USDC" (VStr amountStr) VUndefined
             mint Swapper.USDC amountStr "50").
    - exact (resolveMint_idempotent _ _ Hmint).
    - vm_compute. reflexivity.
    - reflexivity.
    - exact toString_default_slippage. }
  unfold run in *. unfold Swapper.getPrice, Swapper.getPrice_any.
  cbn [Swapper.resolveMint_any Swapper.String_ toString]. step. cbv zeta.
  rewrite Hmint. cbn [strict_eq_str].
  rewrite bind_run.
  assert (Hamt : Number_toString env
                   (Math_pow10 (if String.eqb mint Swapper.SOL then 9%nat else 6%nat))
                 = amountStr).
  { subst amountStr. destruct (String.eqb mint Swapper.SOL).
    - exact Number_toString_pow10_9.
    - exact Number_toString_pow10_6. }
  rewrite Hamt, Hquote.
  destruct quoted as [q|e]; rstep; [|step; reflexivity].
  step. destruct (Number env (Swapper.outAmount q)); rstep; [|step]; reflexivity.
Qed.

End PriceFacts.



(* ===================================================================== *)
(** * 17. Upstream HTTP failures                                          *)
(* ===================================================================== *)

Section Includes.

Lemma append_assoc (a b c : string) : (a +:+ b) +:+ c = a +:+ (b +:+ c).
Proof.
  induction a as [|x a IH]; [reflexivity|].
  change ((String x a +:+ b) +:+ c) with (String x ((a +:+ b) +:+ c)).
  rewrite IH. reflexivity.
Qed.

Lemma append_nil_r (a : string) : a +:+ EmptyString = a.
Proof.
  induction a as [|x a IH]; [reflexivity|].
  change (String x a +:+ EmptyString) with (String x (a +:+ EmptyString)).
  rewrite IH. reflexivity.
Qed.

Lemma prefixb_app n post : prefixb n (n +:+ post) = true.
Proof.
  induction n as [|c n IH]; [destruct post; reflexivity|].
  change (String c n +:+ post) with (String c (n +:+ post)).
  cbn [prefixb]. rewrite Ascii.eqb_refl. exact IH.
Qed.

Lemma includes_app pre n post : includes n (pre +:+ n +:+ post) = true.
Proof.
  induction pre as [|c pre IH].
  - change (EmptyString +:+ n +:+ post) with (n +:+ post).
    destruct (n +:+ post) eqn:E; cbn [includes]; rewrite <- E, prefixb_app;
      reflexivity.
  - change (String c pre +:+ n +:+ post) with (String c (pre +:+ n +:+ post)).
    cbn [includes]. rewrite IH. apply orb_true_r.
Qed.

Lemma ok_iff_2xx r : ok r = true <-> 200 <= status r <= 299.
Proof. unfold ok. rewrite andb_true_iff, !Z.leb_le. reflexivity. Qed.

End Includes.

Section HttpFacts.
Context (env : Env).

(** The run of [swap] up to the answer of the swap-build service. *)
Lemma swap_run_build w inM outM amt slip q t swapResponse :
  run (Swapper.getQuote env inM outM amt
         (Swapper.withDefault slip Swapper.defaultSlippageBps)) = (Ok q, t) ->
  fetch env (Swapper.swapRequest env w q) = Ok swapResponse ->
  ok swapResponse = false ->
  run (Swapper.swap env w inM outM amt slip) =
  (match text swapResponse with
   | Ok body => Throw (Error ("Swap transaction failed: " +:+ body))
   | Throw e => Throw e
   end,
   (t ++ [EvFetch (Swapper.swapRequest env w q)])%list).
Proof.
  unfold run, Swapper.swap. cbv zeta. intros Hq Hf Hok.
  rewrite bind_run, Hq. step. rewrite Hf, Hok. cbn [negb]. step.
  destruct (text swapResponse); reflexivity.
Qed.

(** The run of [swap] after a successful answer of the swap-build
    service: decoding, signing, submission and confirmation. *)
Lemma swap_run_ok w inM outM amt slip q t swapResponse :
  run (Swapper.getQuote env inM outM amt
         (Swapper.withDefault slip Swapper.defaultSlippageBps)) = (Ok q, t) ->
  fetch env (Swapper.swapRequest env w q) = Ok swapResponse ->
  ok swapResponse = true ->
  run (Swapper.swap env w inM outM amt slip) =
  (payload ← lift (json swapResponse);
   swapTransaction ← lift (Swapper.destructure_swapTransaction payload);
   transaction ← lift (deserializeAndSign env swapTransaction (Wallet.keypair w));
   signature ← await (EvSendTransaction transaction 3 false)
                     (sendTransaction env transaction);
   err ← await (EvConfirmTransaction signature "confirmed")
               (confirmTransaction env signature);
   if truthy err then
     throw (Error ("Transaction failed: " +:+ JSON_stringify env err))
   else
     mret (Swapper.mkSwapResult signature (Swapper.inputMint q)
             (Swapper.outputMint q) (Swapper.inAmount q) (Swapper.outAmount q)
             (explorerUrl signature)))
    (t ++ [EvFetch (Swapper.swapRequest env w q)])%list.
Proof.
  unfold run, Swapper.swap. cbv zeta. intros Hq Hf Hok.
  rewrite bind_run, Hq. rewrite await_bind, Hf, Hok. reflexivity.
Qed.

(** The run of the portfolio client's [request]. *)
Lemma request_run c method path body :
  let req := AgentDEXClient.requestInit env c method path body in
  run (AgentDEXClient.request env c method path body) =
  (match fetch env req with
   | Throw e => Throw e
   | Ok res =>
       if ok res then json res
       else Throw (Error ("AgentDEX API " +:+ method +:+ " " +:+ path +:+ " failed ("
                          +:+ pretty (status res) +:+ "): "
                          +:+ AgentDEXClient.textOrEmpty res))
   end,
   [EvFetch req]).
Proof.
  intros req. subst req. unfold run, AgentDEXClient.request. step. cbn [app].
  destruct (fetch env _) as [res|e]; [|reflexivity].
  destruct (ok res); cbn [negb]; reflexivity.
Qed.

End HttpFacts.

(** C9, as stated, fails for the quote service: on a 500 response with body
    ["oops"] the error raised is ["Quote failed: oops"], which does not
    carry the status code, and a 404 response with the same body raises
    the very same error. *)
Lemma quote_failure_omits_status :
  let call env :=
    fst (run (Swapper.getQuote env (VStr "SOL") (VStr "USDC")
                (VStr "1000000000") VUndefined)) in
  call (Demo.env Demo.found (Demo.failResponse 500 "oops"))
    = Throw (Error "Quote failed: oops") /\
  includes (pretty 500) "Quote failed: oops" = false /\
  call (Demo.env Demo.found (Demo.failResponse 404 "oops"))
    = call (Demo.env Demo.found (Demo.failResponse 500 "oops")).
Proof.
  intros call. split; [|split]; vm_compute; reflexivity.
Qed.

(** C9 (amended). For a call that reaches the service and gets a response:
    - the quote call and the swap-build call raise their own error exactly
      when the status is outside 200-299, and that error carries a fixed
      prefix and the response body text only (["Quote failed: <body>"],
      ["Swap transaction failed: <body>"]); when the body cannot be read,
      the read error is raised instead;
    - the portfolio client raises its own error exactly when the status is
      outside 200-299, and that error carries the method, the path, the
      status code and the body text (the empty text when the body cannot
      be read);
    - on a status within 200-299 none of them raises an error of its own:
      the outcome is that of decoding the JSON body and, for the
      swap-build call, of signing and submitting the decoded transaction. *)
Theorem http_failure_wrapping
    (env : Env) (w : Wallet.t) (c : AgentDEXClient.Client) :
  (forall i o amt slip a b amountStr slippageStr response,
      Swapper.resolveMint i = VStr a ->
      Swapper.resolveMint o = VStr b ->
      toString env amt = Ok amountStr ->
      toString env (Swapper.withDefault slip Swapper.defaultSlippageBps)
        = Ok slippageStr ->
      fetch env (Swapper.quoteRequest
                   (Swapper.URLSearchParams
                      [ ("inputMint", a); ("outputMint", b);
                        ("amount", amountStr); ("slippageBps", slippageStr) ]))
        = Ok response ->
      let result := fst (run (Swapper.getQuote env (VStr i) (VStr o) amt slip)) in
      (ok response = false -> forall body, text response = Ok body ->
         result = Throw (Error ("Quote failed: " +:+ body))) /\
      (ok response = false -> forall e, text response = Throw e -> result = Throw e) /\
      (ok response = true ->
         result =
           (quote ← json response;
            inA ← readProp quote "inAmount";
            outA ← readProp quote "outAmount";
            impact ← readProp quote "priceImpactPct";
            route ← readProp quote "routePlan";
            mret (Swapper.mkQuote (VStr a) (VStr b) inA outA impact route quote)))) /\
  (forall inM outM amt slip q t swapResponse,
      run (Swapper.getQuote env inM outM amt
             (Swapper.withDefault slip Swapper.defaultSlippageBps)) = (Ok q, t) ->
      fetch env (Swapper.swapRequest env w q) = Ok swapResponse ->
      let result := fst (run (Swapper.swap env w inM outM amt slip)) in
      (ok swapResponse = false -> forall body, text swapResponse = Ok body ->
         result = Throw (Error ("Swap transaction failed: " +:+ body))) /\
      (ok swapResponse = false -> forall e, text swapResponse = Throw e ->
         result = Throw e) /\
      (ok swapResponse = true ->
         result =
           fst ((payload ← lift (json swapResponse);
                 swapTransaction ← lift (Swapper.destructure_swapTransaction payload);
                 transaction ← lift (deserializeAndSign env swapTransaction
                                       (Wallet.keypair w));
                 signature ← await (EvSendTransaction transaction 3 false)
                                   (sendTransaction env transaction);
                 err ← await (EvConfirmTransaction signature "confirmed")
                             (confirmTransaction env signature);
                 if truthy err then
                   throw (Error ("Transaction failed: " +:+ JSON_stringify env err))
                 else
                   mret (Swapper.mkSwapResult signature (Swapper.inputMint q)
                           (Swapper.outputMint q) (Swapper.inAmount q)
                           (Swapper.outAmount q) (explorerUrl signature)))
                  (t ++ [EvFetch (Swapper.swapRequest env w q)])%list))) /\
  (forall method path body res,
      fetch env (AgentDEXClient.requestInit env c method path body) = Ok res ->
      let result := fst (run (AgentDEXClient.request env c method path body)) in
      (ok res = false ->
         exists e, result = Throw e /\
           e = Error ("AgentDEX API " +:+ method +:+ " " +:+ path +:+ " failed ("
                      +:+ pretty (status res) +:+ "): "
                      +:+ AgentDEXClient.textOrEmpty res) /\
           includes (pretty (status res)) (message e) = true /\
           includes (AgentDEXClient.textOrEmpty res) (message e) = true) /\
      (ok res = true -> result = json res)) /\
  (forall r, ok r = true <-> 200 <= status r <= 299).
Proof.
  split; [|split; [|split]].
  - intros i o amt slip a b amountStr slippageStr response Ha Hb Hamt Hslip Hf result.
    subst result.
    rewrite (getQuote_run env i o amt slip a b amountStr slippageStr Ha Hb Hamt Hslip).
    cbv zeta. cbn [fst]. rewrite Hf.
    split; [|split].
    + intros -> body ->. reflexivity.
    + intros -> e ->. reflexivity.
    + intros ->. reflexivity.
  - intros inM outM amt slip q t swapResponse Hq Hf result. subst result.
    split; [|split].
    + intros Hok body Hbody.
      rewrite (swap_run_build env w inM outM amt slip q t swapResponse Hq Hf Hok).
      cbn [fst]. rewrite Hbody. reflexivity.
    + intros Hok e He.
      rewrite (swap_run_build env w inM outM amt slip q t swapResponse Hq Hf Hok).
      cbn [fst]. rewrite He. reflexivity.
    + intros Hok.
      rewrite (swap_run_ok env w inM outM amt slip q t swapResponse Hq Hf Hok).
      reflexivity.
  - intros method path body res Hf result. subst result.
    rewrite request_run. cbv zeta. cbn [fst]. rewrite Hf. split.
    + intros ->. eexists. split; [reflexivity|]. split; [reflexivity|].
      cbn [message Error]. split.
      * set (pre := "AgentDEX API " +:+ method +:+ " " +:+ path +:+ " failed (").
        replace ("AgentDEX API " +:+ method +:+ " " +:+ path +:+ " failed ("
                 +:+ pretty (status res) +:+ "): " +:+ AgentDEXClient.textOrEmpty res)
          with (pre +:+ pretty (status res) +:+ "): " +:+ AgentDEXClient.textOrEmpty res)
          by (subst pre; rewrite !append_assoc; reflexivity).
        apply includes_app.
      * set (pre := "AgentDEX API " +:+ method +:+ " " +:+ path +:+ " failed ("
                    +:+ pretty (status res) +:+ "): ").
        replace ("AgentDEX API " +:+ method +:+ " " +:+ path +:+ " failed ("
                 +:+ pretty (status res) +:+ "): " +:+ AgentDEXClient.textOrEmpty res)
          with (pre +:+ AgentDEXClient.textOrEmpty res +:+ EmptyString)
          by (subst pre; rewrite !append_assoc, append_nil_r; reflexivity).
        apply includes_app.
    + intros ->. reflexivity.
  - exact ok_iff_2xx.
Qed.

Lemma http_failure_wrapping_witness :
  let env := Demo.env Demo.found (Demo.failResponse 503 "down") in
  let c := AgentDEXClient.mkClient "https://api.agentdex.com" "adx_1" None in
  fetch env (AgentDEXClient.requestInit env c "GET" "/api/v1/portfolio/W" None)
    = Demo.failResponse 503 "down" /\
  fst (run (AgentDEXClient.getPortfolio env c "W"))
    = Throw (Error "AgentDEX API GET /api/v1/portfolio/W failed (503): down").
Proof.
  intros env c. split; [reflexivity|].
  destruct (http_failure_wrapping env Demo.me c) as (_ & _ & Hreq & _).
  destruct (Hreq "GET" "/api/v1/portfolio/W" None
              (mkResponse 503 (Ok "down")
                 (Throw (mkError "SyntaxError" "Unexpected token"))) eq_refl)
    as [Hfail _].
  destruct (Hfail eq_refl) as (e & He & Hmsg & _).
  unfold AgentDEXClient.getPortfolio.
  change ("/api/v1/portfolio/" +:+ "W") with "/api/v1/portfolio/W".
  rewrite He, Hmsg. vm_compute. reflexivity.
Defined.

(* ===================================================================== *)
(** * 18. Stake account summaries                                         *)
(* ===================================================================== *)

Section SummaryFacts.

Lemma isDecimalString_truthy s :
  Staking.isDecimalString s = true -> truthy (VStr s) = true.
Proof.
  unfold Staking.isDecimalString. intros H.
  apply andb_prop in H as [H _]. exact H.
Qed.

(** What the callback of [getStakeAccounts] yields on well-shaped data. *)
Lemma summarize_shaped a :
  Staking.rpcStakeInfo (parsed_info a) = true ->
  let delegation := optMember (member (parsed_info a) "stake") "delegation" in
  exists s,
    Staking.summarize a = Ok s /\
    Staking.sum_address s = toBase58 (pubkey a) /\
    Staking.sum_lamports s = account_lamports a /\
    Staking.sum_state s
      = (if nonNull delegation then "delegated" else "inactive") /\
    Staking.sum_activationEpoch s
      = (if nonNull delegation then member delegation "activationEpoch" else VNull) /\
    (nonNull delegation = true -> nonNull (member delegation "activationEpoch") = true).
Proof.
  destruct a as [pk lamports info]. cbn [parsed_info pubkey account_lamports].
  unfold Staking.rpcStakeInfo, Staking.summarize, Staking.delegationOf.
  cbn [parsed_info pubkey account_lamports].
  destruct info as [| | | | | |props| |]; try discriminate.
  cbn [readProp member]. rstep.
  destruct (getProp props "stake") as [| | | | | |stakeProps| |] eqn:Hstake;
    try discriminate.
  - intros _. eexists. repeat split. discriminate.
  - intros _. eexists. repeat split. discriminate.
  - cbn [optMember member].
    destruct (getProp stakeProps "delegation") as [| | | | | |dProps| |] eqn:Hdel;
      try discriminate.
    + intros _. eexists. repeat split. discriminate.
    + intros _. eexists. repeat split. discriminate.
    + cbn [optMember member].
      destruct (getProp dProps "activationEpoch") as [| | | | |epoch| | |] eqn:Hep;
        try discriminate.
      intros Hdec. apply isDecimalString_truthy in Hdec.
      eexists. split; [reflexivity|].
      cbn [Staking.sum_address Staking.sum_lamports Staking.sum_state
           Staking.sum_activationEpoch truthy nonNull].
      unfold or_else. rewrite Hdec. repeat split.
Qed.

End SummaryFacts.

(** C4. For the accounts the node returns in its [jsonParsed] stake shape,
    [getStakeAccounts] returns one summary per account, in order, and in
    each: [state] is ["delegated"] exactly when the parsed data holds a
    non-null [stake.delegation], and ["inactive"] otherwise; and
    [activationEpoch] is [null] exactly when [state] is ["inactive"], a
    delegated account carrying its delegation's activation epoch. *)
Theorem getStakeAccounts_classification
    (env : Env) (w : Wallet.t) (accounts : list ParsedAccount)
    (Hrpc : getParsedProgramAccounts env Staking.StakeProgram_programId 12 (Wallet.address w)
            = Ok accounts)
    (Hshape : Forall (fun a => Staking.rpcStakeInfo (parsed_info a) = true) accounts) :
  exists summaries,
    run (Staking.getStakeAccounts env w)
    = (Ok summaries,
       [EvGetParsedProgramAccounts Staking.StakeProgram_programId 12 (Wallet.address w)]) /\
    Forall2
      (fun a s =>
         let delegation := optMember (member (parsed_info a) "stake") "delegation" in
         Staking.sum_address s = toBase58 (pubkey a) /\
         (Staking.sum_state s = "delegated" <-> nonNull delegation = true) /\
         (Staking.sum_state s = "inactive" <-> nonNull delegation = false) /\
         (Staking.sum_activationEpoch s = VNull <-> Staking.sum_state s = "inactive") /\
         (Staking.sum_state s = "delegated" ->
          Staking.sum_activationEpoch s = member delegation "activationEpoch"))
      accounts summaries.
Proof.
  assert (Hmap : exists summaries,
            Staking.mapResult Staking.summarize accounts = Ok summaries /\
            Forall2
              (fun a s =>
                 let delegation :=
                   optMember (member (parsed_info a) "stake") "delegation" in
                 Staking.sum_address s = toBase58 (pubkey a) /\
                 (Staking.sum_state s = "delegated" <-> nonNull delegation = true) /\
                 (Staking.sum_state s = "inactive" <-> nonNull delegation = false) /\
                 (Staking.sum_activationEpoch s = VNull
                  <-> Staking.sum_state s = "inactive") /\
                 (Staking.sum_state s = "delegated" ->
                  Staking.sum_activationEpoch s = member delegation "activationEpoch"))
              accounts summaries).
  { clear Hrpc. induction Hshape as [|a l Ha _ (summaries & Hl & Hall)].
    - exists []. split; [reflexivity|constructor].
    - destruct (summarize_shaped a Ha) as (s & Hs & Haddr & _ & Hstate & Hep & Hnn).
      exists (s :: summaries). split.
      + cbn [Staking.mapResult]. rewrite Hs, Hl. reflexivity.
      + constructor; [|exact Hall]. cbv zeta in *.
        rewrite Hstate, Hep.
        destruct (nonNull (optMember (member (parsed_info a) "stake") "delegation"))
          eqn:Hd.
        * specialize (Hnn eq_refl).
          split; [exact Haddr|]. split; [split; reflexivity|].
          split; [split; discriminate|]. split; [|reflexivity].
          split; [|discriminate].
          intros Hnull. rewrite Hnull in Hnn. discriminate.
        * split; [exact Haddr|]. split; [split; discriminate|].
          split; [split; reflexivity|]. split; [split; reflexivity|].
          discriminate. }
  destruct Hmap as (summaries & Hmap & Hall).
  exists summaries. split; [|exact Hall].
  unfold run, Staking.getStakeAccounts. step. rewrite Hrpc, Hmap. reflexivity.
Qed.

Lemma getStakeAccounts_classification_witness :
  let env := Demo.env Demo.found Demo.okResponse in
  Forall (fun a => Staking.rpcStakeInfo (parsed_info a) = true) Demo.stakeAccounts /\
  exists s1 s2,
    fst (run (Staking.getStakeAccounts env Demo.me)) = Ok [s1; s2] /\
    Staking.sum_state s1 = "delegated" /\
    Staking.sum_activationEpoch s1 = VStr "512" /\
    Staking.sum_state s2 = "inactive" /\
    Staking.sum_activationEpoch s2 = VNull.
Proof.
  intros env.
  assert (Hshape : Forall (fun a => Staking.rpcStakeInfo (parsed_info a) = true)
                     Demo.stakeAccounts)
    by (repeat constructor).
  split; [exact Hshape|].
  destruct (getStakeAccounts_classification env Demo.me Demo.stakeAccounts
              eq_refl Hshape) as (summaries & Hrun & Hall).
  injection Hrun as <-.
  do 2 eexists. split; [reflexivity|]. repeat split.
Defined.

(** Outside that shape the two fields can part: a delegation whose
    [activationEpoch] were the number 0 would be summarised as delegated
    with a [null] activation epoch. *)
Example summarize_falsy_epoch :
  let info :=
    VObj [ ("stake",
            VObj [ ("delegation",
                    VObj [ ("voter", VStr "V"); ("activationEpoch", VNum 0%float) ]) ]) ] in
  Staking.rpcStakeInfo info = false /\
  exists s,
    Staking.summarize (mkParsedAccount (mkPublicKey "A") 1%float info) = Ok s /\
    Staking.sum_state s = "delegated" /\
    Staking.sum_activationEpoch s = VNull.
Proof.
  intros info. split; [reflexivity|]. eexists. repeat split.
Qed.

(* ===================================================================== *)
(** * 19. Transfers: what precedes a submission                           *)
(* ===================================================================== *)

(** X1. [sendSol] and [sendToken] turn their address arguments into keys
    before anything else, and [sendSol] multiplies its amount before it
    builds the transaction: when the recipient or the mint is no valid
    address, or when the SOL amount is a BigInt, the call throws that
    error and has made no remote call. *)
Theorem transfer_checks_arguments_offline (env : Env) (w : Wallet.t) :
  (forall toAddress amountSol e,
      new_PublicKey env (VStr toAddress) = Throw e ->
      run (Transfer.sendSol env w toAddress amountSol) = (Throw e, [])) /\
  (forall toAddress z toPubkey,
      new_PublicKey env (VStr toAddress) = Ok toPubkey ->
      run (Transfer.sendSol env w toAddress (VBigInt z))
      = (Throw (TypeError "Cannot mix BigInt and other types, use explicit conversions"),
         [])) /\
  (forall toAddress amount mintAddress e,
      new_PublicKey env (VStr toAddress) = Throw e ->
      run (Transfer.sendToken env w toAddress amount mintAddress) = (Throw e, [])) /\
  (forall toAddress amount mintAddress toPubkey e,
      new_PublicKey env (VStr toAddress) = Ok toPubkey ->
      new_PublicKey env (VStr mintAddress) = Throw e ->
      run (Transfer.sendToken env w toAddress amount mintAddress) = (Throw e, [])).
Proof.
  unfold run. repeat split.
  - intros toAddress amountSol e He. unfold Transfer.sendSol. step.
    rewrite He. reflexivity.
  - intros toAddress z toPubkey Hto. unfold Transfer.sendSol. step.
    rewrite Hto. step. reflexivity.
  - intros toAddress amount mintAddress e He. unfold Transfer.sendToken. step.
    rewrite He. reflexivity.
  - intros toAddress amount mintAddress toPubkey e Hto He.
    unfold Transfer.sendToken. step. rewrite Hto. step. rewrite He. reflexivity.
Qed.

Lemma transfer_checks_arguments_offline_witness :
  let env := Demo.env Demo.found Demo.okResponse in
  run (Transfer.sendSol env Demo.me "Dest" (VBigInt 1))
  = (Throw (TypeError "Cannot mix BigInt and other types, use explicit conversions"), []).
Proof.
  intros env.
  destruct (transfer_checks_arguments_offline env Demo.me) as (_ & Hbig & _).
  exact (Hbig "Dest" 1 (mkPublicKey "Dest") eq_refl).
Defined.

(** X2. In [sendToken] the amount handed to the builder of the transfer
    instruction is [BigInt(amount)], taken as base units with no scaling.
    Once the existence check has passed, leaving the transaction [pre]:
    when the conversion throws, or the builder does, the call throws the
    same error and submits nothing; when the builder encodes the amount,
    the call submits one transaction, signed by the wallet alone, which is
    [pre] followed by the one transfer instruction it holds, moving what
    the builder encoded from the wallet's associated account to the
    recipient's under the wallet's authority.  What is encoded is the
    amount given whenever that lies in the range of an unsigned 64-bit
    integer and the builder encodes that range as it is; outside that
    range the instruction may carry another number. *)
Theorem sendToken_moves_the_units_given
    (env : Env) (w : Wallet.t) (toAddress mintAddress : string) (amt : value)
    (toPubkey mintPubkey sourceAta destAta : PublicKey) (pre : Transaction)
    (t : list Event)
    (Hto : new_PublicKey env (VStr toAddress) = Ok toPubkey)
    (Hmint : new_PublicKey env (VStr mintAddress) = Ok mintPubkey)
    (Hsrc : getAssociatedTokenAddress env mintPubkey (publicKey (Wallet.keypair w))
            = Ok sourceAta)
    (Hdst : getAssociatedTokenAddress env mintPubkey toPubkey = Ok destAta)
    (Hcheck : run (Transfer.checkDestination env w destAta toPubkey mintPubkey)
              = (Ok pre, t)) :
  let call := run (Transfer.sendToken env w toAddress amt mintAddress) in
  let submission amount :=
    [ EvGetAccount destAta;
      EvSendAndConfirm
        (pre ++ [ createTransferInstruction sourceAta destAta
                    (publicKey (Wallet.keypair w)) amount ])%list
        [ Wallet.keypair w ] ] in
  (forall s d o u, createTransferInstruction s d o u ∉ pre) /\
  (forall e,
      BigInt env amt = Throw e -> call = (Throw e, [EvGetAccount destAta])) /\
  (forall units e,
      BigInt env amt = Ok units ->
      createTransferInstruction_amount env units = Throw e ->
      call = (Throw e, [EvGetAccount destAta])) /\
  (forall units encoded,
      BigInt env amt = Ok units ->
      createTransferInstruction_amount env units = Ok encoded ->
      snd call = submission encoded) /\
  (forall units,
      (forall z, 0 <= z < 2 ^ 64 -> createTransferInstruction_amount env z = Ok z) ->
      BigInt env amt = Ok units ->
      0 <= units < 2 ^ 64 ->
      snd call = submission units).
Proof.
  intros call submission. subst call submission. unfold run in *.
  assert (Ht : t = [EvGetAccount destAta] /\
               forall s d o u, createTransferInstruction s d o u ∉ pre).
  { rewrite checkDestination_run in Hcheck.
    destruct (getAccount env destAta) as [acc|e0].
    - injection Hcheck as <- <-. split; [reflexivity|].
      intros s d o u Hin. inversion Hin.
    - destruct (String.eqb (name e0) TokenAccountNotFoundError); [|discriminate].
      injection Hcheck as <- <-. split; [reflexivity|].
      intros s d o u Hin. apply list_elem_of_singleton in Hin. discriminate. }
  destruct Ht as [-> Hpre].
  assert (Hrun :
    Transfer.sendToken env w toAddress amt mintAddress [] =
    match (units ← BigInt env amt; createTransferInstruction_amount env units) with
    | Throw e => (Throw e, [EvGetAccount destAta])
    | Ok encoded =>
        let tx :=
          (pre ++ [ createTransferInstruction sourceAta destAta
                      (publicKey (Wallet.keypair w)) encoded ])%list in
        match sendAndConfirmTransaction env tx [Wallet.keypair w] with
        | Throw e =>
            (Throw e, [EvGetAccount destAta; EvSendAndConfirm tx [Wallet.keypair w]])
        | Ok signature =>
            (match toString env amt with
             | Ok amountStr =>
                 Ok (Transfer.mkTokenResult signature (Wallet.address w)
                       toAddress amountStr mintAddress (explorerUrl signature))
             | Throw e => Throw e
             end,
             [EvGetAccount destAta; EvSendAndConfirm tx [Wallet.keypair w]])
        end
    end).
  { unfold Transfer.sendToken. step.
    rewrite Hto. step. rewrite Hmint. step. rewrite Hsrc. step. rewrite Hdst.
    unfold mbind at 1, M_bind at 1. rewrite Hcheck. step.
    destruct (BigInt env amt) as [units|e]; rstep; [|reflexivity].
    step. destruct (createTransferInstruction_amount env units) as [encoded|e];
      [|reflexivity].
    step. cbv zeta. cbn [app].
    destruct (sendAndConfirmTransaction env _ _) as [sig|es]; [|reflexivity].
    step. destruct (toString env amt); reflexivity. }
  rewrite Hrun. split; [exact Hpre|]. split; [|split; [|split]].
  - intros e ->. reflexivity.
  - intros units e -> He. rstep. rewrite He. reflexivity.
  - intros units encoded -> Hencoded. rstep. rewrite Hencoded. cbv zeta.
    destruct (sendAndConfirmTransaction env _ _); reflexivity.
  - intros units Hsdk -> Hrange. rstep. rewrite (Hsdk units Hrange). cbv zeta.
    destruct (sendAndConfirmTransaction env _ _); reflexivity.
Qed.

Lemma sendToken_moves_the_units_given_witness :
  let env := Demo.env Demo.notFound Demo.okResponse in
  let me := publicKey (Wallet.keypair Demo.me) in
  let create :=
    createAssociatedTokenAccountInstruction me (mkPublicKey "Dest/Mint")
      (mkPublicKey "Dest") (mkPublicKey "Mint") in
  let submission amount :=
    [ EvGetAccount (mkPublicKey "Dest/Mint");
      EvSendAndConfirm
        [ create;
          createTransferInstruction (mkPublicKey (Wallet.address Demo.me +:+ "/Mint"))
            (mkPublicKey "Dest/Mint") me amount ]
        [ Wallet.keypair Demo.me ] ] in
  (BigInt env (VStr "1.5") = Throw (mkError "SyntaxError" "Cannot convert to a BigInt") /\
   run (Transfer.sendToken env Demo.me "Dest" (VStr "1.5") "Mint")
   = (Throw (mkError "SyntaxError" "Cannot convert to a BigInt"),
      [EvGetAccount (mkPublicKey "Dest/Mint")])) /\
  (BigInt env (VStr "250") = Ok 250 /\
   snd (run (Transfer.sendToken env Demo.me "Dest" (VStr "250") "Mint"))
   = submission 250) /\
  (BigInt env (VStr "18446744073709551616") = Ok (2 ^ 64) /\
   createTransferInstruction_amount env (2 ^ 64) = Ok (2 ^ 60) /\
   snd (run (Transfer.sendToken env Demo.me "Dest" (VStr "18446744073709551616") "Mint"))
   = submission (2 ^ 60)).
Proof.
  intros env me create submission.
  assert (Hsdk : forall z, 0 <= z < 2 ^ 64 ->
                   createTransferInstruction_amount env z = Ok z).
  { intros z [Hlo Hhi]. cbn [createTransferInstruction_amount env Demo.env].
    unfold Demo.u64_amount.
    destruct (Z.ltb_spec z 0); [lia|].
    destruct (Z.ltb_spec z (2 ^ 64)); [reflexivity|lia]. }
  split; [|split].
  - split; [reflexivity|].
    destruct (sendToken_moves_the_units_given env Demo.me "Dest" "Mint" (VStr "1.5")
                (mkPublicKey "Dest") (mkPublicKey "Mint")
                (mkPublicKey (Wallet.address Demo.me +:+ "/Mint"))
                (mkPublicKey "Dest/Mint") [create] [EvGetAccount (mkPublicKey "Dest/Mint")]
                eq_refl eq_refl eq_refl eq_refl eq_refl) as (_ & Hbad & _).
    exact (Hbad _ eq_refl).
  - split; [reflexivity|].
    destruct (sendToken_moves_the_units_given env Demo.me "Dest" "Mint" (VStr "250")
                (mkPublicKey "Dest") (mkPublicKey "Mint")
                (mkPublicKey (Wallet.address Demo.me +:+ "/Mint"))
                (mkPublicKey "Dest/Mint") [create] [EvGetAccount (mkPublicKey "Dest/Mint")]
                eq_refl eq_refl eq_refl eq_refl eq_refl) as (_ & _ & _ & _ & Hgood).
    apply (Hgood 250 Hsdk eq_refl). split; [lia|reflexivity].
  - split; [reflexivity|]. split; [reflexivity|].
    destruct (sendToken_moves_the_units_given env Demo.me "Dest" "Mint"
                (VStr "18446744073709551616")
                (mkPublicKey "Dest") (mkPublicKey "Mint")
                (mkPublicKey (Wallet.address Demo.me +:+ "/Mint"))
                (mkPublicKey "Dest/Mint") [create] [EvGetAccount (mkPublicKey "Dest/Mint")]
                eq_refl eq_refl eq_refl eq_refl eq_refl) as (_ & _ & _ & Hany & _).
    exact (Hany (2 ^ 64) (2 ^ 60) eq_refl eq_refl).
Defined.


(* ===================================================================== *)
(** * 20. Staking: names, failures and deactivation                       *)
(* ===================================================================== *)

Lemma VALIDATORS_own k a :
  (k, VStr a) ∈ Staking.VALIDATORS -> getProp Staking.VALIDATORS k = VStr a.
Proof.
  unfold Staking.VALIDATORS. intros Hin.
  repeat (apply elem_of_cons in Hin as [Hin|Hin];
          [injection Hin as -> ->; reflexivity|]).
  apply elem_of_nil in Hin. contradiction.
Qed.

Lemma resolveValidator_own v k a :
  (k, VStr a) ∈ Staking.VALIDATORS -> toLowerCase v = k ->
  Staking.resolveValidator v = VStr a /\ Staking.resolveValidator a = VStr a.
Proof.
  intros Hin Hk.
  assert (Hv : Staking.resolveValidator v = VStr a).
  { unfold Staking.resolveValidator. rewrite Hk, (VALIDATORS_own k a Hin).
    unfold Staking.VALIDATORS in Hin.
    repeat (apply elem_of_cons in Hin as [Hin|Hin];
            [injection Hin as -> ->; reflexivity|]).
    apply elem_of_nil in Hin. contradiction. }
  split; [exact Hv|]. exact (resolveValidator_idempotent v a Hv).
Qed.

(** X3. Staking under a validator's name is staking to that validator's
    vote account: for a name of the table written in any letter case,
    [stake] makes the same remote calls, submits the same transaction
    and returns the same result as it does on the address the table
    holds for that name. *)
Theorem stake_by_name_is_stake_by_address
    (env : Env) (w : Wallet.t) (validator k a : string) (amountSol : value)
    (Hin : (k, VStr a) ∈ Staking.VALIDATORS)
    (Hk : toLowerCase validator = k) :
  run (Staking.stake env w validator amountSol)
  = run (Staking.stake env w a amountSol).
Proof.
  destruct (resolveValidator_own validator k a Hin Hk) as [Hv Ha].
  unfold run, Staking.stake. rewrite Hv, Ha. reflexivity.
Qed.

Lemma stake_by_name_is_stake_by_address_witness :
  let env := Demo.env Demo.found Demo.okResponse in
  run (Staking.stake env Demo.me "JiTo" (VNum 2%float))
  = run (Staking.stake env Demo.me "J1to1yufRnoWn81KYg1XkTWzmKjnYSnmE2VY8DGUJ9Qv"
           (VNum 2%float)).
Proof.
  intros env.
  apply (stake_by_name_is_stake_by_address env Demo.me "JiTo" "jito"
           "J1to1yufRnoWn81KYg1XkTWzmKjnYSnmE2VY8DGUJ9Qv" (VNum 2%float)).
  - apply elem_of_cons. left. reflexivity.
  - reflexivity.
Defined.

(** X4. [stake], [unstake] and [withdraw] submit nothing on an argument
    they cannot use or on a failed query: a validator or stake account
    that is no valid address, or a BigInt amount, makes the call throw
    with no remote call made; a failed rent query makes [stake] throw with
    that query as its only remote call, and a failed balance query does
    the same to [withdraw]. *)
Theorem staking_failures_submit_nothing (env : Env) (w : Wallet.t) :
  (forall validator amountSol e,
      new_PublicKey env (Staking.resolveValidator validator) = Throw e ->
      run (Staking.stake env w validator amountSol) = (Throw e, [])) /\
  (forall validator z voteAccount,
      new_PublicKey env (Staking.resolveValidator validator) = Ok voteAccount ->
      run (Staking.stake env w validator (VBigInt z))
      = (Throw (TypeError "Cannot mix BigInt and other types, use explicit conversions"),
         [])) /\
  (forall validator amountSol voteAccount n e,
      new_PublicKey env (Staking.resolveValidator validator) = Ok voteAccount ->
      ToNumber env amountSol = Ok n ->
      getMinimumBalanceForRentExemption env Staking.StakeProgram_space = Throw e ->
      run (Staking.stake env w validator amountSol)
      = (Throw e, [EvGetMinimumBalanceForRentExemption Staking.StakeProgram_space])) /\
  (forall stakeAccountAddress e,
      new_PublicKey env (VStr stakeAccountAddress) = Throw e ->
      run (Staking.unstake env w stakeAccountAddress) = (Throw e, []) /\
      run (Staking.withdraw env w stakeAccountAddress) = (Throw e, [])) /\
  (forall stakeAccountAddress stakeAccount e,
      new_PublicKey env (VStr stakeAccountAddress) = Ok stakeAccount ->
      getBalance env stakeAccount = Throw e ->
      run (Staking.withdraw env w stakeAccountAddress)
      = (Throw e, [EvGetBalance stakeAccount])).
Proof.
  unfold run. split; [|split; [|split; [|split]]].
  - intros validator amountSol e He. unfold Staking.stake. step.
    rewrite He. reflexivity.
  - intros validator z voteAccount Hv. unfold Staking.stake. step.
    rewrite Hv. step. reflexivity.
  - intros validator amountSol voteAccount n e Hv Hn He. unfold Staking.stake. step.
    rewrite Hv. step. rewrite Hn. step. rewrite He. reflexivity.
  - intros stakeAccountAddress e He. split.
    + unfold Staking.unstake. step. rewrite He. reflexivity.
    + unfold Staking.withdraw. step. rewrite He. reflexivity.
  - intros stakeAccountAddress stakeAccount e Hpk He.
    unfold Staking.withdraw. step. rewrite Hpk. step. rewrite He. reflexivity.
Qed.

Lemma staking_failures_submit_nothing_witness :
  let env := Demo.env Demo.found Demo.okResponse in
  run (Staking.stake env Demo.me "constructor" (VNum 1%float))
  = (Throw (Error "Invalid public key input"), []).
Proof.
  intros env.
  destruct (staking_failures_submit_nothing env Demo.me) as (Hbad & _).
  exact (Hbad "constructor" (VNum 1%float) (Error "Invalid public key input") eq_refl).
Defined.

(** X5. [unstake] makes one remote call: it submits, signed by the wallet
    alone, a transaction of the single instruction that deactivates the
    given stake account under the wallet's authority.  It reads neither
    the balance nor the state of the account.  When the submission
    succeeds, the result names the account as it was given, the status
    ["deactivating"] and the signature; when it fails, the call throws the
    error of the submission. *)
Theorem unstake_submits_one_deactivation
    (env : Env) (w : Wallet.t) (stakeAccountAddress : string)
    (stakeAccount : PublicKey)
    (Hpk : new_PublicKey env (VStr stakeAccountAddress) = Ok stakeAccount) :
  let tx := [ StakeProgram_deactivate stakeAccount (publicKey (Wallet.keypair w)) ] in
  snd (run (Staking.unstake env w stakeAccountAddress))
  = [ EvSendAndConfirm tx [Wallet.keypair w] ] /\
  (forall signature,
      sendAndConfirmTransaction env tx [Wallet.keypair w] = Ok signature ->
      exists r,
        fst (run (Staking.unstake env w stakeAccountAddress)) = Ok r /\
        Staking.un_signature r = signature /\
        Staking.un_stakeAccount r = stakeAccountAddress /\
        Staking.un_status r = "deactivating" /\
        Staking.un_explorerUrl r = "https://solscan.io/tx/" +:+ signature) /\
  (forall e,
      sendAndConfirmTransaction env tx [Wallet.keypair w] = Throw e ->
      fst (run (Staking.unstake env w stakeAccountAddress)) = Throw e).
Proof.
  intros tx. subst tx. unfold run, Staking.unstake. step. rewrite Hpk. step.
  cbn [app].
  destruct (sendAndConfirmTransaction env _ _) as [sig|e]; cbn [fst snd].
  - split; [reflexivity|]. split.
    + intros signature [= <-]. eexists. split; [reflexivity|]. repeat split.
    + intros e [=].
  - split; [reflexivity|]. split.
    + intros signature [=].
    + intros e0 [= <-]. reflexivity.
Qed.

Lemma unstake_submits_one_deactivation_witness :
  let env := Demo.env Demo.found Demo.okResponse in
  snd (run (Staking.unstake env Demo.me "StakeAcct1"))
  = [ EvSendAndConfirm
        [ StakeProgram_deactivate (mkPublicKey "StakeAcct1")
            (publicKey (Wallet.keypair Demo.me)) ]
        [ Wallet.keypair Demo.me ] ].
Proof.
  intros env.
  destruct (unstake_submits_one_deactivation env Demo.me "StakeAcct1"
              (mkPublicKey "StakeAcct1") eq_refl) as [Htrace _].
  exact Htrace.
Defined.

Section SummaryFailures.

Lemma summarize_outcome a :
  match parsed_info a with
  | VUndefined | VNull => exists e, Staking.summarize a = Throw e /\ name e = "TypeError"
  | _ =>
      exists s, Staking.summarize a = Ok s /\
        Staking.sum_address s = toBase58 (pubkey a) /\
        Staking.sum_lamports s = account_lamports a /\
        Staking.sum_sol s = (account_lamports a / LAMPORTS_PER_SOL)%float /\
        (Staking.sum_state s = "delegated" \/
         Staking.sum_state s = "inactive" /\ Staking.sum_validator s = VNull /\
         Staking.sum_activationEpoch s = VNull)
  end.
Proof.
  destruct a as [pk lamports info]. cbn [parsed_info pubkey account_lamports].
  unfold Staking.summarize, Staking.delegationOf. cbn [parsed_info pubkey account_lamports].
  destruct info; cbn [readProp]; rstep;
    try (eexists; split; [reflexivity|reflexivity]);
    (eexists; split; [reflexivity|]; repeat (split; [reflexivity|]);
     cbn [Staking.sum_state Staking.sum_validator Staking.sum_activationEpoch];
     match goal with
     | |- context [truthy ?d] =>
         destruct (truthy d) eqn:Ht; [left; reflexivity|right]
     end;
     split; [reflexivity|];
     match goal with
     | Ht : truthy ?d = false |- _ =>
         destruct d; try discriminate Ht; split; reflexivity
     end).
Qed.

End SummaryFailures.

(** X6. [getStakeAccounts] answers for all accounts or for none.  Given the
    accounts the node returns, the call throws a [TypeError] exactly when
    the parsed data of one of them is [null] or [undefined]; otherwise it
    returns one summary per account, in order, each with the account's
    address, its lamports, those lamports divided by [LAMPORTS_PER_SOL],
    and a state that is ["delegated"] or ["inactive"], the latter with a
    [null] validator and a [null] activation epoch. *)
Theorem getStakeAccounts_all_or_nothing
    (env : Env) (w : Wallet.t) (accounts : list ParsedAccount)
    (Hrpc : getParsedProgramAccounts env Staking.StakeProgram_programId 12
              (Wallet.address w) = Ok accounts) :
  let unparsed a := parsed_info a = VUndefined \/ parsed_info a = VNull in
  ((exists a, a ∈ accounts /\ unparsed a) ->
   exists e, fst (run (Staking.getStakeAccounts env w)) = Throw e /\
             name e = "TypeError") /\
  ((forall a, a ∈ accounts -> ~ unparsed a) ->
   exists summaries,
     fst (run (Staking.getStakeAccounts env w)) = Ok summaries /\
     Forall2
       (fun a s =>
          Staking.sum_address s = toBase58 (pubkey a) /\
          Staking.sum_lamports s = account_lamports a /\
          Staking.sum_sol s = (account_lamports a / LAMPORTS_PER_SOL)%float /\
          (Staking.sum_state s = "delegated" \/
           Staking.sum_state s = "inactive" /\ Staking.sum_validator s = VNull /\
           Staking.sum_activationEpoch s = VNull))
       accounts summaries).
Proof.
  intros unparsed.
  assert (Hrun : run (Staking.getStakeAccounts env w)
                 = (Staking.mapResult Staking.summarize accounts,
                    [EvGetParsedProgramAccounts Staking.StakeProgram_programId 12
                       (Wallet.address w)])).
  { unfold run, Staking.getStakeAccounts. step. rewrite Hrpc. reflexivity. }
  rewrite Hrun. cbn [fst]. clear Hrun Hrpc. split.
  - intros (a & Hin & Hbad).
    induction accounts as [|b l IH]; [inversion Hin|].
    cbn [Staking.mapResult].
    pose proof (summarize_outcome b) as Hb.
    apply elem_of_cons in Hin as [<-|Hin].
    + destruct Hbad as [Hbad|Hbad]; rewrite Hbad in Hb;
        destruct Hb as (e & -> & Hname); exists e; split; auto.
    + destruct (IH Hin) as (e & He & Hname).
      destruct (Staking.summarize b) as [s|eb] eqn:Hs; rstep.
      * rewrite He. rstep. eauto.
      * destruct (parsed_info b); destruct Hb as (x & Hx & Hn);
          try discriminate Hx; injection Hx as <-; eauto.
  - intros Hgood.
    induction accounts as [|b l IH].
    + exists []. split; [reflexivity|constructor].
    + destruct IH as (summaries & Hl & Hall).
      { intros a Ha. apply Hgood. apply elem_of_cons. auto. }
      pose proof (summarize_outcome b) as Hb.
      assert (Hnb : ~ unparsed b) by (apply Hgood; apply elem_of_cons; auto).
      assert (Hs : exists s, Staking.summarize b = Ok s /\
                Staking.sum_address s = toBase58 (pubkey b) /\
                Staking.sum_lamports s = account_lamports b /\
                Staking.sum_sol s = (account_lamports b / LAMPORTS_PER_SOL)%float /\
                (Staking.sum_state s = "delegated" \/
                 Staking.sum_state s = "inactive" /\ Staking.sum_validator s = VNull /\
                 Staking.sum_activationEpoch s = VNull)).
      { unfold unparsed in Hnb. destruct (parsed_info b); try exact Hb;
          exfalso; apply Hnb; auto. }
      destruct Hs as (s & Hs & Hfacts).
      exists (s :: summaries). split.
      * cbn [Staking.mapResult]. rewrite Hs, Hl. reflexivity.
      * constructor; [exact Hfacts|exact Hall].
Qed.

Lemma getStakeAccounts_all_or_nothing_witness :
  let unparsed := mkParsedAccount (mkPublicKey "StakeAcct3") 1%float VUndefined in
  let accounts := (Demo.stakeAccounts ++ [unparsed])%list in
  let env := Demo.withStakeAccounts (Demo.env Demo.found Demo.okResponse) accounts in
  exists e, fst (run (Staking.getStakeAccounts env Demo.me)) = Throw e /\
            name e = "TypeError".
Proof.
  intros unparsed accounts env.
  destruct (getStakeAccounts_all_or_nothing env Demo.me accounts eq_refl) as [Hbad _].
  apply Hbad. exists unparsed. split.
  - unfold accounts, Demo.stakeAccounts. cbn [app].
    apply elem_of_cons. right. apply elem_of_cons. right.
    apply elem_of_cons. left. reflexivity.
  - left. reflexivity.
Defined.

(* ===================================================================== *)
(** * 21. Swapper: arguments, prices and the order of a swap              *)
(* ===================================================================== *)

Section SwapperFacts.
Context (env : Env).

(** The remote calls of [getQuote]: none, or the one quote request. *)
Lemma getQuote_trace inM outM amt slip :
  snd (run (Swapper.getQuote env inM outM amt slip)) = [] \/
  exists req, snd (run (Swapper.getQuote env inM outM amt slip)) = [EvFetch req].
Proof.
  unfold run, Swapper.getQuote. cbv zeta. step.
  destruct (Swapper.resolveMint_any inM); [|left; reflexivity].
  step. destruct (Swapper.resolveMint_any outM); [|left; reflexivity].
  step. destruct (toString env amt); [|left; reflexivity].
  step. destruct (toString env _); [|left; reflexivity].
  step. destruct (Swapper.String_ env _); [|left; reflexivity].
  step. destruct (Swapper.String_ env _); [|left; reflexivity].
  right. eexists. step. cbn [app].
  destruct (fetch env _) as [response|e]; [|reflexivity].
  destruct (negb (ok response)).
  - step. destruct (text response); reflexivity.
  - step. destruct (json response) as [quote|e]; [|reflexivity].
    step. destruct (readProp quote "inAmount"); [|reflexivity].
    step. destruct (readProp quote "outAmount"); [|reflexivity].
    step. destruct (readProp quote "priceImpactPct"); [|reflexivity].
    step. destruct (readProp quote "routePlan"); reflexivity.
Qed.

Lemma getQuote_sends_nothing inM outM amt slip r t tx mr sp :
  run (Swapper.getQuote env inM outM amt slip) = (r, t) ->
  EvSendTransaction tx mr sp ∉ t.
Proof.
  intros Hrun Hin.
  destruct (getQuote_trace inM outM amt slip) as [Ht|[req Ht]];
    rewrite Hrun in Ht; cbn [snd] in Ht; subst t.
  - inversion Hin.
  - apply list_elem_of_singleton in Hin. discriminate.
Qed.

End SwapperFacts.

(** X7. [getQuote] looks its two mints up as strings and prints its amount
    before it calls the service: when either mint is not a string, or the
    amount is [undefined] or [null], the call throws a [TypeError] and has
    made no remote call. *)
Theorem getQuote_rejects_bad_arguments_offline
    (env : Env) (inM outM amt slip : value)
    (Hbad : (forall s, inM <> VStr s) \/ (forall s, outM <> VStr s) \/
            amt = VUndefined \/ amt = VNull) :
  exists e,
    run (Swapper.getQuote env inM outM amt slip) = (Throw e, []) /\
    name e = "TypeError".
Proof.
  unfold run, Swapper.getQuote. cbv zeta. step.
  destruct inM as [| | | | |i| | |]; cbn [Swapper.resolveMint_any];
    try (eexists; split; reflexivity).
  step.
  destruct outM as [| | | | |o| | |]; cbn [Swapper.resolveMint_any];
    try (eexists; split; reflexivity).
  destruct Hbad as [H|[H|[->| ->]]].
  - destruct (H i eq_refl).
  - destruct (H o eq_refl).
  - step. eexists; split; reflexivity.
  - step. eexists; split; reflexivity.
Qed.

Lemma getQuote_rejects_bad_arguments_offline_witness :
  let env := Demo.env Demo.found Demo.okResponse in
  exists e,
    run (Swapper.getQuote env (VNum 5%float) (VStr "USDC") (VStr "1000") VUndefined)
    = (Throw e, []) /\
    name e = "TypeError".
Proof.
  intros env.
  apply (getQuote_rejects_bad_arguments_offline env (VNum 5%float) (VStr "USDC")
           (VStr "1000") VUndefined).
  left. discriminate.
Defined.

(** X8. What [getPrice] throws.  The mint is resolved before the [try]
    is entered: called with anything but a string, [getPrice] throws the
    [TypeError] of [resolveMint] as it is, not rewrapped, and makes no
    remote call.  Called with a string, it makes the calls of the body of
    the [try], the quote of ten to the decimals of the resolved mint for
    USDC; a price the body computes is returned, and an error the body
    throws is replaced by a plain [Error] whose message is
    ["Could not get price for <token>: "] followed by the message of that
    error, with the token as the caller wrote it, so that the name of the
    original error does not survive.  Thus a quote request that fails
    gives the message of its failure after the prefix, and a quote
    answered outside 2xx with body [b] gives
    ["Could not get price for <token>: Quote failed: <b>"]. *)
Theorem getPrice_failures_are_rewrapped (env : Env) (tokenMint : value) :
  let call := run (Swapper.getPrice_any env tokenMint) in
  ((forall token, tokenMint <> VStr token) ->
     exists msg, call = (Throw (TypeError msg), [])) /\
  (forall token mint,
     tokenMint = VStr token ->
     Swapper.resolveMint token = VStr mint ->
     let decimals := if String.eqb mint Swapper.SOL then 9%nat else 6%nat in
     let attempt :=
       run (quote ← Swapper.getQuote env (VStr mint) (VStr "USDC")
                      (VStr (Number_toString env (Math_pow10 decimals))) VUndefined;
            n ← lift (Number env (Swapper.outAmount quote));
            mret (n / 1e6)%float) in
     let req :=
       Swapper.quoteRequest
         (Swapper.URLSearchParams
            [ ("inputMint", mint); ("outputMint", Swapper.USDC);
              ("amount", if String.eqb mint Swapper.SOL
                         then "1000000000" else "1000000");
              ("slippageBps", "50") ]) in
     call = run (Swapper.getPrice env token) /\
     snd call = snd attempt /\
     (forall price, fst attempt = Ok price -> fst call = Ok price) /\
     (forall cause,
        fst attempt = Throw cause ->
        fst call
        = Throw (Error ("Could not get price for " +:+ token +:+ ": "
                        +:+ message cause))) /\
     (forall cause,
        fetch env req = Throw cause ->
        call
        = (Throw (Error ("Could not get price for " +:+ token +:+ ": "
                         +:+ message cause)),
           [EvFetch req])) /\
     (forall response body,
        fetch env req = Ok response ->
        ok response = false ->
        text response = Ok body ->
        call
        = (Throw (Error ("Could not get price for " +:+ token +:+ ": "
                         +:+ "Quote failed: " +:+ body)),
           [EvFetch req]))).
Proof.
  intros call. subst call. split.
  - intros Hother.
    destruct tokenMint as [| | | | |token| | |];
      try (eexists; reflexivity).
    destruct (Hother token eq_refl).
  - intros token mint -> Hmint decimals attempt req.
    assert (Hcall :
      run (Swapper.getPrice_any env (VStr token)) =
      match attempt with
      | (Ok price, t) => (Ok price, t)
      | (Throw cause, t) =>
          (Throw (Error ("Could not get price for " +:+ token +:+ ": "
                         +:+ message cause)), t)
      end).
    { subst attempt decimals. unfold run, Swapper.getPrice_any.
      cbn [Swapper.resolveMint_any Swapper.String_ toString].
      rewrite lift_bind. cbv zeta. rewrite Hmint. cbn [strict_eq_str].
      rewrite try_catch_run.
      match goal with
      | |- match ?b with _ => _ end = _ => destruct b as [[price|cause] t]
      end; [reflexivity|].
      step. reflexivity. }
    pose proof (getPrice_run env token mint Hmint) as Hrun. cbv zeta in Hrun.
    unfold Swapper.getPrice in Hrun. fold req in Hrun.
    split; [reflexivity|].
    split; [rewrite Hcall; destruct attempt as [[price|cause] t]; reflexivity|].
    split.
    { intros price Hprice. rewrite Hcall.
      destruct attempt as [[p|cause] t]; cbn [fst] in *; congruence. }
    split.
    { intros cause Hcause. rewrite Hcall.
      destruct attempt as [[p|c] t]; cbn [fst] in *; congruence. }
    split.
    { intros cause Hfetch. rewrite Hrun, Hfetch. reflexivity. }
    intros response body Hfetch Hok Htext.
    rewrite Hrun, Hfetch, Hok, Htext. reflexivity.
Qed.

Lemma getPrice_failures_are_rewrapped_witness :
  let env := Demo.env Demo.found (Demo.failResponse 429 "rate limited") in
  fst (run (Swapper.getPrice_any env (VStr "bonk")))
    = Throw (Error "Could not get price for bonk: Quote failed: rate limited") /\
  exists msg,
    run (Swapper.getPrice_any env VUndefined) = (Throw (TypeError msg), []).
Proof.
  intros env. split.
  - destruct (getPrice_failures_are_rewrapped env (VStr "bonk")) as [_ Hstring].
    destruct (Hstring "bonk" Swapper.BONK eq_refl eq_refl)
      as (_ & _ & _ & _ & _ & Hstatus).
    rewrite (Hstatus (mkResponse 429 (Ok "rate limited")
                        (Throw (mkError "SyntaxError" "Unexpected token")))
               "rate limited" eq_refl eq_refl eq_refl).
    reflexivity.
  - destruct (getPrice_failures_are_rewrapped env VUndefined) as [Hother _].
    apply Hother. intros token. discriminate.
Defined.

(** X9. [swap] sends a transaction only after both services answered: when
    the quote fails, [swap] throws the error of the quote and makes no
    further call; and a transaction it sends is the one the swap-build
    service returned for that quote under a 2xx status, signed with the
    wallet's key, sent with [maxRetries: 3] and [skipPreflight: false]. *)
Theorem swap_sends_only_what_was_built
    (env : Env) (w : Wallet.t) (inM outM amt slip : value) :
  let quoted :=
    run (Swapper.getQuote env inM outM amt
           (Swapper.withDefault slip Swapper.defaultSlippageBps)) in
  (forall e t, quoted = (Throw e, t) ->
     run (Swapper.swap env w inM outM amt slip) = (Throw e, t)) /\
  (forall tx maxRetries skipPreflight,
     EvSendTransaction tx maxRetries skipPreflight
       ∈ snd (run (Swapper.swap env w inM outM amt slip)) ->
     maxRetries = 3 /\ skipPreflight = false /\
     exists q t swapResponse payload swapTransaction,
       quoted = (Ok q, t) /\
       fetch env (Swapper.swapRequest env w q) = Ok swapResponse /\
       ok swapResponse = true /\
       json swapResponse = Ok payload /\
       Swapper.destructure_swapTransaction payload = Ok swapTransaction /\
       deserializeAndSign env swapTransaction (Wallet.keypair w) = Ok tx).
Proof.
  intros quoted. subst quoted. split.
  - intros e t Hq. unfold run in *. unfold Swapper.swap. cbv zeta.
    rewrite bind_run, Hq. reflexivity.
  - intros tx mr sp.
    destruct (run (Swapper.getQuote env inM outM amt
                     (Swapper.withDefault slip Swapper.defaultSlippageBps)))
      as [[q|e] t] eqn:Hq.
    2:{ unfold run in *. unfold Swapper.swap. cbv zeta. rewrite bind_run, Hq.
        cbn [snd]. intros Hin.
        destruct (getQuote_sends_nothing env _ _ _ _ _ _ tx mr sp Hq Hin). }
    pose proof (getQuote_sends_nothing env _ _ _ _ _ _ tx mr sp Hq) as Hnot.
    destruct (fetch env (Swapper.swapRequest env w q)) as [swapResponse|e] eqn:Hf.
    2:{ unfold run in *. unfold Swapper.swap. cbv zeta. rewrite bind_run, Hq.
        step. rewrite Hf. cbn [snd]. intros Hin.
        apply elem_of_app in Hin as [Hin|Hin]; [contradiction|].
        apply list_elem_of_singleton in Hin. discriminate. }
    destruct (ok swapResponse) eqn:Hok.
    2:{ rewrite (swap_run_build env w inM outM amt slip q t swapResponse Hq Hf Hok).
        cbn [snd]. intros Hin.
        apply elem_of_app in Hin as [Hin|Hin]; [contradiction|].
        apply list_elem_of_singleton in Hin. discriminate. }
    rewrite (swap_run_ok env w inM outM amt slip q t swapResponse Hq Hf Hok).
    step.
    destruct (json swapResponse) as [payload|e] eqn:Hj.
    2:{ cbn [snd]. intros Hin.
        apply elem_of_app in Hin as [Hin|Hin]; [contradiction|].
        apply list_elem_of_singleton in Hin. discriminate. }
    step.
    destruct (Swapper.destructure_swapTransaction payload) as [stx|e] eqn:Hd.
    2:{ cbn [snd]. intros Hin.
        apply elem_of_app in Hin as [Hin|Hin]; [contradiction|].
        apply list_elem_of_singleton in Hin. discriminate. }
    step.
    destruct (deserializeAndSign env stx (Wallet.keypair w)) as [signed|e] eqn:Hs.
    2:{ cbn [snd]. intros Hin.
        apply elem_of_app in Hin as [Hin|Hin]; [contradiction|].
        apply list_elem_of_singleton in Hin. discriminate. }
    step.
    assert (Hsent : forall rest : list Event,
              (forall tx' mr' sp', EvSendTransaction tx' mr' sp' ∉ rest) ->
              EvSendTransaction tx mr sp
                ∈ (((t ++ [EvFetch (Swapper.swapRequest env w q)])
                    ++ [EvSendTransaction signed 3 false]) ++ rest)%list ->
              tx = signed /\ mr = 3 /\ sp = false).
    { intros rest Hrest Hin.
      apply elem_of_app in Hin as [Hin|Hin]; [|destruct (Hrest _ _ _ Hin)].
      apply elem_of_app in Hin as [Hin|Hin].
      - apply elem_of_app in Hin as [Hin|Hin]; [contradiction|].
        apply list_elem_of_singleton in Hin. discriminate.
      - apply list_elem_of_singleton in Hin. injection Hin as -> -> ->. auto. }
    assert (Hgoal : tx = signed /\ mr = 3 /\ sp = false ->
              mr = 3 /\ sp = false /\
              exists q0 t0 swapResponse0 payload0 swapTransaction0,
                (Ok q, t) = (Ok q0, t0) /\
                fetch env (Swapper.swapRequest env w q0) = Ok swapResponse0 /\
                ok swapResponse0 = true /\
                json swapResponse0 = Ok payload0 /\
                Swapper.destructure_swapTransaction payload0 = Ok swapTransaction0 /\
                deserializeAndSign env swapTransaction0 (Wallet.keypair w) = Ok tx).
    { intros (-> & -> & ->). split; [reflexivity|]. split; [reflexivity|].
      exists q, t, swapResponse, payload, stx. auto 10. }
    destruct (sendTransaction env signed) as [sig|e].
    2:{ cbn [snd]. intros Hin. apply Hgoal. apply (Hsent []).
        - intros ? ? ? H. inversion H.
        - rewrite app_nil_r. exact Hin. }
    step.
    assert (Hrest : forall tx' mr' sp',
              EvSendTransaction tx' mr' sp' ∉ [EvConfirmTransaction sig "confirmed"]).
    { intros ? ? ? H. apply list_elem_of_singleton in H. discriminate. }
    destruct (confirmTransaction env sig) as [err|e].
    2:{ cbn [snd]. intros Hin. apply Hgoal. exact (Hsent _ Hrest Hin). }
    destruct (truthy err); step; cbn [snd]; intros Hin; apply Hgoal;
      exact (Hsent _ Hrest Hin).
Qed.

Lemma swap_sends_only_what_was_built_witness :
  let env := Demo.env Demo.found Demo.okResponse in
  let call :=
    Swapper.swap env Demo.me (VStr "SOL") (VStr "USDC") (VStr "1000000000") VUndefined in
  EvSendTransaction "signedTx" 3 false ∈ snd (run call) /\
  exists q t swapResponse payload swapTransaction,
    run (Swapper.getQuote env (VStr "SOL") (VStr "USDC") (VStr "1000000000")
           (Swapper.withDefault VUndefined Swapper.defaultSlippageBps)) = (Ok q, t) /\
    fetch env (Swapper.swapRequest env Demo.me q) = Ok swapResponse /\
    ok swapResponse = true /\
    json swapResponse = Ok payload /\
    Swapper.destructure_swapTransaction payload = Ok swapTransaction /\
    deserializeAndSign env swapTransaction (Wallet.keypair Demo.me) = Ok "signedTx".
Proof.
  intros env call.
  assert (Hin : EvSendTransaction "signedTx" 3 false ∈ snd (run call)).
  { vm_compute. apply elem_of_cons. right. apply elem_of_cons. right.
    apply elem_of_cons. left. reflexivity. }
  split; [exact Hin|].
  destruct (swap_sends_only_what_was_built env Demo.me (VStr "SOL") (VStr "USDC")
              (VStr "1000000000") VUndefined) as [_ Hsent].
  destruct (Hsent "signedTx" 3 false Hin) as (_ & _ & Hbuilt).
  exact Hbuilt.
Defined.

(** X10. An error of [swap] does not mean that nothing was sent.  Once the
    built transaction has been sent, [swap] still throws when the
    confirmation fails or reports an error, with the message
    ["Transaction failed: <err as JSON>"] in the latter case; it returns
    a result, carrying the signature and the quote's mints and amounts,
    only when the confirmation reports no error. *)
Theorem swap_can_fail_after_sending
    (env : Env) (w : Wallet.t) (inM outM amt slip : value)
    (q : Swapper.QuoteRecord) (t : list Event) (swapResponse : Response)
    (payload swapTransaction : value) (tx signature : string)
    (Hq : run (Swapper.getQuote env inM outM amt
                 (Swapper.withDefault slip Swapper.defaultSlippageBps)) = (Ok q, t))
    (Hf : fetch env (Swapper.swapRequest env w q) = Ok swapResponse)
    (Hok : ok swapResponse = true)
    (Hj : json swapResponse = Ok payload)
    (Hd : Swapper.destructure_swapTransaction payload = Ok swapTransaction)
    (Hs : deserializeAndSign env swapTransaction (Wallet.keypair w) = Ok tx)
    (Hsend : sendTransaction env tx = Ok signature) :
  let sent :=
    (t ++ [ EvFetch (Swapper.swapRequest env w q);
            EvSendTransaction tx 3 false;
            EvConfirmTransaction signature "confirmed" ])%list in
  (forall e,
      confirmTransaction env signature = Throw e ->
      run (Swapper.swap env w inM outM amt slip) = (Throw e, sent)) /\
  (forall err,
      confirmTransaction env signature = Ok err -> truthy err = true ->
      run (Swapper.swap env w inM outM amt slip)
      = (Throw (Error ("Transaction failed: " +:+ JSON_stringify env err)), sent)) /\
  (forall err,
      confirmTransaction env signature = Ok err -> truthy err = false ->
      run (Swapper.swap env w inM outM amt slip)
      = (Ok (Swapper.mkSwapResult signature (Swapper.inputMint q)
               (Swapper.outputMint q) (Swapper.inAmount q) (Swapper.outAmount q)
               (explorerUrl signature)),
         sent)).
Proof.
  intros sent. subst sent.
  rewrite (swap_run_ok env w inM outM amt slip q t swapResponse Hq Hf Hok).
  step. rewrite Hj. step. rewrite Hd. step. rewrite Hs. step. rewrite Hsend.
  split; [|split].
  - intros e He. step. rewrite He. rewrite <- !app_assoc. reflexivity.
  - intros err He Ht. step. rewrite He, Ht. step.
    rewrite <- !app_assoc. reflexivity.
  - intros err He Ht. step. rewrite He, Ht. step.
    rewrite <- !app_assoc. reflexivity.
Qed.

Lemma swap_can_fail_after_sending_witness :
  let env :=
    Demo.withConfirmation (Demo.env Demo.found Demo.okResponse)
      (Ok (VObj [("InstructionError", VArr [])])) in
  exists t,
    run (Swapper.swap env Demo.me (VStr "SOL") (VStr "USDC") (VStr "1000000000")
           VUndefined)
    = (Throw (Error "Transaction failed: {}"), t) /\
    EvSendTransaction "signedTx" 3 false ∈ t.
Proof.
  intros env.
  destruct (run (Swapper.getQuote env (VStr "SOL") (VStr "USDC") (VStr "1000000000")
                   (Swapper.withDefault VUndefined Swapper.defaultSlippageBps)))
    as [[q|e] t] eqn:Hq; [|vm_compute in Hq; discriminate].
  destruct (swap_can_fail_after_sending env Demo.me (VStr "SOL") (VStr "USDC")
              (VStr "1000000000") VUndefined q t
              (mkResponse 200 (Ok "{...}") (Ok Demo.quotePayload))
              Demo.quotePayload VUndefined "signedTx" "5sig"
              Hq eq_refl eq_refl eq_refl eq_refl eq_refl eq_refl)
    as (_ & Herr & _).
  eexists. split.
  - exact (Herr (VObj [("InstructionError", VArr [])]) eq_refl eq_refl).
  - apply elem_of_app. right. apply elem_of_cons. right.
    apply elem_of_cons. left. reflexivity.
Defined.

(* ===================================================================== *)
(** * 22. The AgentDEX client                                             *)
(* ===================================================================== *)

Section ClientFacts.

Lemma stripTrailingSlash_app_slash b :
  AgentDEXClient.stripTrailingSlash (b +:+ "/") = b.
Proof.
  induction b as [|c r IH]; [reflexivity|].
  change (String c r +:+ "/") with (String c (r +:+ "/")).
  cbn [AgentDEXClient.stripTrailingSlash]. rewrite IH.
  destruct r; reflexivity.
Qed.

Lemma stripTrailingSlash_other b :
  (forall b', b <> b' +:+ "/") -> AgentDEXClient.stripTrailingSlash b = b.
Proof.
  induction b as [|c r IH]; [reflexivity|]. intros Hno.
  destruct r as [|c' r'].
  - cbn [AgentDEXClient.stripTrailingSlash].
    destruct (Ascii.eqb c "/") eqn:Hc; [|reflexivity].
    apply Ascii.eqb_eq in Hc as ->. destruct (Hno EmptyString). reflexivity.
  - change (AgentDEXClient.stripTrailingSlash (String c (String c' r')))
      with (String c (AgentDEXClient.stripTrailingSlash (String c' r'))).
    rewrite IH; [reflexivity|].
    intros b' Hb'. apply (Hno (String c b')).
    change (String c b' +:+ "/") with (String c (b' +:+ "/")).
    rewrite <- Hb'. reflexivity.
Qed.

Context (env : Env).



End ClientFacts.

(** X11. The constructor refuses an empty API key, whatever else the
    configuration holds, and otherwise keeps the key and the agent id as
    given.  The base URL is the default one exactly when none is
    configured; of a configured one that ends in a slash, that one slash
    is removed, and any other is kept as it is. *)
Theorem new_Client_outcomes (config : AgentDEXClient.Config) :
  (AgentDEXClient.cfg_apiKey config = EmptyString ->
   AgentDEXClient.new_Client config
   = Throw (Error AgentDEXClient.apiKeyRequired)) /\
  (AgentDEXClient.cfg_apiKey config <> EmptyString ->
   exists c,
     AgentDEXClient.new_Client config = Ok c /\
     AgentDEXClient.apiKey c = AgentDEXClient.cfg_apiKey config /\
     AgentDEXClient.agentId c = AgentDEXClient.cfg_agentId config /\
     (AgentDEXClient.cfg_baseUrl config = None ->
      AgentDEXClient.baseUrl c = "https://api.agentdex.com") /\
     (forall b, AgentDEXClient.cfg_baseUrl config = Some (b +:+ "/") ->
                AgentDEXClient.baseUrl c = b) /\
     (forall b, AgentDEXClient.cfg_baseUrl config = Some b ->
                (forall b', b <> b' +:+ "/") ->
                AgentDEXClient.baseUrl c = b)).
Proof.
  unfold AgentDEXClient.new_Client. split.
  - intros ->. reflexivity.
  - intros Hkey. apply String.eqb_neq in Hkey. rewrite Hkey.
    eexists. split; [reflexivity|]. cbn [AgentDEXClient.apiKey
      AgentDEXClient.agentId AgentDEXClient.baseUrl].
    split; [reflexivity|]. split; [reflexivity|]. split; [|split].
    + intros ->. reflexivity.
    + intros b ->. apply stripTrailingSlash_app_slash.
    + intros b -> Hno. apply stripTrailingSlash_other. exact Hno.
Qed.

Lemma new_Client_outcomes_witness :
  (exists c,
     AgentDEXClient.new_Client
       (AgentDEXClient.mkConfig "adx_1" (Some "http://localhost:8080/") None) = Ok c /\
     AgentDEXClient.baseUrl c = "http://localhost:8080") /\
  AgentDEXClient.new_Client
    (AgentDEXClient.mkConfig EmptyString (Some "http://localhost:8080/") (Some "a1"))
  = Throw (Error AgentDEXClient.apiKeyRequired).
Proof.
  split.
  - destruct (new_Client_outcomes
                (AgentDEXClient.mkConfig "adx_1" (Some "http://localhost:8080/") None))
      as [_ Hok].
    destruct Hok as (c & Hc & _ & _ & _ & Hslash & _); [discriminate|].
    exists c. split; [exact Hc|].
    apply (Hslash "http://localhost:8080"). reflexivity.
  - destruct (new_Client_outcomes
                (AgentDEXClient.mkConfig EmptyString (Some "http://localhost:8080/")
                   (Some "a1"))) as [Hbad _].
    apply Hbad. reflexivity.
Defined.


(** X13. [getPrices] asks for the price of a mint only when it is given
    exactly one: with several mints, as with an empty list, it makes the
    very request it makes with no argument, for all tracked prices, and the
    mints play no part.  With one mint, it requests [/api/v1/prices/<mint>]
    and returns the answer as a list of one element. *)
Theorem getPrices_ignores_several_mints
    (env : Env) (c : AgentDEXClient.Client) (mints : list string)
    (Hlen : length mints <> 1%nat) :
  AgentDEXClient.getPrices env c (Some mints) = AgentDEXClient.getPrices env c None /\
  forall mint price t,
    run (AgentDEXClient.request env c "GET" ("/api/v1/prices/" +:+ mint) None)
      = (Ok price, t) ->
    run (AgentDEXClient.getPrices env c (Some [mint])) = (Ok (VArr [price]), t).
Proof.
  split.
  - destruct mints as [|m [|m' rest]]; [reflexivity| |reflexivity].
    destruct (Hlen eq_refl).
  - intros mint price t Hrun. unfold run in *.
    unfold AgentDEXClient.getPrices. rewrite bind_run, Hrun. reflexivity.
Qed.

Lemma getPrices_ignores_several_mints_witness :
  let env := Demo.env Demo.found Demo.okResponse in
  let c := AgentDEXClient.mkClient "https://api.agentdex.com" "adx_1" None in
  snd (run (AgentDEXClient.getPrices env c (Some [Swapper.SOL; Swapper.USDC])))
  = [ EvFetch (mkRequest "GET" "https://api.agentdex.com/api/v1/prices"
                 [ ("Authorization", "Bearer adx_1");
                   ("Content-Type", "application/json") ] None) ].
Proof.
  intros env c.
  destruct (getPrices_ignores_several_mints env c [Swapper.SOL; Swapper.USDC])
    as [Hsame _]; [discriminate|].
  rewrite Hsame. reflexivity.
Defined.



(* ===================================================================== *)
(** * 23. Wallet: the list of token balances                              *)
(* ===================================================================== *)

Section TokenBalances.
Context (env : Env).




End TokenBalances.



(* ===================================================================== *)
(** * 24. The HTTP server                                                 *)
(* ===================================================================== *)

Section ServerFacts.
Context (JSON_parse : string -> Result value) (parseFloat : value -> float).





Lemma anyMissing_falsy body fields k :
  nonNull body = true -> k ∈ fields -> truthy (member body k) = false ->
  Server.anyMissing body fields = Ok true.
Proof.
  intros Hnn Hk Hfalsy.
  assert (Hread : forall x, readProp body x = Ok (member body x))
    by (intros x; destruct body; try discriminate Hnn; reflexivity).
  induction fields as [|x rest IH]; [inversion Hk|].
  cbn [Server.anyMissing]. rewrite Hread, Result_bind_Ok.
  destruct (truthy (member body x)) eqn:Hx; [|reflexivity].
  apply IH. apply elem_of_cons in Hk as [->|Hk]; [|exact Hk].
  rewrite Hfalsy in Hx. discriminate.
Qed.

Lemma anyMissing_present body fields :
  nonNull body = true ->
  Forall (fun k => truthy (member body k) = true) fields ->
  Server.anyMissing body fields = Ok false.
Proof.
  intros Hnn Hall.
  assert (Hread : forall x, readProp body x = Ok (member body x))
    by (intros x; destruct body; try discriminate Hnn; reflexivity).
  induction Hall as [|x rest Hx _ IH]; [reflexivity|].
  cbn [Server.anyMissing]. rewrite Hread, Result_bind_Ok, Hx. exact IH.
Qed.

Lemma not_routed p m p' m' :
  (p, m) ∉ Server.routes -> (p', m') ∈ Server.routes ->
  String.eqb p p' && String.eqb m m' = false.
Proof.
  intros Hnot Hin.
  destruct (String.eqb p p') eqn:Hp; [|reflexivity].
  destruct (String.eqb m m') eqn:Hm; [|reflexivity].
  apply String.eqb_eq in Hp, Hm. subst. contradiction.
Qed.

End ServerFacts.





(** X18. With a wallet loaded, a [POST] to a route that reads a body is
    refused when a field the route requires is falsy in the body, be it
    absent, [null], [false], [0], [NaN] or the empty string: the reply has
    status 400 and a message that starts with ["Missing required field"],
    and no method of the classes is called.  So an amount given as the
    number 0 is refused before any transfer is attempted. *)
Theorem missing_fields_are_refused_unserved
    (JSON_parse : string -> Result value) (parseFloat : value -> float)
    (s : Server.Services) (req : Server.IncomingMessage) (body : value)
    (fields : list string) (k : string)
    (Hroute : (Server.msg_pathname req, fields) ∈ Server.required)
    (Hmethod : Server.msg_method req = "POST")
    (Hbody : Server.parseBody JSON_parse req = Ok body)
    (Hnn : nonNull body = true)
    (Hk : k ∈ fields)
    (Hfalsy : truthy (member body k) = false) :
  exists message,
    run (Server.handleRequest JSON_parse parseFloat (Some s) req)
    = (Ok (Server.error message 400), []) /\
    prefixb "Missing required field" message = true.
Proof.
  pose proof (anyMissing_falsy body fields k Hnn Hk Hfalsy) as Hmissing.
  unfold run, Server.handleRequest. cbv zeta. rewrite try_catch_run, Hmethod.
  unfold Server.required in Hroute.
  repeat (apply elem_of_cons in Hroute as [Hroute|Hroute];
          [ injection Hroute as Hpath <-; rewrite Hpath;
            cbn [String.eqb Ascii.eqb Bool.eqb andb];
            step; rewrite Hbody; step; rewrite Hmissing; step;
            eexists; split; reflexivity
          | ]).
  apply elem_of_nil in Hroute. contradiction.
Qed.

Lemma missing_fields_are_refused_unserved_witness :
  let body := VObj [ ("to", VStr "Dest"); ("amount", VNum 0%float) ] in
  let req := Server.mkIncomingMessage "POST" "/transfer/sol" None (Ok "{...}") in
  exists message,
    run (Server.handleRequest (fun _ => Ok body) Demo.parseFloat
           (Some (Demo.services (Demo.env Demo.found Demo.okResponse) Demo.me)) req)
    = (Ok (Server.error message 400), []).
Proof.
  intros body req.
  destruct (missing_fields_are_refused_unserved (fun _ => Ok body) Demo.parseFloat
              (Demo.services (Demo.env Demo.found Demo.okResponse) Demo.me)
              req body ["to"; "amount"] "amount") as (message & Hrun & _).
  - unfold Server.required. do 2 (apply elem_of_cons; right).
    apply elem_of_cons. left. reflexivity.
  - reflexivity.
  - reflexivity.
  - reflexivity.
  - apply elem_of_cons. right. apply elem_of_cons. left. reflexivity.
  - reflexivity.
  - exists message. exact Hrun.
Defined.

(** X19. On the routes that read a body, with a wallet loaded: a body that
    is not JSON is answered with status 500 and the error
    ["Invalid JSON"], not with a client error; so is, with the message of
    its [TypeError], a body that is the JSON [null]; an error of the
    request stream is answered with status 500 and its message; and an
    empty body is read as the empty object, hence answered with status
    400 for its missing fields.  No method of the classes is called in
    any of these cases. *)
Theorem unreadable_bodies_are_server_errors
    (JSON_parse : string -> Result value) (parseFloat : value -> float)
    (s : Server.Services) (req : Server.IncomingMessage) (fields : list string)
    (Hroute : (Server.msg_pathname req, fields) ∈ Server.required)
    (Hmethod : Server.msg_method req = "POST") :
  let answer := run (Server.handleRequest JSON_parse parseFloat (Some s) req) in
  (forall text e,
      Server.msg_body req = Ok text -> text <> EmptyString ->
      JSON_parse text = Throw e ->
      answer = (Ok (Server.error "Invalid JSON" 500), [])) /\
  (forall text,
      Server.msg_body req = Ok text -> text <> EmptyString ->
      JSON_parse text = Ok VNull ->
      exists e, name e = "TypeError" /\
                answer = (Ok (Server.error (message e) 500), [])) /\
  (forall e,
      Server.msg_body req = Throw e ->
      answer = (Ok (Server.error (message e) 500), [])) /\
  (Server.msg_body req = Ok EmptyString ->
   exists message, answer = (Ok (Server.error message 400), [])).
Proof.
  intros answer. subst answer.
  unfold run, Server.handleRequest. cbv zeta. rewrite try_catch_run, Hmethod.
  unfold Server.required in Hroute.
  repeat (apply elem_of_cons in Hroute as [Hroute|Hroute];
          [ injection Hroute as Hpath ->; rewrite Hpath;
            cbn [String.eqb Ascii.eqb Bool.eqb andb];
            unfold Server.parseBody;
            (split; [|split; [|split]]);
            [ intros text e -> Hne ->; apply String.eqb_neq in Hne; rewrite Hne;
              step; reflexivity
            | intros text -> Hne ->; apply String.eqb_neq in Hne; rewrite Hne;
              step; eexists; split; [|reflexivity]; reflexivity
            | intros e ->; step; reflexivity
            | intros ->; cbn [String.eqb]; step; eexists; reflexivity ]
          | ]).
  apply elem_of_nil in Hroute. contradiction.
Qed.

Lemma unreadable_bodies_are_server_errors_witness :
  let req := Server.mkIncomingMessage "POST" "/stake/delegate" None (Ok "{amount: 1") in
  run (Server.handleRequest (fun _ => Throw (mkError "SyntaxError" "Unexpected token"))
         Demo.parseFloat
         (Some (Demo.services (Demo.env Demo.found Demo.okResponse) Demo.me)) req)
  = (Ok (Server.error "Invalid JSON" 500), []).
Proof.
  intros req.
  destruct (unreadable_bodies_are_server_errors
              (fun _ => Throw (mkError "SyntaxError" "Unexpected token"))
              Demo.parseFloat
              (Demo.services (Demo.env Demo.found Demo.okResponse) Demo.me)
              req ["validator"; "amount"]) as [Hbad _].
  - unfold Server.required. do 4 (apply elem_of_cons; right).
    apply elem_of_cons. left. reflexivity.
  - reflexivity.
  - apply (Hbad "{amount: 1" (mkError "SyntaxError" "Unexpected token")).
    + reflexivity.
    + discriminate.
    + reflexivity.
Defined.

(** X20. With a wallet loaded, a request whose path and method are not one
    of the fifteen pairs the handler serves is answered with status 404
    and the error ["Not found"], with no method of the classes called.
    A known path under another method is such a request: [GET] on
    [/transfer/sol] is a 404. *)
Theorem unknown_routes_are_not_found
    (JSON_parse : string -> Result value) (parseFloat : value -> float)
    (s : Server.Services) (req : Server.IncomingMessage)
    (Hnot : (Server.msg_pathname req, Server.msg_method req) ∉ Server.routes) :
  run (Server.handleRequest JSON_parse parseFloat (Some s) req)
  = (Ok (Server.error "Not found" 404), []).
Proof.
  unfold run, Server.handleRequest. cbv zeta. rewrite try_catch_run.
  repeat match goal with
  | |- context [String.eqb (Server.msg_pathname req) ?p
                && String.eqb (Server.msg_method req) ?m] =>
      rewrite (not_routed _ _ p m Hnot)
        by (unfold Server.routes;
            repeat (apply elem_of_cons; first [left; reflexivity|right]))
  end.
  reflexivity.
Qed.

Lemma unknown_routes_are_not_found_witness :
  run (Server.handleRequest (fun _ => Ok (VObj [])) Demo.parseFloat
         (Some (Demo.services (Demo.env Demo.found Demo.okResponse) Demo.me))
         (Server.mkIncomingMessage "GET" "/transfer/sol" None (Ok EmptyString)))
  = (Ok (Server.error "Not found" 404), []).
Proof.
  apply (unknown_routes_are_not_found (fun _ => Ok (VObj [])) Demo.parseFloat
           (Demo.services (Demo.env Demo.found Demo.okResponse) Demo.me)
           (Server.mkIncomingMessage "GET" "/transfer/sol" None (Ok EmptyString))).
  cbn [Server.msg_pathname Server.msg_method]. unfold Server.routes.
  intros Hin.
  repeat (apply elem_of_cons in Hin as [Hin|Hin]; [discriminate Hin|]).
  apply elem_of_nil in Hin. exact Hin.
Defined.

(** X21. The two swap routes pass on [body.slippage || 50]: with the three
    required fields present, [POST /swap/quote] calls [getQuote], and
    [POST /swap/execute] calls [swap], once, on the body's [from], [to] and
    [amount] as they are and on the body's slippage when that is truthy,
    and on 50 otherwise, so that a slippage of 0 is replaced by 50.  What
    the method returns is answered with status 200 and [success: true];
    what it throws, with status 500 and the message of the error. *)
Theorem swap_routes_default_the_slippage
    (JSON_parse : string -> Result value) (parseFloat : value -> float)
    (s : Server.Services) (req : Server.IncomingMessage) (body : value)
    (Hmethod : Server.msg_method req = "POST")
    (Hbody : Server.parseBody JSON_parse req = Ok body)
    (Hnn : nonNull body = true)
    (Hfields : Forall (fun k => truthy (member body k) = true) ["from"; "to"; "amount"]) :
  let slippage :=
    if truthy (member body "slippage") then member body "slippage"
    else VNum 50%float in
  let answer := run (Server.handleRequest JSON_parse parseFloat (Some s) req) in
  (Server.msg_pathname req = "/swap/quote" ->
   forall outcome t,
     run (Server.swapper_getQuote s (member body "from") (member body "to")
            (member body "amount") slippage) = (outcome, t) ->
     answer =
     (Ok match outcome with
         | Ok quote =>
             Server.json (VObj [ ("success", VBool true);
                                 ("quote", VObj (Objects.quote quote)) ]) 200
         | Throw e => Server.error (message e) 500
         end, t)) /\
  (Server.msg_pathname req = "/swap/execute" ->
   forall outcome t,
     run (Server.swapper_swap s (member body "from") (member body "to")
            (member body "amount") slippage) = (outcome, t) ->
     answer =
     (Ok match outcome with
         | Ok result =>
             Server.json (VObj (("success", VBool true) :: Objects.swapResult result))
               200
         | Throw e => Server.error (message e) 500
         end, t)).
Proof.
  intros slippage answer. subst slippage answer.
  pose proof (anyMissing_present body _ Hnn Hfields) as Hpresent.
  unfold run, Server.handleRequest. cbv zeta. rewrite try_catch_run, Hmethod.
  split; intros Hpath outcome t Hcall; rewrite Hpath;
    cbn [String.eqb Ascii.eqb Bool.eqb andb];
    step; rewrite Hbody; step; rewrite Hpresent;
    rewrite bind_run; unfold or_else; unfold run in Hcall; rewrite Hcall;
    destruct outcome; reflexivity.
Qed.

Lemma swap_routes_default_the_slippage_witness :
  let env := Demo.env Demo.found Demo.okResponse in
  let body := VObj [ ("from", VStr "SOL"); ("to", VStr "USDC");
                     ("amount", VStr "1000000000"); ("slippage", VNum 0%float) ] in
  let req := Server.mkIncomingMessage "POST" "/swap/quote" None (Ok "{...}") in
  snd (run (Server.handleRequest (fun _ => Ok body) Demo.parseFloat
              (Some (Demo.services env Demo.me)) req))
  = [ EvFetch (Swapper.quoteRequest
        "inputMint=So11111111111111111111111111111111111111112&outputMint=EPjFWdd5AufqSSqeM2qN1xzybapC8G4wEGGkZwyTDt1v&amount=1000000000&slippageBps=50") ].
Proof.
  intros env body req.
  destruct (swap_routes_default_the_slippage (fun _ => Ok body) Demo.parseFloat
              (Demo.services env Demo.me) req body eq_refl eq_refl eq_refl)
    as [Hquote _].
  - repeat constructor.
  - destruct (run (Server.swapper_getQuote (Demo.services env Demo.me)
                     (member body "from") (member body "to") (member body "amount")
                     (if truthy (member body "slippage") then member body "slippage"
                      else VNum 50%float))) as [outcome t] eqn:Hcall.
    rewrite (Hquote eq_refl outcome t eq_refl). cbn [snd].
    vm_compute in Hcall. injection Hcall as _ <-. reflexivity.
Defined.

(** X22. [POST /transfer/sol] through to the ledger.  When the transfer
    method of the module is [sendSol] of a wallet, and the body names a
    valid recipient and a truthy amount, the handler hands
    [Math.floor(parseFloat(amount) * LAMPORTS_PER_SOL)] lamports to the
    builder of the transfer instruction.  When the builder throws, as it
    does on an amount that parses to no lamport count, the request is
    answered with status 500 and the message of the error, and no remote
    call is made.  When the builder encodes the amount, the handler makes
    one remote call, submitting, signed by the wallet, a single transfer of
    what was encoded to the recipient: a confirmed submission is answered
    with status 200, [success: true] and the fields of the result, whose
    [amount] is the parsed number; a failed one with status 500 and the
    message of its error. *)
Theorem transfer_sol_route_submits_one_transfer
    (JSON_parse : string -> Result value) (parseFloat : value -> float)
    (env : Env) (w : Wallet.t)
    (s : Server.Services) (req : Server.IncomingMessage) (body : value)
    (to : string) (toPubkey : PublicKey)
    (Hsvc : forall n, Server.transfer_sendSol s (VStr to) n
                      = Transfer.sendSol env w to (VNum n))
    (Hpath : Server.msg_pathname req = "/transfer/sol")
    (Hmethod : Server.msg_method req = "POST")
    (Hbody : Server.parseBody JSON_parse req = Ok body)
    (Hto : member body "to" = VStr to)
    (Hne : to <> EmptyString)
    (Hamount : truthy (member body "amount") = true)
    (Hpk : new_PublicKey env (VStr to) = Ok toPubkey) :
  let amount := parseFloat (member body "amount") in
  let lamports := Math_floor (amount * LAMPORTS_PER_SOL)%float in
  let answer := run (Server.handleRequest JSON_parse parseFloat (Some s) req) in
  (forall e,
      SystemProgram_transfer_lamports env lamports = Throw e ->
      answer = (Ok (Server.error (message e) 500), [])) /\
  (forall encoded,
      SystemProgram_transfer_lamports env lamports = Ok encoded ->
      let tx :=
        [ SystemProgram_transfer (publicKey (Wallet.keypair w)) toPubkey encoded ] in
      snd answer = [ EvSendAndConfirm tx [Wallet.keypair w] ] /\
      (forall signature,
          sendAndConfirmTransaction env tx [Wallet.keypair w] = Ok signature ->
          fst answer
          = Ok (Server.json
                  (VObj [ ("success", VBool true);
                          ("signature", VStr signature);
                          ("from", VStr (Wallet.address w));
                          ("to", VStr to);
                          ("amount", VNum amount);
                          ("unit", VStr "SOL");
                          ("explorerUrl",
                           VStr ("https://solscan.io/tx/" +:+ signature)) ])
                  200)) /\
      (forall e,
          sendAndConfirmTransaction env tx [Wallet.keypair w] = Throw e ->
          fst answer = Ok (Server.error (message e) 500))).
Proof.
  intros amount lamports answer. subst answer lamports.
  assert (Hnn : nonNull body = true).
  { destruct body; try reflexivity; discriminate Hto. }
  assert (Hfields : Forall (fun k => truthy (member body k) = true) ["to"; "amount"]).
  { repeat constructor; [|exact Hamount]. rewrite Hto. cbn [truthy].
    apply String.eqb_neq in Hne. rewrite Hne. reflexivity. }
  pose proof (anyMissing_present body _ Hnn Hfields) as Hpresent.
  pose proof (sendSol_run env w to (VNum amount) toPubkey amount Hpk eq_refl) as Hsend.
  assert (Hanswer :
    run (Server.handleRequest JSON_parse parseFloat (Some s) req) =
    match run (Transfer.sendSol env w to (VNum amount)) with
    | (Ok result, t) =>
        (Ok (Server.json (VObj (("success", VBool true) :: Objects.solResult result))
               200), t)
    | (Throw e, t) => (Ok (Server.error (message e) 500), t)
    end).
  { unfold run. unfold Server.handleRequest. cbv zeta.
    rewrite try_catch_run, Hmethod, Hpath.
    cbn [String.eqb Ascii.eqb Bool.eqb andb].
    step. rewrite Hbody. step. rewrite Hpresent.
    rewrite bind_run, Hto, Hsvc. fold amount.
    destruct (Transfer.sendSol env w to (VNum amount) []) as [[result|e] t];
      reflexivity. }
  rewrite Hanswer, Hsend. split.
  - intros e ->. reflexivity.
  - intros encoded ->. cbv zeta.
    destruct (sendAndConfirmTransaction env _ _) as [sig|e]; cbn [fst snd].
    + split; [reflexivity|]. split; [|intros e [=]].
      intros signature [= <-]. reflexivity.
    + split; [reflexivity|]. split; [intros signature [=]|].
      intros e0 [= <-]. reflexivity.
Qed.

Lemma transfer_sol_route_submits_one_transfer_witness :
  let env := Demo.env Demo.found Demo.okResponse in
  let handle body :=
    run (Server.handleRequest (fun _ => Ok body) Demo.parseFloat
           (Some (Demo.services env Demo.me))
           (Server.mkIncomingMessage "POST" "/transfer/sol" None (Ok "{...}"))) in
  snd (handle (VObj [ ("to", VStr "Dest"); ("amount", VStr "2") ]))
  = [ EvSendAndConfirm
        [ SystemProgram_transfer (publicKey (Wallet.keypair Demo.me))
            (mkPublicKey "Dest") 2000000000%float ]
        [ Wallet.keypair Demo.me ] ] /\
  handle (VObj [ ("to", VStr "Dest"); ("amount", VStr "abc") ])
  = (Ok (Server.error "The value is out of range" 500), []).
Proof.
  intros env handle. subst handle. cbv beta.
  assert (Hne : "Dest" <> EmptyString) by discriminate.
  split.
  - destruct (transfer_sol_route_submits_one_transfer
                (fun _ => Ok (VObj [ ("to", VStr "Dest"); ("amount", VStr "2") ]))
                Demo.parseFloat env Demo.me (Demo.services env Demo.me)
                (Server.mkIncomingMessage "POST" "/transfer/sol" None (Ok "{...}"))
                (VObj [ ("to", VStr "Dest"); ("amount", VStr "2") ]) "Dest"
                (mkPublicKey "Dest") (fun _ => eq_refl) eq_refl eq_refl eq_refl eq_refl
                Hne eq_refl eq_refl)
      as [_ Hsubmit].
    destruct (Hsubmit 2000000000%float) as [Htrace _];
      [vm_compute; reflexivity|].
    exact Htrace.
  - destruct (transfer_sol_route_submits_one_transfer
                (fun _ => Ok (VObj [ ("to", VStr "Dest"); ("amount", VStr "abc") ]))
                Demo.parseFloat env Demo.me (Demo.services env Demo.me)
                (Server.mkIncomingMessage "POST" "/transfer/sol" None (Ok "{...}"))
                (VObj [ ("to", VStr "Dest"); ("amount", VStr "abc") ]) "Dest"
                (mkPublicKey "Dest") (fun _ => eq_refl) eq_refl eq_refl eq_refl eq_refl
                Hne eq_refl eq_refl)
      as [Hthrow _].
    apply (Hthrow Demo.rangeError). vm_compute. reflexivity.
Defined.

(* ===================================================================== *)
(** * 25. The command line                                                *)
(* ===================================================================== *)

Section ConsoleFacts.

Lemma stdoutWrites_app out o :
  Cli.stdoutWrites (out ++ [o])
  = (Cli.stdoutWrites out + (if Cli.isStdout o then 1 else 0))%nat.
Proof.
  unfold Cli.stdoutWrites. rewrite List.filter_app, length_app. cbn [List.filter].
  destruct (Cli.isStdout o); reflexivity.
Qed.

Lemma P_bind_run {A B} (m : Cli.P A) (f : A -> Cli.P B) out t :
  (m ≫= f) out t =
  match m out t with
  | (Cli.Normal a, out', t') => f a out' t'
  | (Cli.Abrupt e, out', t') => (Cli.Abrupt e, out', t')
  | (Cli.Exit code, out', t') => (Cli.Exit code, out', t')
  end.
Proof. reflexivity. Qed.

Lemma quiet_ret {A} (a : A) : Cli.quiet (mret a).
Proof. intros out t. reflexivity. Qed.

Lemma quiet_call {A} (m : M A) : Cli.quiet (Cli.call m).
Proof. intros out t. unfold Cli.call. destruct (m t) as [[a|e] t']; reflexivity. Qed.

Lemma quiet_console_error line : Cli.quiet (Cli.console_error line).
Proof.
  intros out t. unfold Cli.console_error, Cli.print.
  rewrite stdoutWrites_app. cbn [Cli.isStdout]. lia.
Qed.

Lemma quiet_process_exit {A} : Cli.quiet (Cli.process_exit 1 : Cli.P A).
Proof. intros out t. split; reflexivity. Qed.

Lemma quiet_bind {A B} (m : Cli.P A) (f : A -> Cli.P B) :
  Cli.quiet m -> (forall a, Cli.quiet (f a)) -> Cli.quiet (m ≫= f).
Proof.
  intros Hm Hf out t. rewrite P_bind_run. specialize (Hm out t).
  destruct (m out t) as [[[a|e|code] out'] t']; [|exact Hm|exact Hm].
  specialize (Hf a out' t').
  destruct (f a out' t') as [[[b|e|code] out''] t'']; rewrite <- Hm; exact Hf.
Qed.

Lemma reports_print o : Cli.isStdout o = true -> Cli.reports (Cli.print o).
Proof.
  intros Ho out t. unfold Cli.print. rewrite stdoutWrites_app, Ho. lia.
Qed.

Lemma reports_process_exit {A} : Cli.reports (Cli.process_exit 1 : Cli.P A).
Proof. intros out t. split; reflexivity. Qed.

Lemma reports_bind {A B} (m : Cli.P A) (f : A -> Cli.P B) :
  Cli.quiet m -> (forall a, Cli.reports (f a)) -> Cli.reports (m ≫= f).
Proof.
  intros Hm Hf out t. rewrite P_bind_run. specialize (Hm out t).
  destruct (m out t) as [[[a|e|code] out'] t']; [|exact Hm|exact Hm].
  specialize (Hf a out' t').
  destruct (f a out' t') as [[[b|e|code] out''] t'']; rewrite <- Hm; exact Hf.
Qed.

End ConsoleFacts.

(** Discharging [Cli.quiet] and [Cli.reports] along the structure of a
    command. *)
Ltac quiet_steps :=
  repeat first
    [ assumption
    | apply quiet_ret | apply quiet_call | apply quiet_console_error
    | apply quiet_process_exit
    | apply quiet_bind; [|intros ?]
    | match goal with
      | |- Cli.quiet (if ?b then _ else _) => destruct b
      | |- Cli.quiet (match ?x with _ => _ end) => destruct x
      | |- Cli.quiet (let '(_, _) := ?x in _) => destruct x
      end ].

Ltac reports_steps :=
  repeat first
    [ apply reports_print; reflexivity
    | apply reports_process_exit
    | apply reports_bind; [quiet_steps|intros ?]
    | match goal with
      | |- Cli.reports (if ?b then _ else _) => destruct b
      | |- Cli.reports (match ?x with _ => _ end) => destruct x
      | |- Cli.reports (let '(_, _) := ?x in _) => destruct x
      end ].

Section CliFacts.
Context (env : Env)
        (getParsedTokenAccountsByOwner :
           PublicKey -> PublicKey -> Result (list ParsedAccount))
        (parseFloat : string -> float)
        (DEFAULT_WALLET_PATH : string)
        (walletFile : option (Result Wallet.t))
        (save : Wallet.t -> string -> Result string).

Lemma quiet_loadWallet : Cli.quiet (Cli.loadWallet DEFAULT_WALLET_PATH walletFile).
Proof. unfold Cli.loadWallet. quiet_steps. Qed.

Lemma reports_body args :
  Cli.reports
    (if Cli.argIs args 0 "wallet" then
       Cli.walletCommand env getParsedTokenAccountsByOwner DEFAULT_WALLET_PATH
         walletFile save args
     else if Cli.argIs args 0 "swap" then
       Cli.swapCommand env DEFAULT_WALLET_PATH walletFile args
     else if Cli.argIs args 0 "price" then
       Cli.priceCommand env DEFAULT_WALLET_PATH walletFile args
     else if Cli.argIs args 0 "transfer" then
       Cli.transferCommand env DEFAULT_WALLET_PATH walletFile args
     else if Cli.argIs args 0 "tokens" then Cli.console_log (VObj Swapper.TOKENS)
     else if Cli.argIs args 0 "stake" then
       Cli.stakeCommand env parseFloat DEFAULT_WALLET_PATH walletFile args
     else Cli.print (Cli.StdoutLine Cli.helpText)).
Proof.
  pose proof quiet_loadWallet as Hload.
  unfold Cli.walletCommand, Cli.swapCommand, Cli.priceCommand, Cli.transferCommand,
    Cli.stakeCommand, Cli.console_log.
  reports_steps.
Qed.

End CliFacts.

(** X23. The command line reports on its standard output exactly when it
    succeeds, and no error escapes [main].  Whatever the arguments, the
    wallet file and the behaviour of the ledger and the services, [main]
    completes in one of two ways, never with an error thrown out of it:
    it returns, the process then ending with code 0, having written to the
    standard output once; or it has called [process.exit(1)], having
    written nothing to the standard output, what it has to say being on
    the standard error. *)
Theorem main_reports_once_on_success
    (env : Env)
    (getParsedTokenAccountsByOwner :
       PublicKey -> PublicKey -> Result (list ParsedAccount))
    (parseFloat : string -> float)
    (DEFAULT_WALLET_PATH : string)
    (walletFile : option (Result Wallet.t))
    (save : Wallet.t -> string -> Result string)
    (args : list string)
    (completion : Cli.Completion unit) (out : list Cli.Output) (t : list Event)
    (Hcompleted :
       Cli.main env getParsedTokenAccountsByOwner parseFloat DEFAULT_WALLET_PATH
         walletFile save args [] []
       = (completion, out, t)) :
  (forall e, completion <> Cli.Abrupt e) /\
  ((completion = Cli.Normal tt /\ Cli.exitCode completion = 0 /\
    Cli.stdoutWrites out = 1%nat) \/
   (completion = Cli.Exit 1 /\ Cli.exitCode completion = 1 /\
    Cli.stdoutWrites out = 0%nat)).
Proof.
  unfold Cli.main, Cli.try_catch in Hcompleted.
  pose proof (reports_body env getParsedTokenAccountsByOwner parseFloat
                DEFAULT_WALLET_PATH walletFile save args [] []) as Hbody.
  match type of Hbody with
  | match ?body with _ => _ end => destruct body as [[[[]|e|code] out'] t']
  end.
  - injection Hcompleted as <- <- _. split; [discriminate|]. left. auto.
  - cbv [mbind Cli.P_bind Cli.print Cli.process_exit] in Hcompleted.
    injection Hcompleted as <- <- _. split; [discriminate|]. right.
    rewrite stdoutWrites_app, Hbody. auto.
  - destruct Hbody as [-> Hout]. injection Hcompleted as <- <- _.
    split; [discriminate|]. right. auto.
Qed.

Lemma main_reports_once_on_success_witness :
  let env := Demo.env Demo.found Demo.okResponse in
  let main :=
    Cli.main env (fun _ _ => Ok []) (StringToNumber env) "/home/agent/id.json" in
  let transferred :=
    main (Some (Ok Demo.me)) (fun _ path => Ok path) ["transfer"; "Dest"; "2"] [] [] in
  let refused :=
    main None (fun _ path => Ok path) ["transfer"; "Dest"; "2"] [] [] in
  (fst (fst transferred) = Cli.Normal tt /\
   Cli.stdoutWrites (snd (fst transferred)) = 1%nat) /\
  (fst (fst refused) = Cli.Exit 1 /\
   Cli.stdoutWrites (snd (fst refused)) = 0%nat).
Proof.
  intros env main transferred refused. split.
  - destruct (main_reports_once_on_success env (fun _ _ => Ok []) (StringToNumber env)
                "/home/agent/id.json" (Some (Ok Demo.me)) (fun _ path => Ok path)
                ["transfer"; "Dest"; "2"]
                (fst (fst transferred)) (snd (fst transferred)) (snd transferred))
      as [_ [(Hc & _ & Hout)|(Hc & _)]].
    + vm_compute. reflexivity.
    + split; [exact Hc | exact Hout].
    + vm_compute in Hc. discriminate Hc.
  - destruct (main_reports_once_on_success env (fun _ _ => Ok []) (StringToNumber env)
                "/home/agent/id.json" None (fun _ path => Ok path)
                ["transfer"; "Dest"; "2"]
                (fst (fst refused)) (snd (fst refused)) (snd refused))
      as [_ [(Hc & _)|(Hc & _ & Hout)]].
    + vm_compute. reflexivity.
    + vm_compute in Hc. discriminate Hc.
    + split; [exact Hc | exact Hout].
Defined.


(** X24. A [--token] flag with no mint after it does not stop a transfer:
    [transfer <to> <amount> --token] is [transfer <to> <amount>].  With a
    wallet file that loads, it announces a transfer of SOL, calls
    [sendSol] on the recipient and the amount as typed, and reports the
    token ["SOL"]: it returns with the signature on the standard output
    when [sendSol] succeeds, and ends the process with code 1 and the
    message of the error on the standard error when it throws. *)
Theorem transfer_token_flag_without_mint_sends_sol
    (env : Env)
    (getParsedTokenAccountsByOwner :
       PublicKey -> PublicKey -> Result (list ParsedAccount))
    (parseFloat : string -> float)
    (DEFAULT_WALLET_PATH : string)
    (walletFile : option (Result Wallet.t))
    (save : Wallet.t -> string -> Result string)
    (w : Wallet.t) (to amount : string)
    (Hfile : walletFile = Some (Ok w))
    (Hto : to <> EmptyString /\ to <> "--token")
    (Hamount : amount <> EmptyString /\ amount <> "--token") :
  let main :=
    Cli.main env getParsedTokenAccountsByOwner parseFloat DEFAULT_WALLET_PATH
      walletFile save in
  let announced :=
    Cli.Stderr ("Transferring " +:+ amount +:+ " SOL to " +:+ to +:+ "...") in
  main ["transfer"; to; amount; "--token"] = main ["transfer"; to; amount] /\
  main ["transfer"; to; amount; "--token"] [] [] =
  match run (Transfer.sendSol env w to (VStr amount)) with
  | (Ok result, t) =>
      (Cli.Normal tt,
       [ announced;
         Cli.Stdout (VObj [ ("success", VBool true);
                            ("signature", VStr (Transfer.sol_signature result));
                            ("to", VStr to);
                            ("amount", VStr amount);
                            ("token", VStr "SOL");
                            ("explorer", VStr (Transfer.sol_explorerUrl result)) ]) ],
       t)
  | (Throw e, t) =>
      (Cli.Exit 1,
       [ announced;
         Cli.StderrJson (VObj [ ("success", VBool false);
                                ("error", VStr (message e)) ]) ],
       t)
  end.
Proof.
  intros main announced. subst main announced.
  destruct Hto as [Hto Hto']. destruct Hamount as [Hamount Hamount'].
  apply String.eqb_neq in Hto, Hto', Hamount, Hamount'.
  assert (Hnone : Cli.tokenMintOf ["transfer"; to; amount; "--token"] = None).
  { unfold Cli.tokenMintOf. cbn [Cli.indexOf]. rewrite Hto', Hamount'. reflexivity. }
  assert (Hnone' : Cli.tokenMintOf ["transfer"; to; amount] = None).
  { unfold Cli.tokenMintOf. cbn [Cli.indexOf]. rewrite Hto', Hamount'. reflexivity. }
  assert (Hsame : forall rest,
            Cli.tokenMintOf ("transfer" :: to :: amount :: rest) = None ->
            Cli.main env getParsedTokenAccountsByOwner parseFloat DEFAULT_WALLET_PATH
              walletFile save ("transfer" :: to :: amount :: rest)
            = Cli.try_catch
                (wallet ← Cli.loadWallet DEFAULT_WALLET_PATH walletFile;
                 _ ← Cli.console_error
                       ("Transferring " +:+ amount +:+ " SOL to " +:+ to +:+ "...");
                 '(signature, explorerUrl) ←
                   (result ← Cli.call (Transfer.sendSol env wallet to (VStr amount));
                    mret (Transfer.sol_signature result,
                          Transfer.sol_explorerUrl result));
                 Cli.console_log
                   (VObj [ ("success", VBool true);
                           ("signature", VStr signature);
                           ("to", VStr to);
                           ("amount", VStr amount);
                           ("token", VStr "SOL");
                           ("explorer", VStr explorerUrl) ]))
                (fun error =>
                   _ ← Cli.print (Cli.StderrJson
                                    (VObj [ ("success", VBool false);
                                            ("error", VStr (message error)) ]));
                   Cli.process_exit 1)).
  { intros rest Hrest. unfold Cli.main.
    change (Cli.argIs ("transfer" :: to :: amount :: rest) 0 "wallet") with false.
    change (Cli.argIs ("transfer" :: to :: amount :: rest) 0 "swap") with false.
    change (Cli.argIs ("transfer" :: to :: amount :: rest) 0 "price") with false.
    change (Cli.argIs ("transfer" :: to :: amount :: rest) 0 "transfer") with true.
    cbv iota. unfold Cli.transferCommand. rewrite Hrest.
    cbn [lookup list_lookup default]. rewrite Hto, Hamount. cbn [orb].
    reflexivity. }
  rewrite (Hsame _ Hnone), (Hsame _ Hnone'). split; [reflexivity|].
  unfold Cli.try_catch, Cli.loadWallet, run. rewrite Hfile.
  cbv [mbind mret Cli.P_bind Cli.P_ret Cli.call Cli.console_error Cli.console_log
       Cli.print Cli.process_exit lift].
  cbn [app].
  destruct (Transfer.sendSol env w to (VStr amount) []) as [[result|e] t];
    reflexivity.
Qed.

Lemma transfer_token_flag_without_mint_sends_sol_witness :
  let env := Demo.env Demo.found Demo.okResponse in
  Cli.main env (fun _ _ => Ok []) (StringToNumber env) "/home/agent/id.json"
    (Some (Ok Demo.me)) (fun _ path => Ok path)
    ["transfer"; "Dest"; "2"; "--token"] [] []
  = (Cli.Normal tt,
     [ Cli.Stderr "Transferring 2 SOL to Dest...";
       Cli.Stdout (VObj [ ("success", VBool true);
                          ("signature", VStr "5sig");
                          ("to", VStr "Dest");
                          ("amount", VStr "2");
                          ("token", VStr "SOL");
                          ("explorer", VStr "https://solscan.io/tx/5sig") ]) ],
     [ EvSendAndConfirm
         [ SystemProgram_transfer (publicKey (Wallet.keypair Demo.me))
             (mkPublicKey "Dest") 2000000000%float ]
         [ Wallet.keypair Demo.me ] ]).
Proof.
  intros env.
  assert (Hto : "Dest" <> EmptyString /\ "Dest" <> "--token")
    by (split; discriminate).
  assert (Hamount : "2" <> EmptyString /\ "2" <> "--token")
    by (split; discriminate).
  destruct (transfer_token_flag_without_mint_sends_sol env (fun _ _ => Ok [])
              (StringToNumber env) "/home/agent/id.json" (Some (Ok Demo.me))
              (fun _ path => Ok path) Demo.me "Dest" "2" eq_refl Hto Hamount)
    as [_ Hrun].
  rewrite Hrun. vm_compute. reflexivity.
Defined.

(** X25. Without a wallet file the commands that load the wallet do
    nothing else.  When no file exists at the wallet path, every [swap],
    [transfer] and [stake] command, whatever its further arguments, and so
    [stake validators] too, every [wallet balance], [wallet tokens] and
    [wallet address], and every [price] given a token, writes the two lines
    telling that the wallet was not found and how to create one to the
    standard error and ends the process with code 1, having made no remote
    call; whereas [tokens] prints the token table and returns. *)
Theorem commands_need_the_wallet_file
    (env : Env)
    (getParsedTokenAccountsByOwner :
       PublicKey -> PublicKey -> Result (list ParsedAccount))
    (parseFloat : string -> float)
    (DEFAULT_WALLET_PATH : string)
    (save : Wallet.t -> string -> Result string) :
  let main :=
    Cli.main env getParsedTokenAccountsByOwner parseFloat DEFAULT_WALLET_PATH
      None save in
  let notFound :=
    (Cli.Exit 1 : Cli.Completion unit,
     [ Cli.Stderr ("Wallet not found at " +:+ DEFAULT_WALLET_PATH);
       Cli.Stderr "Create one with: solana-agent wallet create" ],
     [] : list Event) in
  (forall command rest,
      command ∈ ["swap"; "transfer"; "stake"] ->
      main (command :: rest) [] [] = notFound) /\
  (forall subcommand rest,
      subcommand ∈ ["balance"; "tokens"; "address"] ->
      main ("wallet" :: subcommand :: rest) [] [] = notFound) /\
  (forall token rest,
      token <> EmptyString ->
      main ("price" :: token :: rest) [] [] = notFound) /\
  (forall rest,
      main ("tokens" :: rest) [] [] = (Cli.Normal tt, [Cli.Stdout (VObj Swapper.TOKENS)], [])).
Proof.
  intros main notFound. subst main notFound.
  split; [|split; [|split]].
  - intros command rest Hin.
    repeat (apply elem_of_cons in Hin as [->|Hin]; [reflexivity|]).
    apply elem_of_nil in Hin. contradiction.
  - intros subcommand rest Hin.
    repeat (apply elem_of_cons in Hin as [->|Hin]; [reflexivity|]).
    apply elem_of_nil in Hin. contradiction.
  - intros token rest Hne. apply String.eqb_neq in Hne.
    unfold Cli.main, Cli.try_catch.
    change (Cli.argIs ("price" :: token :: rest) 0 "wallet") with false.
    change (Cli.argIs ("price" :: token :: rest) 0 "swap") with false.
    change (Cli.argIs ("price" :: token :: rest) 0 "price") with true.
    cbv iota. unfold Cli.priceCommand. cbn [lookup list_lookup]. rewrite Hne.
    reflexivity.
  - intros rest. reflexivity.
Qed.

Lemma commands_need_the_wallet_file_witness :
  let env := Demo.env Demo.found Demo.okResponse in
  Cli.main env (fun _ _ => Ok []) (StringToNumber env) "/home/agent/id.json" None
    (fun _ path => Ok path) ["stake"; "validators"] [] []
  = (Cli.Exit 1,
     [ Cli.Stderr "Wallet not found at /home/agent/id.json";
       Cli.Stderr "Create one with: solana-agent wallet create" ],
     []).
Proof.
  intros env.
  destruct (commands_need_the_wallet_file env (fun _ _ => Ok []) (StringToNumber env)
              "/home/agent/id.json" (fun _ path => Ok path)) as (Hload & _).
  apply (Hload "stake" ["validators"]).
  do 2 (apply elem_of_cons; right). apply elem_of_cons. left. reflexivity.
Defined.

(** X26. A first argument that is none of the six commands is no error to
    the command line: be it [help], a mistyped command or absent, [main]
    prints the help text to the standard output and returns, the process
    ending with code 0, without reading the wallet file or making a remote
    call. *)
Theorem unknown_commands_print_help
    (env : Env)
    (getParsedTokenAccountsByOwner :
       PublicKey -> PublicKey -> Result (list ParsedAccount))
    (parseFloat : string -> float)
    (DEFAULT_WALLET_PATH : string)
    (walletFile : option (Result Wallet.t))
    (save : Wallet.t -> string -> Result string)
    (args : list string)
    (Hunknown : forall command,
        command ∈ ["wallet"; "swap"; "price"; "transfer"; "tokens"; "stake"] ->
        args !! 0%nat <> Some command) :
  Cli.main env getParsedTokenAccountsByOwner parseFloat DEFAULT_WALLET_PATH
    walletFile save args [] []
  = (Cli.Normal tt, [Cli.StdoutLine Cli.helpText], []).
Proof.
  assert (Hno : forall command,
            command ∈ ["wallet"; "swap"; "price"; "transfer"; "tokens"; "stake"] ->
            Cli.argIs args 0 command = false).
  { intros command Hin. specialize (Hunknown command Hin).
    unfold Cli.argIs, Cli.arg. destruct (args !! 0%nat) as [a|]; [|reflexivity].
    cbn [strict_eq_str]. apply String.eqb_neq. intros ->. apply Hunknown. reflexivity. }
  unfold Cli.main, Cli.try_catch.
  repeat match goal with
  | |- context [Cli.argIs args 0 ?c] =>
      rewrite (Hno c)
        by (repeat (apply elem_of_cons; first [left; reflexivity|right]))
  end.
  reflexivity.
Qed.

Lemma unknown_commands_print_help_witness :
  let env := Demo.env Demo.found Demo.okResponse in
  Cli.exitCode
    (fst (fst (Cli.main env (fun _ _ => Ok []) (StringToNumber env)
                 "/home/agent/id.json" None (fun _ path => Ok path)
                 ["trasnfer"; "Dest"; "2"] [] [])))
  = 0.
Proof.
  intros env.
  rewrite (unknown_commands_print_help env (fun _ _ => Ok []) (StringToNumber env)
             "/home/agent/id.json" None (fun _ path => Ok path)
             ["trasnfer"; "Dest"; "2"]).
  - reflexivity.
  - intros command Hin.
    repeat (apply elem_of_cons in Hin as [->|Hin]; [discriminate|]).
    apply elem_of_nil in Hin. contradiction.
Defined.
